(** * Degenify: the request orchestration of the gallery servers

    A shallow embedding of the HTTP handlers of [server.mjs] (records kept in
    the process-wide array [generatedImages], mirrored to gallery.json) and of
    [server-persistent.mjs] (records kept in the PostgreSQL table [images],
    picture bytes in Cloudinary).  Every handler is a function of the store it
    reads, the request, and the answers of the outside world during that
    request (the file system, the generation endpoint, the clock, the object
    store, the database).  It returns the response, the store afterwards and
    the outgoing calls it made.

    A handler touches the store in one step, after its last [await] (the push
    onto the array) or in its one SQL statement, so requests in flight
    together act as requests handled one after the other. *)

From Stdlib Require Import String Ascii Strings.Byte List ZArith Bool Lia.
From Stdlib Require Import Permutation Sorted DecimalString QArith_base.
Close Scope Q_scope.
Import ListNotations.
Open Scope string_scope.

(** ** JavaScript values *)

(** Numbers are IEEE doubles in the source.  Nothing here computes with them:
    the handlers only test them for truthiness, compare an id with a request
    parameter through [==], and print them.  These three operations are the
    interface. *)
Class JSNumber : Type := {
  num : Type;                         (* the numbers other than NaN *)
  num_eqb : num -> num -> bool;       (* [x == y] on two such numbers *)
  num_is_zero : num -> bool;          (* [+0] and [-0], the falsy ones *)
  ToNumber : string -> option num;    (* [Number(s)]; [None] is NaN *)
  num_toString : num -> string        (* [String(x)] *)
}.

Section Values.
Context {JSN : JSNumber}.

(** What [JSON.parse] and [express.json()] produce.  An object lists each key
    once, as the parser leaves it. *)
#[warnings="-register-all"]
Inductive JValue : Type :=
| JNull
| JBool (b : bool)
| JNum (n : num)
| JStr (s : string)
| JArr (items : list JValue)
| JObj (fields : list (string * JValue)).

(** [undefined] is [None] in an [option JValue]. *)
Definition truthy (v : JValue) : bool :=
  match v with
  | JNull => false
  | JBool b => b
  | JNum n => negb (num_is_zero n)
  | JStr s => negb (String.eqb s EmptyString)
  | JArr _ => true
  | JObj _ => true
  end.

Definition truthy_opt (v : option JValue) : bool :=
  match v with
  | Some x => truthy x
  | None => false
  end.

Fixpoint lookup (k : string) (fields : list (string * JValue)) : option JValue :=
  match fields with
  | [] => None
  | (k', v) :: rest => if String.eqb k k' then Some v else lookup k rest
  end.

(** [v.k] for the keys the handlers read (prompt, candidates, content, parts,
    inline_data, inlineData, data): none of them is an index, [length] or a
    prototype member, so only an object can hold one.  The outer [None] is
    the TypeError of reading a property of [null]. *)
Definition get (v : JValue) (k : string) : option (option JValue) :=
  match v with
  | JNull => None
  | JObj fields => Some (lookup k fields)
  | _ => Some None
  end.

(** [v?.k] on a possibly undefined [v]: never throws. *)
Definition get_opt (v : option JValue) (k : string) : option JValue :=
  match v with
  | Some (JObj fields) => lookup k fields
  | _ => None
  end.

Definition singleton_string (c : ascii) : JValue := JStr (String c EmptyString).

(** [v?.[0]] *)
Definition first_opt (v : option JValue) : option JValue :=
  match v with
  | Some (JArr (x :: _)) => Some x
  | Some (JStr (String c _)) => Some (singleton_string c)
  | Some (JObj fields) => lookup "0" fields
  | _ => None
  end.

(** The values a [for ... of] loop visits; [None] when the value is not
    iterable (TypeError).  A string is visited character by character. *)
Definition iterate (v : JValue) : option (list JValue) :=
  match v with
  | JArr items => Some items
  | JStr s => Some (map singleton_string (list_ascii_of_string s))
  | _ => None
  end.

(** [a || b] *)
Definition or_else (a : option JValue) (b : JValue) : JValue :=
  match a with
  | Some x => if truthy x then x else b
  | None => b
  end.

(** [String(v)], as a template literal applies it; [None] is the TypeError of
    a value that cannot be converted.  An object is printed by the [toString]
    it finds: the one of [Object.prototype], unless the object has a key
    [toString] of its own, whose value, coming from JSON, is not callable;
    [valueOf] then returns the object itself and the conversion throws.  An
    array joins the texts of its elements, [null] counting as empty. *)
Fixpoint ToString (v : JValue) : option string :=
  match v with
  | JNull => Some "null"
  | JBool true => Some "true"
  | JBool false => Some "false"
  | JNum n => Some (num_toString n)
  | JStr s => Some s
  | JArr items =>
      (fix join (l : list JValue) : option string :=
         match l with
         | [] => Some EmptyString
         | x :: rest =>
             match (match x with JNull => Some EmptyString | _ => ToString x end),
                   join rest with
             | Some first, Some others =>
                 Some (match rest with
                       | [] => first
                       | _ => first ++ "," ++ others
                       end)
             | _, _ => None
             end
         end) items
  | JObj fields =>
      match lookup "toString" fields with
      | Some _ => None
      | None => Some "[object Object]"
      end
  end.

End Values.

(** ** The Node runtime and the libraries *)

(** [Buffer], [Date], the parameter conversion of the PostgreSQL driver and
    the encoding of an address by Express are the platform's.  The only law the handlers rely on is that decoding the
    base64 text of a buffer gives the buffer back. *)
Class Node {JSN : JSNumber} : Type := {
  base64_decode : string -> list byte;   (* [Buffer.from(s, 'base64')] *)
  base64_encode : list byte -> string;   (* [buf.toString('base64')] *)
  base64_decode_encode : forall buf, base64_decode (base64_encode buf) = buf;
  Buffer_from_object : JValue -> option (list byte);
                                         (* [Buffer.from] on arrays, objects *)
  toISOString : Z -> string;             (* [new Date(ms).toISOString()] *)
  pg_prepareValue : JValue -> string;    (* an array or object as a query
                                            parameter *)
  encodeUrl : string -> string           (* the address as [res.location]
                                            writes it *)
}.

Section Runtime.
Context {JSN : JSNumber} {ND : Node}.

(** [Buffer.from(v, 'base64')]: a string of any content decodes; a number, a
    boolean or [null] is ERR_INVALID_ARG_TYPE ([None]). *)
Definition Buffer_from (v : JValue) : option (list byte) :=
  match v with
  | JStr s => Some (base64_decode s)
  | JArr _ | JObj _ => Buffer_from_object v
  | _ => None
  end.

(** ** Responses and outgoing calls *)

Inductive Body : Type :=
| Json (v : JValue)            (* [res.json(v)] *)
| Bytes (buf : list byte)      (* [res.send(buffer)] *)
| Text (s : string)            (* [res.send(string)] *)
| Redirecting (address : string).
                               (* the note of [res.redirect]: Found.
                                  Redirecting to [address], as text or as
                                  HTML, or nothing, as the Accept header of
                                  the request asks *)

Record Response : Type := {
  status : Z;
  headers : list (string * string);     (* the headers the handler sets, in
                                           order *)
  body : Body
}.

Definition res_json (code : Z) (v : JValue) : Response :=
  {| status := code; headers := []; body := Json v |}.

Definition res_send_text (code : Z) (s : string) : Response :=
  {| status := code; headers := []; body := Text s |}.

(** [res.redirect(url)]: the address goes through [encodeUrl] into the
    Location header, and the body names it. *)
Definition res_redirect (url : string) : Response :=
  {| status := 302;
     headers := [("Location", encodeUrl url)];
     body := Redirecting (encodeUrl url) |}.

Definition error_body (msg : string) : JValue := JObj [("error", JStr msg)].

Definition error_detail (msg : string) (detail : JValue) : JValue :=
  JObj [("error", JStr msg); ("detail", detail)].

Inductive Event : Type :=
| Fetch (method url : string) (hdrs : list (string * string)) (payload : option JValue)
| WriteFile (file : string) (content : JValue)
| Upload (file : string) (options : list (string * string))
| Query (sql : string) (params : list JValue).

(** ** Handlers *)

(** A handler body runs statement by statement until one of them sends the
    response and returns, or throws.  The store and the log of outgoing calls
    are threaded through; what was written before a throw stays written. *)
Inductive Outcome (A : Type) : Type :=
| Next (a : A)
| Return (r : Response)
| Throw.
Arguments Next {A} a.
Arguments Return {A} r.
Arguments Throw {A}.

Definition Handler (S A : Type) : Type := S -> Outcome A * S * list Event.

Definition ret {S A} (a : A) : Handler S A := fun s => (Next a, s, []).

Definition bind {S A B} (m : Handler S A) (k : A -> Handler S B) : Handler S B :=
  fun s =>
    match m s with
    | (Next a, s1, log1) =>
        match k a s1 with
        | (o, s2, log2) => (o, s2, (log1 ++ log2)%list)
        end
    | (Return r, s1, log1) => (Return r, s1, log1)
    | (Throw, s1, log1) => (Throw, s1, log1)
    end.

Definition respond {S A} (r : Response) : Handler S A := fun s => (Return r, s, []).
Definition throw {S A} : Handler S A := fun s => (Throw, s, []).
Definition call {S} (ev : Event) : Handler S unit := fun s => (Next tt, s, [ev]).
Definition read {S} : Handler S S := fun s => (Next s, s, []).
Definition write {S} (s' : S) : Handler S unit := fun _ => (Next tt, s', []).

(** [if (!v) return r] *)
Definition unless_truthy {S} (v : option JValue) (r : Response) : Handler S JValue :=
  match v with
  | Some x => if truthy x then ret x else respond r
  | None => respond r
  end.

(** A call that may reject. *)
Definition settle {S A} (answer : option A) : Handler S A :=
  match answer with
  | Some a => ret a
  | None => throw
  end.

(** [try { body } catch (err) { respond r }] around a whole handler. *)
Definition try_catch {S} (m : Handler S Response) (r : Response)
  : S -> Response * S * list Event :=
  fun s =>
    match m s with
    | (Next x, s1, log) => (x, s1, log)
    | (Return x, s1, log) => (x, s1, log)
    | (Throw, s1, log) => (r, s1, log)
    end.

End Runtime.

Arguments Next {JSN A} a.
Arguments Return {JSN A} r.
Arguments Throw {JSN A}.

Notation "x <- m ;; k" := (bind m (fun x => k))
  (at level 61, m at next level, right associativity).
Notation "m ;;; k" := (bind m (fun _ => k))
  (at level 61, right associativity).
Notation "' p <- m ;; k" := (bind m (fun x => let 'p := x in k))
  (at level 61, p pattern, m at next level, right associativity).

(** ** Configuration (lines 15 to 24 of both servers) *)

Definition Env : Type := string -> option string.

(** [process.env.K || d] *)
Definition env_or (env : Env) (k d : string) : string :=
  match env k with
  | Some v => if String.eqb v EmptyString then d else v
  | None => d
  end.

Definition GOOGLE_API_KEY (env : Env) : option string := env "GOOGLE_API_KEY".

Definition MODEL_ID (env : Env) : string :=
  let m := env_or env "MODEL_ID" "gemini-2.5-flash-image-preview" in
  if String.eqb m "gemini-2.5-flash-image"
  then "gemini-2.5-flash-image-preview"
  else m.

Definition BASE_IMAGE_PATH (env : Env) : string :=
  env_or env "BASE_IMAGE_PATH" "public/base.png".

Definition GOOGLE_API_BASE (env : Env) : string :=
  env_or env "GOOGLE_API_BASE" "https://generativelanguage.googleapis.com".

Definition GALLERY_FILE : string := "gallery.json".

(** The key as [if (!GOOGLE_API_KEY)] sees it: unset and empty are the same. *)
Definition configured (key : option string) : option string :=
  match key with
  | Some k => if String.eqb k EmptyString then None else Some k
  | None => None
  end.

(** ** Generation: the part of POST /api/generate both servers share

    Lines 42 to 110 of server.mjs, 62 to 130 of server-persistent.mjs. *)

Section Generation.
Context {JSN : JSNumber} {ND : Node}.

(** What [fetch] to the generation endpoint comes back with. *)
Inductive Upstream : Type :=
| Rejected                      (* the call or the reading of its body fails *)
| NotOk (errText : string)      (* [!aiRes.ok], with [await aiRes.text()] *)
| Ok (data : JValue).           (* [aiRes.ok], with [await aiRes.json()] *)

(** The answers of the outside world during one request. *)
Record World : Type := {
  base_file : option (list byte);  (* the file at BASE_IMAGE_PATH as read;
                                      [None] when there is none *)
  upstream : Upstream;
  fresh_id : num;                  (* [Date.now() + Math.random()] *)
  clock : Z                        (* [new Date()], [Date.now()], in ms *)
}.

(** The template literal of lines 57 to 67, on the text of [${prompt}]. *)
Definition enhancedPrompt (prompt : string) : string :=
  "You are an image editor. You must ALWAYS preserve the purple hat from the base image character. 
        
Instructions:
1. Keep the distinctive PURPLE HAT from the base image character
2. The character can change poses, expressions, and clothing to fit the situation
3. The character can be dressed differently for the new context
4. Only modify the background, setting, or environment around the character
5. Place the character in the new situation described: " ++ prompt ++ "
6. The purple hat must remain visible and distinctive

Situation to create: " ++ prompt.

Definition requestBody (prompt : string) (baseImage : list byte) : JValue :=
  JObj [("contents", JArr [
    JObj [("parts", JArr [
      JObj [("text", JStr (enhancedPrompt prompt))];
      JObj [("inlineData", JObj [("mimeType", JStr "image/png");
                                 ("data", JStr (base64_encode baseImage))])]])]])].

Definition generateContent (env : Env) (key : string) (prompt : string)
    (baseImage : list byte) : Event :=
  Fetch "POST"
    (GOOGLE_API_BASE env ++ "/v1beta/models/" ++ MODEL_ID env ++ ":generateContent")
    [("Content-Type", "application/json"); ("x-goog-api-key", key)]
    (Some (requestBody prompt baseImage)).

(** [res.setHeader('Content-Type', 'image/png'); res.status(200).send(buf)] *)
Definition res_png (buf : list byte) : Response :=
  {| status := 200; headers := [("Content-Type", "image/png")]; body := Bytes buf |}.

(** The loop of lines 100 to 103.  The outer [None] is the TypeError of
    reading [p.inline_data] on a [null] part; the inner one is a loop that
    ends with [b64] still undefined. *)
Fixpoint scan (parts : list JValue) : option (option JValue) :=
  match parts with
  | [] => Some None
  | p :: rest =>
      match get p "inline_data" with
      | None => None
      | Some snake =>
          if truthy_opt (get_opt snake "data") then Some (get_opt snake "data")
          else
            match get p "inlineData" with
            | None => None
            | Some camel =>
                if truthy_opt (get_opt camel "data")
                then Some (get_opt camel "data")
                else scan rest
            end
      end
  end.

(** Lines 97 to 104: [b64] after the [try { ... } catch { }].  Whatever throws
    inside leaves it undefined. *)
Definition b64_of (data : JValue) : option JValue :=
  match get data "candidates" with
  | None => None
  | Some candidates =>
      let parts :=
        or_else (get_opt (get_opt (first_opt candidates) "content") "parts")
                (JArr []) in
      match iterate parts with
      | None => None
      | Some items =>
          match scan items with
          | None => None
          | Some b64 => b64
          end
      end
  end.

(** [const { prompt } = req.body || {}] *)
Definition prompt_of (reqbody : option JValue) : option JValue :=
  get_opt (Some (or_else reqbody (JObj []))) "prompt".

Definition generation {S : Type} (env : Env) (w : World) (reqbody : option JValue)
  : Handler S (JValue * JValue * list byte) :=
  prompt <- unless_truthy (prompt_of reqbody)
              (res_json 400 (error_body "prompt required")) ;;
  baseImage <- match base_file w with
               | None => respond (res_json 400
                           (error_body ("Base image missing at " ++ BASE_IMAGE_PATH env)))
               | Some file => ret file
               end ;;
  key <- match configured (GOOGLE_API_KEY env) with
         | None => respond (res_png baseImage)
         | Some k => ret k
         end ;;
  (* [${prompt}] throws on a prompt that has no text *)
  text <- settle (ToString prompt) ;;
  call (generateContent env key text baseImage) ;;;
  data <- match upstream w with
          | Rejected => throw
          | NotOk errText =>
              respond (res_json 502 (error_detail "Google API error" (JStr errText)))
          | Ok data => ret data
          end ;;
  b64 <- unless_truthy (b64_of data)
           (res_json 502 (error_detail "No image returned" data)) ;;
  imgBuffer <- settle (Buffer_from b64) ;;
  ret (prompt, b64, imgBuffer).

End Generation.

(** ** Arrays *)

Section Arrays.
Context {A : Type}.

(** [Array.prototype.sort(cmp)].  The language fixes the result for a
    consistent comparator: sorted, and stable.  Insertion from the right
    computes it. *)
Fixpoint insert (cmp : A -> A -> Z) (x : A) (l : list A) : list A :=
  match l with
  | [] => [x]
  | y :: rest => if (cmp x y <=? 0)%Z then x :: y :: rest else y :: insert cmp x rest
  end.

Fixpoint Array_sort (cmp : A -> A -> Z) (l : list A) : list A :=
  match l with
  | [] => []
  | x :: rest => insert cmp x (Array_sort cmp rest)
  end.

End Arrays.

Definition quote : string := String (ascii_of_nat 34) EmptyString.
Definition newline : string := String (ascii_of_nat 10) EmptyString.

(** A template literal: its texts and the values of its expressions, in
    order. *)
Definition template (pieces : list string) : string :=
  fold_right String.append EmptyString pieces.

(** [String(n)] for an integral number of milliseconds. *)
Definition decimal (n : Z) : string :=
  DecimalString.NilZero.string_of_int (Z.to_int n).

(** ** server.mjs: the records live in [generatedImages] *)

Module InMemory.
Section Server.
Context {JSN : JSNumber} {ND : Node}.

(** A stored record.  [timestamp] is the instant, in ms, whose ISO text the
    source stores; [new Date(text)] reads the instant back. *)
Record ImageRecord : Type := {
  id : num;
  prompt : JValue;
  imageData : string;
  timestamp : Z
}.

(** A record as [JSON.stringify] and [res.json] write it. *)
Definition to_json (img : ImageRecord) : JValue :=
  JObj [("id", JNum (id img));
        ("prompt", prompt img);
        ("imageData", JStr (imageData img));
        ("timestamp", JStr (toISOString (timestamp img)))].

Definition Reply : Type := Response * list ImageRecord * list Event.

(** The object of lines 113 to 118 for this request. *)
Definition created (w : World) (prompt : JValue) (imgBuffer : list byte)
  : ImageRecord :=
  {| id := fresh_id w;
     prompt := prompt;
     imageData := base64_encode imgBuffer;
     timestamp := clock w |}.

Definition post_api_generate (env : Env) (w : World) (reqbody : option JValue)
  : list ImageRecord -> Reply :=
  try_catch
    ('(prompt, b64, imgBuffer) <- generation env w reqbody ;;
     let imageData := created w prompt imgBuffer in
     generatedImages <- read ;;
     write (generatedImages ++ [imageData])%list ;;;
     (* a write that fails is logged and swallowed *)
     call (WriteFile GALLERY_FILE
             (JArr (map to_json (generatedImages ++ [imageData])%list))) ;;;
     ret (res_png imgBuffer))
    (res_json 500 (error_body "server error")).

(** [new Date(b.timestamp) - new Date(a.timestamp)] *)
Definition newest_first (a b : ImageRecord) : Z := (timestamp b - timestamp a)%Z.

Definition sortedImages (generatedImages : list ImageRecord) : list ImageRecord :=
  Array_sort newest_first generatedImages.

Definition get_api_gallery (generatedImages : list ImageRecord) : Reply :=
  (res_json 200 (JArr (map to_json (sortedImages generatedImages))),
   generatedImages, []).

(** [img.id == imageId], a number against the text of a route parameter *)
Definition id_is (imageId : string) (img : ImageRecord) : bool :=
  match ToNumber imageId with
  | Some n => num_eqb (id img) n
  | None => false
  end.

Definition get_api_image (imageId : string) (generatedImages : list ImageRecord)
  : Reply :=
  match find (id_is imageId) generatedImages with
  | None => (res_json 404 (error_body "Image not found"), generatedImages, [])
  | Some image => (res_png (base64_decode (imageData image)), generatedImages, [])
  end.

Definition get_api_download (imageId : string) (generatedImages : list ImageRecord)
  : Reply :=
  match find (id_is imageId) generatedImages with
  | None => (res_json 404 (error_body "Image not found"), generatedImages, [])
  | Some image =>
      ({| status := 200;
          headers := [("Content-Type", "image/png");
                      ("Content-Disposition",
                       "attachment; filename=" ++ quote ++ "meme-" ++ imageId
                         ++ ".png" ++ quote)];
          body := Bytes (base64_decode (imageData image)) |},
       generatedImages, [])
  end.

(** The exposed operations. *)
Inductive Request : Type :=
| PostGenerate (reqbody : option JValue)
| GetGallery
| GetImage (imageId : string)
| GetDownload (imageId : string).

Definition handle (env : Env) (w : World) (req : Request)
  : list ImageRecord -> Reply :=
  match req with
  | PostGenerate reqbody => post_api_generate env w reqbody
  | GetGallery => get_api_gallery
  | GetImage imageId => get_api_image imageId
  | GetDownload imageId => get_api_download imageId
  end.

Definition store_after (r : Reply) : list ImageRecord := snd (fst r).
Definition response_of (r : Reply) : Response := fst (fst r).
Definition calls_of (r : Reply) : list Event := snd r.

(** The store after a sequence of requests, each with its world. *)
Fixpoint run (env : Env) (history : list (World * Request))
    (generatedImages : list ImageRecord) : list ImageRecord :=
  match history with
  | [] => generatedImages
  | (w, req) :: later =>
      run env later (store_after (handle env w req generatedImages))
  end.

End Server.
End InMemory.

(** ** server-persistent.mjs: the records live in the table [images] *)

Module Persistent.
Section Server.
Context {JSN : JSNumber} {ND : Node}.

(** A row of [images] (lines 43 to 49).  [id] is the primary key. *)
Record Row : Type := {
  id : string;
  prompt : string;
  cloudinary_url : string;
  cloudinary_public_id : string;
  timestamp : Z
}.

(** What [fetch] of a stored picture comes back with. *)
Inductive Download : Type :=
| Unreachable
| Missing                       (* [!response.ok] *)
| Found (buf : list byte).

(** The answers of Cloudinary and PostgreSQL during one request. *)
Record Services : Type := {
  uploaded : option (string * string);
                               (* [secure_url] and [public_id], or a rejection *)
  db_up : bool;                (* whether [pool.query] resolves, the key
                                  constraint apart *)
  db_clock : Z;                (* CURRENT_TIMESTAMP *)
  listed : list Row;           (* the rows of the ORDER BY query, as returned *)
  stored : string -> Download  (* [fetch(url)] of a storage URL *)
}.

(** What SQL promises of [SELECT * FROM images ORDER BY timestamp DESC]: every
    row, newest first; the order of rows of one timestamp is left open. *)
Definition newer_or_same (a b : Row) : Prop := (timestamp b <= timestamp a)%Z.

Definition order_by_timestamp_desc (images rows : list Row) : Prop :=
  Permutation images rows /\ StronglySorted newer_or_same rows.

(** A value bound to a TEXT or VARCHAR parameter, as the driver sends it: a
    string as it is, a number or a boolean through [toString]. *)
Definition bound (v : JValue) : string :=
  match v with
  | JStr s => s
  | JNum n => num_toString n
  | JBool true => "true"
  | JBool false => "false"
  | _ => pg_prepareValue v
  end.

Definition Reply : Type := Response * list Row * list Event.

(** [await pool.query(sql, params)] on a statement that reads. *)
Definition query (sv : Services) (sql : string) (params : list JValue)
    (rows : list Row -> list Row) : Handler (list Row) (list Row) :=
  bind (call (Query sql params)) (fun _ =>
  bind read (fun images =>
  if db_up sv then ret (rows images) else throw)).

(** The row the INSERT of lines 144 to 147 writes; the table fills in the
    timestamp. *)
Definition inserted (w : World) (sv : Services) (prompt : JValue)
    (secure_url public_id : string) : Row :=
  {| id := bound (JNum (fresh_id w));
     prompt := bound prompt;
     cloudinary_url := secure_url;
     cloudinary_public_id := public_id;
     timestamp := db_clock sv |}.

Definition has_id (imageId : string) (row : Row) : bool :=
  String.eqb (id row) imageId.

Definition upload (b64 : string) (imageId : num) : Event :=
  Upload ("data:image/png;base64," ++ b64)
    [("public_id", "degenify/" ++ num_toString imageId);
     ("folder", "degenify");
     ("resource_type", "image")].

Definition insert_into (imageId : num) (prompt : JValue) (secure_url public_id : string)
  : Event :=
  Query
    "INSERT INTO images (id, prompt, cloudinary_url, cloudinary_public_id) VALUES ($1, $2, $3, $4)"
    [JNum imageId; prompt; JStr secure_url; JStr public_id].

Definition where_id (imageId : string) (images : list Row) : list Row :=
  filter (has_id imageId) images.

Definition post_api_generate (env : Env) (w : World) (sv : Services)
    (reqbody : option JValue) : list Row -> Reply :=
  try_catch
    ('(prompt, b64, imgBuffer) <- generation env w reqbody ;;
     let imageId := fresh_id w in
     (* [${b64}] throws on a payload that has no text *)
     payload <- settle (ToString b64) ;;
     call (upload payload imageId) ;;;
     '(secure_url, public_id) <- settle (uploaded sv) ;;
     call (insert_into imageId prompt secure_url public_id) ;;;
     images <- read ;;
     let row := inserted w sv prompt secure_url public_id in
     (* the statement fails when the key is taken *)
     (if db_up sv && negb (existsb (has_id (id row)) images)
      then write (images ++ [row])%list
      else throw) ;;;
     ret (res_png imgBuffer))
    (res_json 500 (error_body "server error")).

Definition to_json (row : Row) : JValue :=
  JObj [("id", JStr (id row));
        ("prompt", JStr (prompt row));
        ("imageData", JStr (cloudinary_url row));
        ("timestamp", JStr (toISOString (timestamp row)))].

Definition get_api_gallery (sv : Services) : list Row -> Reply :=
  try_catch
    (rows <- query sv "SELECT * FROM images ORDER BY timestamp DESC" []
               (fun _ => listed sv) ;;
     ret (res_json 200 (JArr (map to_json rows))))
    (res_json 500 (error_body "Database error")).

Definition get_api_image (sv : Services) (imageId : string) : list Row -> Reply :=
  try_catch
    (rows <- query sv "SELECT * FROM images WHERE id = $1" [JStr imageId]
               (where_id imageId) ;;
     match rows with
     | [] => respond (res_json 404 (error_body "Image not found"))
     | image :: _ =>
         call (Fetch "GET" (cloudinary_url image) [] None) ;;;
         match stored sv (cloudinary_url image) with
         | Unreachable => throw
         | Missing =>
             respond (res_json 404 (error_body "Image not found on Cloudinary"))
         | Found imageBuffer =>
             ret {| status := 200;
                    headers := [("Content-Type", "image/png");
                                ("Cache-Control", "public, max-age=31536000")];
                    body := Bytes imageBuffer |}
         end
     end)
    (res_json 500 (error_body "Database error")).

(** The template literal of lines 217 to 648. *)
Definition html (protocol host imageId imageUrl cloudinaryUrl : string)
    (image : Row) : string :=
  template
  [ newline;
    "<!DOCTYPE html>"; newline;
    "<html lang="; quote; "en"; quote; ">"; newline;
    "<head>"; newline;
    "    <meta charset="; quote; "UTF-8"; quote; ">"; newline;
    "    <meta name="; quote; "viewport"; quote; " content="; quote; "width=device-width, initial-scale=1.0"; quote; ">"; newline;
    "    <title>Epic Degeneration by Degenify</title>"; newline;
    "    <meta name="; quote; "description"; quote; " content="; quote; "Check out this epic degeneration I created with Degenify! 🎩 🔥 $DEGEN"; quote; ">"; newline;
    "    <link rel="; quote; "icon"; quote; " type="; quote; "image/png"; quote; " href="; quote; "/hat-logo.png"; quote; ">"; newline;
    "    <link rel="; quote; "preconnect"; quote; " href="; quote; "https://fonts.googleapis.com"; quote; ">"; newline;
    "    <link rel="; quote; "preconnect"; quote; " href="; quote; "https://fonts.gstatic.com"; quote; " crossorigin>"; newline;
    "    <link href="; quote; "https://fonts.googleapis.com/css2?family=Inter:wght@400;500;600;700;800&display=swap"; quote; " rel="; quote; "stylesheet"; quote; ">"; newline;
    "    "; newline;
    "    <!-- Open Graph / Facebook -->"; newline;
    "    <meta property="; quote; "og:type"; quote; " content="; quote; "website"; quote; ">"; newline;
    "    <meta property="; quote; "og:url"; quote; " content="; quote; protocol; "://"; host; "/api/share/"; imageId; quote; ">"; newline;
    "    <meta property="; quote; "og:title"; quote; " content="; quote; "Epic Degeneration by Degenify"; quote; ">"; newline;
    "    <meta property="; quote; "og:description"; quote; " content="; quote; "Check out this epic degeneration I created with Degenify! 🎩 🔥 $DEGEN"; quote; ">"; newline;
    "    <meta property="; quote; "og:image"; quote; " content="; quote; cloudinaryUrl; quote; ">"; newline;
    "    <meta property="; quote; "og:image:url"; quote; " content="; quote; cloudinaryUrl; quote; ">"; newline;
    "    <meta property="; quote; "og:image:width"; quote; " content="; quote; "1024"; quote; ">"; newline;
    "    <meta property="; quote; "og:image:height"; quote; " content="; quote; "1024"; quote; ">"; newline;
    "    <meta property="; quote; "og:image:type"; quote; " content="; quote; "image/png"; quote; ">"; newline;
    "    <meta property="; quote; "og:image:alt"; quote; " content="; quote; "Epic Degeneration by Degenify"; quote; ">"; newline;
    "    <meta property="; quote; "og:site_name"; quote; " content="; quote; "Degenify"; quote; ">"; newline;
    "    <meta property="; quote; "og:locale"; quote; " content="; quote; "en_US"; quote; ">"; newline;
    "    "; newline;
    "    <!-- Twitter -->"; newline;
    "    <meta name="; quote; "twitter:card"; quote; " content="; quote; "summary_large_image"; quote; ">"; newline;
    "    <meta name="; quote; "twitter:site"; quote; " content="; quote; "@degentokenbase"; quote; ">"; newline;
    "    <meta name="; quote; "twitter:creator"; quote; " content="; quote; "@degentokenbase"; quote; ">"; newline;
    "    <meta name="; quote; "twitter:url"; quote; " content="; quote; protocol; "://"; host; "/api/share/"; imageId; quote; ">"; newline;
    "    <meta name="; quote; "twitter:title"; quote; " content="; quote; "Epic Degeneration by Degenify"; quote; ">"; newline;
    "    <meta name="; quote; "twitter:description"; quote; " content="; quote; "Check out this epic degeneration I created with Degenify! 🎩 🔥 $DEGEN"; quote; ">"; newline;
    "    <meta name="; quote; "twitter:image"; quote; " content="; quote; cloudinaryUrl; quote; ">"; newline;
    "    <meta name="; quote; "twitter:image:alt"; quote; " content="; quote; "Epic Degeneration by Degenify"; quote; ">"; newline;
    "    "; newline;
    "    <!-- Additional meta tags for better compatibility -->"; newline;
    "    <meta name="; quote; "theme-color"; quote; " content="; quote; "#667eea"; quote; ">"; newline;
    "    <meta name="; quote; "msapplication-TileColor"; quote; " content="; quote; "#667eea"; quote; ">"; newline;
    "    <meta name="; quote; "apple-mobile-web-app-capable"; quote; " content="; quote; "yes"; quote; ">"; newline;
    "    <meta name="; quote; "apple-mobile-web-app-status-bar-style"; quote; " content="; quote; "black-translucent"; quote; ">"; newline;
    "    "; newline;
    "    <style>"; newline;
    "        /* Degenify Design System - Gen Z Minimalist Aesthetic */"; newline;
    "        :root {"; newline;
    "            /* Base colors */"; newline;
    "            --background: 0 0% 100%;"; newline;
    "            --foreground: 240 10% 3.9%;"; newline;
    "            --primary: 267 83% 58%;"; newline;
    "            --primary-foreground: 0 0% 100%;"; newline;
    "            --secondary: 267 30% 97%;"; newline;
    "            --secondary-foreground: 267 83% 25%;"; newline;
    "            --accent: 280 100% 70%;"; newline;
    "            --accent-foreground: 0 0% 100%;"; newline;
    "            --muted: 220 14.3% 95.9%;"; newline;
    "            --muted-foreground: 220 8.9% 46.1%;"; newline;
    "            --card: 0 0% 100%;"; newline;
    "            --card-foreground: 240 10% 3.9%;"; newline;
    "            --border: 267 20% 90%;"; newline;
    "            --ring: 267 83% 58%;"; newline;
    "            --radius: 1rem;"; newline;
    "            "; newline;
    "            /* Enhanced gradients */"; newline;
    "            --gradient-primary: linear-gradient(135deg, hsl(267 83% 58%), hsl(280 100% 70%), hsl(290 100% 75%));"; newline;
    "            --gradient-subtle: linear-gradient(180deg, hsl(0 0% 100%), hsl(267 15% 98%));"; newline;
    "            --gradient-mesh: radial-gradient(circle at 20% 80%, hsl(267 83% 58% / 0.3) 0%, transparent 50%), radial-gradient(circle at 80% 20%, hsl(280 100% 70% / 0.3) 0%, transparent 50%);"; newline;
    "            "; newline;
    "            /* Enhanced shadows */"; newline;
    "            --shadow-soft: 0 4px 20px hsl(267 83% 58% / 0.15);"; newline;
    "            --shadow-glow: 0 0 40px hsl(267 83% 58% / 0.4);"; newline;
    "            --shadow-card: 0 12px 40px hsl(240 10% 3.9% / 0.1);"; newline;
    "            --shadow-intense: 0 20px 60px hsl(267 83% 58% / 0.25);"; newline;
    "            "; newline;
    "            /* Animation properties */"; newline;
    "            --transition-smooth: all 0.3s cubic-bezier(0.4, 0, 0.2, 1);"; newline;
    "            --transition-bounce: all 0.4s cubic-bezier(0.68, -0.55, 0.265, 1.55);"; newline;
    "        }"; newline;
    newline;
    "        * {"; newline;
    "            box-sizing: border-box;"; newline;
    "        }"; newline;
    newline;
    "        body {"; newline;
    "            font-family: 'Inter', system-ui, -apple-system, sans-serif;"; newline;
    "            background: var(--gradient-mesh);"; newline;
    "            color: hsl(var(--foreground));"; newline;
    "            margin: 0;"; newline;
    "            padding: 0;"; newline;
    "            min-height: 100vh;"; newline;
    "            line-height: 1.6;"; newline;
    "        }"; newline;
    newline;
    "        .container {"; newline;
    "            max-width: 1200px;"; newline;
    "            margin: 0 auto;"; newline;
    "            padding: 0 1.5rem;"; newline;
    "            text-align: center;"; newline;
    "        }"; newline;
    newline;
    "        .header {"; newline;
    "            padding: 1rem 0 0.5rem;"; newline;
    "            text-align: center;"; newline;
    "        }"; newline;
    newline;
    "        .main {"; newline;
    "            padding: 0.5rem 0;"; newline;
    "            text-align: center;"; newline;
    "        }"; newline;
    newline;
    "        .footer {"; newline;
    "            padding: 2rem 0;"; newline;
    "            text-align: center;"; newline;
    "            border-top: 1px solid hsl(var(--border) / 0.3);"; newline;
    "        }"; newline;
    newline;
    "        .btn-degenify {"; newline;
    "            background: var(--gradient-primary);"; newline;
    "            color: hsl(var(--primary-foreground));"; newline;
    "            font-weight: 700;"; newline;
    "            padding: 1.5rem 3rem;"; newline;
    "            border-radius: 1.5rem;"; newline;
    "            box-shadow: var(--shadow-intense);"; newline;
    "            border: none;"; newline;
    "            cursor: pointer;"; newline;
    "            transition: var(--transition-smooth);"; newline;
    "            position: relative;"; newline;
    "            overflow: hidden;"; newline;
    "            font-size: 1.25rem;"; newline;
    "            height: 4rem;"; newline;
    "            width: 100%;"; newline;
    "            max-width: 400px;"; newline;
    "            display: flex;"; newline;
    "            align-items: center;"; newline;
    "            justify-content: center;"; newline;
    "            gap: 0.75rem;"; newline;
    "            text-decoration: none;"; newline;
    "            margin: 2rem auto;"; newline;
    "        }"; newline;
    newline;
    "        .btn-degenify:hover {"; newline;
    "            box-shadow: var(--shadow-glow);"; newline;
    "            transform: scale(1.05);"; newline;
    "        }"; newline;
    newline;
    "        .btn-degenify:active {"; newline;
    "            transform: scale(0.95);"; newline;
    "        }"; newline;
    newline;
    "        .btn-degenify::before {"; newline;
    "            content: '';"; newline;
    "            position: absolute;"; newline;
    "            inset: 0;"; newline;
    "            background: linear-gradient(90deg, transparent, rgba(255, 255, 255, 0.2), transparent);"; newline;
    "            transform: translateX(-100%) skewX(12deg);"; newline;
    "            transition: transform 0.7s;"; newline;
    "        }"; newline;
    newline;
    "        .btn-degenify:hover::before {"; newline;
    "            transform: translateX(100%);"; newline;
    "        }"; newline;
    newline;
    "        .text-gradient {"; newline;
    "            background: var(--gradient-primary);"; newline;
    "            -webkit-background-clip: text;"; newline;
    "            background-clip: text;"; newline;
    "            -webkit-text-fill-color: transparent;"; newline;
    "            color: transparent;"; newline;
    "        }"; newline;
    newline;
    "        .logo-text-container {"; newline;
    "            display: flex;"; newline;
    "            align-items: center;"; newline;
    "            justify-content: center;"; newline;
    "            gap: 12px;"; newline;
    "        }"; newline;
    newline;
    "        .logo-text-container img {"; newline;
    "            vertical-align: middle;"; newline;
    "            transform: translateY(-2px);"; newline;
    "        }"; newline;
    newline;
    "        .result-image {"; newline;
    "            max-width: 100%;"; newline;
    "            border-radius: 1rem;"; newline;
    "            box-shadow: var(--shadow-intense);"; newline;
    "            margin: 2rem 0;"; newline;
    "            transition: var(--transition-smooth);"; newline;
    "        }"; newline;
    newline;
    "        .result-image:hover {"; newline;
    "            transform: scale(1.02);"; newline;
    "        }"; newline;
    newline;
    "        .prompt-overlay {"; newline;
    "            position: relative;"; newline;
    "            margin: 2rem 0;"; newline;
    "            display: inline-block;"; newline;
    "            max-width: 100%;"; newline;
    "        }"; newline;
    newline;
    "        .prompt-overlay img {"; newline;
    "            width: 100%;"; newline;
    "            height: auto;"; newline;
    "            border-radius: 1rem;"; newline;
    "            box-shadow: var(--shadow-intense);"; newline;
    "            max-width: 600px;"; newline;
    "        }"; newline;
    newline;
    "        .image-overlay {"; newline;
    "            position: absolute;"; newline;
    "            inset: 0;"; newline;
    "            background: linear-gradient(to top, rgba(0, 0, 0, 0.8), rgba(0, 0, 0, 0.2), transparent);"; newline;
    "            opacity: 0;"; newline;
    "            transition: opacity 0.3s;"; newline;
    "            border-radius: 1rem;"; newline;
    "        }"; newline;
    newline;
    "        .prompt-overlay:hover .image-overlay {"; newline;
    "            opacity: 1;"; newline;
    "        }"; newline;
    newline;
    "        .overlay-content {"; newline;
    "            position: absolute;"; newline;
    "            bottom: 1rem;"; newline;
    "            left: 1rem;"; newline;
    "            right: 1rem;"; newline;
    "        }"; newline;
    newline;
    "        .overlay-actions {"; newline;
    "            display: flex;"; newline;
    "            justify-content: space-between;"; newline;
    "            align-items: center;"; newline;
    "            margin-bottom: 1rem;"; newline;
    "        }"; newline;
    newline;
    "        .overlay-action-group {"; newline;
    "            display: flex;"; newline;
    "            gap: 0.5rem;"; newline;
    "        }"; newline;
    newline;
    "        .overlay-action-btn {"; newline;
    "            background: rgba(255, 255, 255, 0.2);"; newline;
    "            backdrop-filter: blur(4px);"; newline;
    "            border: 1px solid rgba(255, 255, 255, 0.3);"; newline;
    "            color: white;"; newline;
    "            border-radius: 0.5rem;"; newline;
    "            padding: 0.5rem;"; newline;
    "            cursor: pointer;"; newline;
    "            transition: var(--transition-smooth);"; newline;
    "            display: flex;"; newline;
    "            align-items: center;"; newline;
    "            justify-content: center;"; newline;
    "            width: 2rem;"; newline;
    "            height: 2rem;"; newline;
    "        }"; newline;
    newline;
    "        .overlay-action-btn:hover {"; newline;
    "            background: rgba(255, 255, 255, 0.3);"; newline;
    "        }"; newline;
    newline;
    "        .overlay-download-btn {"; newline;
    "            background: hsl(var(--primary) / 0.8);"; newline;
    "            backdrop-filter: blur(4px);"; newline;
    "            border: 1px solid hsl(var(--primary));"; newline;
    "            color: white;"; newline;
    "            border-radius: 0.5rem;"; newline;
    "            padding: 0.5rem;"; newline;
    "            cursor: pointer;"; newline;
    "            transition: var(--transition-smooth);"; newline;
    "            display: flex;"; newline;
    "            align-items: center;"; newline;
    "            justify-content: center;"; newline;
    "            width: 2rem;"; newline;
    "            height: 2rem;"; newline;
    "        }"; newline;
    newline;
    "        .overlay-download-btn:hover {"; newline;
    "            background: hsl(var(--primary));"; newline;
    "        }"; newline;
    newline;
    "        .prompt-text {"; newline;
    "            color: white;"; newline;
    "            font-size: 1.125rem;"; newline;
    "            font-weight: 500;"; newline;
    "            line-height: 1.4;"; newline;
    "            margin: 0;"; newline;
    "            text-shadow: 0 2px 4px rgba(0, 0, 0, 0.5);"; newline;
    "        }"; newline;
    newline;
    "        .animate-fade-in {"; newline;
    "            animation: fadeIn 0.6s ease-out;"; newline;
    "        }"; newline;
    newline;
    "        .animate-slide-up {"; newline;
    "            animation: slideUp 0.8s ease-out;"; newline;
    "        }"; newline;
    newline;
    "        @keyframes fadeIn {"; newline;
    "            from {"; newline;
    "                opacity: 0;"; newline;
    "                transform: translateY(20px);"; newline;
    "            }"; newline;
    "            to {"; newline;
    "                opacity: 1;"; newline;
    "                transform: translateY(0);"; newline;
    "            }"; newline;
    "        }"; newline;
    newline;
    "        @keyframes slideUp {"; newline;
    "            from {"; newline;
    "                opacity: 0;"; newline;
    "                transform: translateY(40px);"; newline;
    "            }"; newline;
    "            to {"; newline;
    "                opacity: 1;"; newline;
    "                transform: translateY(0);"; newline;
    "            }"; newline;
    "        }"; newline;
    "    </style>"; newline;
    "</head>"; newline;
    "<body>"; newline;
    "    <div class="; quote; "min-h-screen bg-gradient-mesh"; quote; ">"; newline;
    "        <!-- Header -->"; newline;
    "        <header class="; quote; "header text-center"; quote; ">"; newline;
    "            <div class="; quote; "container text-center"; quote; ">"; newline;
    "                <div class="; quote; "flex flex-col items-center justify-center space-y-2 animate-fade-in"; quote; ">"; newline;
    "                    <h1 class="; quote; "text-3xl font-bold text-gradient logo-text-container"; quote; ">"; newline;
    "                        <img src="; quote; "/hat-logo.png"; quote; " alt="; quote; "Degenify"; quote; newline;
    "                            class="; quote; "drop-shadow-lg hover:scale-110 transition-transform duration-300"; quote; newline;
    "                            style="; quote; "width: 48px; height: 48px;"; quote; " />"; newline;
    "                        <span>Degenify</span>"; newline;
    "                    </h1>"; newline;
    "                </div>"; newline;
    "            </div>"; newline;
    "        </header>"; newline;
    newline;
    "        <!-- Main Content -->"; newline;
    "        <main class="; quote; "main text-center"; quote; ">"; newline;
    "            <div class="; quote; "container text-center"; quote; ">"; newline;
    "                <div class="; quote; "text-center mb-2 animate-slide-up"; quote; ">"; newline;
    "                    <h2 class="; quote; "text-2xl font-bold text-foreground mb-2 text-center"; quote; ">"; newline;
    "                        Epic Degeneration"; newline;
    "                    </h2>"; newline;
    "                    <p class="; quote; "text-muted-foreground text-center"; quote; ">"; newline;
    "                        Check out this amazing creation! 🎩 🔥"; newline;
    "                    </p>"; newline;
    "                </div>"; newline;
    newline;
    "                <!-- Create Yours Button -->"; newline;
    "                <a href="; quote; protocol; "://"; host; quote; " class="; quote; "btn-degenify group relative overflow-hidden"; quote; ">"; newline;
    "                    <div class="; quote; "flex items-center justify-center space-x-3 relative z-10"; quote; ">"; newline;
    "                        <span class="; quote; "sparkles"; quote; ">✨</span>"; newline;
    "                        <span class="; quote; "font-bold"; quote; ">Create yours now 🎩</span>"; newline;
    "                        <span class="; quote; "sparkles"; quote; ">✨</span>"; newline;
    "                    </div>"; newline;
    "                </a>"; newline;
    newline;
    "                <!-- Image with Prompt Overlay -->"; newline;
    "                <div class="; quote; "prompt-overlay"; quote; ">"; newline;
    "                    <img src="; quote; imageUrl; quote; " alt="; quote; "Epic Degeneration"; quote; ">"; newline;
    "                    <div class="; quote; "image-overlay"; quote; ">"; newline;
    "                        <div class="; quote; "overlay-content"; quote; ">"; newline;
    "                            <div class="; quote; "overlay-actions"; quote; ">"; newline;
    "                                <div class="; quote; "overlay-action-group"; quote; ">"; newline;
    "                                    <button class="; quote; "overlay-action-btn"; quote; " onclick="; quote; "shareImage('"; imageId; "')"; quote; ">"; newline;
    "                                        <svg width="; quote; "16"; quote; " height="; quote; "16"; quote; " viewBox="; quote; "0 0 24 24"; quote; " fill="; quote; "none"; quote; " stroke="; quote; "currentColor"; quote; " stroke-width="; quote; "2"; quote; ">"; newline;
    "                                            <path d="; quote; "M8.684 13.342C8.886 12.938 9 12.482 9 12c0-.482-.114-.938-.316-1.342m0 2.684a3 3 0 1 1 0-2.684m0 2.684l6.632 3.316m-6.632-6l6.632-3.316m0 0a3 3 0 1 1 5.367-2.684 3 3 0 0 1-5.367 2.684zm0 9.316a3 3 0 1 1 5.367 2.684 3 3 0 0 1-5.367-2.684z"; quote; "/>"; newline;
    "                                        </svg>"; newline;
    "                                    </button>"; newline;
    "                                </div>"; newline;
    "                                <button class="; quote; "overlay-download-btn"; quote; " onclick="; quote; "downloadImage('"; imageId; "')"; quote; ">"; newline;
    "                                    <svg width="; quote; "16"; quote; " height="; quote; "16"; quote; " viewBox="; quote; "0 0 24 24"; quote; " fill="; quote; "none"; quote; " stroke="; quote; "currentColor"; quote; " stroke-width="; quote; "2"; quote; ">"; newline;
    "                                        <path d="; quote; "M21 15v4a2 2 0 0 1-2 2H5a2 2 0 0 1-2-2v-4"; quote; "/>"; newline;
    "                                        <polyline points="; quote; "7,10 12,15 17,10"; quote; "/>"; newline;
    "                                        <line x1="; quote; "12"; quote; " y1="; quote; "15"; quote; " x2="; quote; "12"; quote; " y2="; quote; "3"; quote; "/>"; newline;
    "                                    </svg>"; newline;
    "                                </button>"; newline;
    "                            </div>"; newline;
    "                            <p class="; quote; "prompt-text"; quote; ">"; prompt image; "</p>"; newline;
    "                        </div>"; newline;
    "                    </div>"; newline;
    "                </div>"; newline;
    "            </div>"; newline;
    "        </main>"; newline;
    newline;
    "        <!-- Footer -->"; newline;
    "        <footer class="; quote; "footer"; quote; ">"; newline;
    "            <div class="; quote; "container"; quote; ">"; newline;
    "                <p class="; quote; "text-sm text-muted-foreground"; quote; ">"; newline;
    "                    Made with 💜 for the degen community"; newline;
    "                </p>"; newline;
    "            </div>"; newline;
    "        </footer>"; newline;
    "    </div>"; newline;
    newline;
    "    <script>"; newline;
    "        // Share image function"; newline;
    "        function shareImage(imageId) {"; newline;
    "            const shareUrl = window.location.origin + '/api/share/' + imageId;"; newline;
    "            const text = 'Check out this epic degeneration I created with Degenify! 🎩 🔥 \nCreate yours on ' + window.location.origin + '\n\n$DEGEN @degentokenbase';"; newline;
    "            const twitterUrl = 'https://twitter.com/intent/tweet?text=' + encodeURIComponent(text) + '&url=' + encodeURIComponent(shareUrl);"; newline;
    "            window.open(twitterUrl, '_blank');"; newline;
    "        }"; newline;
    newline;
    "        // Download image function"; newline;
    "        function downloadImage(imageId) {"; newline;
    "            fetch('/api/download/' + imageId)"; newline;
    "                .then(response => {"; newline;
    "                    if (!response.ok) {"; newline;
    "                        throw new Error('Download failed');"; newline;
    "                    }"; newline;
    "                    return response.blob();"; newline;
    "                })"; newline;
    "                .then(blob => {"; newline;
    "                    const url = window.URL.createObjectURL(blob);"; newline;
    "                    const link = document.createElement('a');"; newline;
    "                    link.href = url;"; newline;
    "                    link.download = 'meme-' + imageId + '.png';"; newline;
    "                    document.body.appendChild(link);"; newline;
    "                    link.click();"; newline;
    "                    document.body.removeChild(link);"; newline;
    "                    window.URL.revokeObjectURL(url);"; newline;
    "                })"; newline;
    "                .catch(error => {"; newline;
    "                    console.error('Download error:', error);"; newline;
    "                    alert('Download failed: ' + error.message);"; newline;
    "                });"; newline;
    "        }"; newline;
    "    </script>"; newline;
    "</body>"; newline;
    "</html>" ].

(** [res.setHeader('Content-Type', 'text/html'); res.send(html)] *)
Definition res_html (page : string) : Response :=
  {| status := 200; headers := [("Content-Type", "text/html")]; body := Text page |}.

Definition get_api_share (w : World) (sv : Services) (protocol host imageId : string)
  : list Row -> Reply :=
  try_catch
    (rows <- query sv "SELECT * FROM images WHERE id = $1" [JStr imageId]
               (where_id imageId) ;;
     match rows with
     | [] => respond (res_send_text 404 "Image not found")
     | image :: _ =>
         let imageUrl := protocol ++ "://" ++ host ++ "/api/image/" ++ imageId in
         let cloudinaryUrl := cloudinary_url image ++ "?t=" ++ decimal (clock w) in
         ret (res_html (html protocol host imageId imageUrl cloudinaryUrl image))
     end)
    (res_send_text 500 "Server error").

Definition get_api_download (sv : Services) (imageId : string) : list Row -> Reply :=
  try_catch
    (rows <- query sv "SELECT * FROM images WHERE id = $1" [JStr imageId]
               (where_id imageId) ;;
     match rows with
     | [] => respond (res_json 404 (error_body "Image not found"))
     | image :: _ => ret (res_redirect (cloudinary_url image))
     end)
    (res_json 500 (error_body "Database error")).

(** The exposed operations; a share request carries [req.protocol] and the
    Host header. *)
Inductive Request : Type :=
| PostGenerate (reqbody : option JValue)
| GetGallery
| GetImage (imageId : string)
| GetShare (protocol host imageId : string)
| GetDownload (imageId : string).

Definition handle (env : Env) (w : World) (sv : Services) (req : Request)
  : list Row -> Reply :=
  match req with
  | PostGenerate reqbody => post_api_generate env w sv reqbody
  | GetGallery => get_api_gallery sv
  | GetImage imageId => get_api_image sv imageId
  | GetShare protocol host imageId => get_api_share w sv protocol host imageId
  | GetDownload imageId => get_api_download sv imageId
  end.

Definition store_after (r : Reply) : list Row := snd (fst r).
Definition response_of (r : Reply) : Response := fst (fst r).
Definition calls_of (r : Reply) : list Event := snd r.

Fixpoint run (env : Env) (history : list (World * Services * Request))
    (images : list Row) : list Row :=
  match history with
  | [] => images
  | (w, sv, req) :: later =>
      run env later (store_after (handle env w sv req images))
  end.

End Server.
End Persistent.

(** ** The earlier share page (src/unnamed/part_001)

    The same server as server-persistent.mjs up to the share handler, whose
    page is the plain one of lines 215 to 274. *)

Module Plain.
Section Server.
Context {JSN : JSNumber} {ND : Node}.

Definition html (protocol host imageId imageUrl : string) (image : Persistent.Row)
  : string :=
  let prompt := Persistent.prompt in
  template
  [ newline;
    "<!DOCTYPE html>"; newline;
    "<html lang="; quote; "en"; quote; ">"; newline;
    "<head>"; newline;
    "    <meta charset="; quote; "UTF-8"; quote; ">"; newline;
    "    <meta name="; quote; "viewport"; quote; " content="; quote; "width=device-width, initial-scale=1.0"; quote; ">"; newline;
    "    <title>Epic Degeneration by Degenify</title>"; newline;
    "    <meta name="; quote; "description"; quote; " content="; quote; "Check out this epic degeneration I created with Degenify! 🎩 🔥 $DEGEN"; quote; ">"; newline;
    "    "; newline;
    "    <!-- Open Graph / Facebook -->"; newline;
    "    <meta property="; quote; "og:type"; quote; " content="; quote; "website"; quote; ">"; newline;
    "    <meta property="; quote; "og:url"; quote; " content="; quote; protocol; "://"; host; "/api/share/"; imageId; quote; ">"; newline;
    "    <meta property="; quote; "og:title"; quote; " content="; quote; "Epic Degeneration by Degenify"; quote; ">"; newline;
    "    <meta property="; quote; "og:description"; quote; " content="; quote; "Check out this epic degeneration I created with Degenify! 🎩 🔥 $DEGEN"; quote; ">"; newline;
    "    <meta property="; quote; "og:image"; quote; " content="; quote; imageUrl; quote; ">"; newline;
    "    <meta property="; quote; "og:image:width"; quote; " content="; quote; "1024"; quote; ">"; newline;
    "    <meta property="; quote; "og:image:height"; quote; " content="; quote; "1024"; quote; ">"; newline;
    "    <meta property="; quote; "og:image:type"; quote; " content="; quote; "image/png"; quote; ">"; newline;
    "    "; newline;
    "    <!-- Twitter -->"; newline;
    "    <meta property="; quote; "twitter:card"; quote; " content="; quote; "summary_large_image"; quote; ">"; newline;
    "    <meta property="; quote; "twitter:url"; quote; " content="; quote; protocol; "://"; host; "/api/share/"; imageId; quote; ">"; newline;
    "    <meta property="; quote; "twitter:title"; quote; " content="; quote; "Epic Degeneration by Degenify"; quote; ">"; newline;
    "    <meta property="; quote; "twitter:description"; quote; " content="; quote; "Check out this epic degeneration I created with Degenify! 🎩 🔥 $DEGEN"; quote; ">"; newline;
    "    <meta property="; quote; "twitter:image"; quote; " content="; quote; imageUrl; quote; ">"; newline;
    "    "; newline;
    "    <style>"; newline;
    "        body { "; newline;
    "            margin: 0; "; newline;
    "            padding: 20px; "; newline;
    "            font-family: Arial, sans-serif; "; newline;
    "            text-align: center;"; newline;
    "            background: linear-gradient(135deg, #667eea 0%, #764ba2 100%);"; newline;
    "            color: white;"; newline;
    "        }"; newline;
    "        img { "; newline;
    "            max-width: 100%; "; newline;
    "            height: auto; "; newline;
    "            border-radius: 10px;"; newline;
    "            box-shadow: 0 10px 30px rgba(0,0,0,0.3);"; newline;
    "        }"; newline;
    "        h1 { margin-bottom: 20px; }"; newline;
    "        .prompt { "; newline;
    "            background: rgba(255,255,255,0.1); "; newline;
    "            padding: 15px; "; newline;
    "            border-radius: 10px; "; newline;
    "            margin: 20px 0;"; newline;
    "            backdrop-filter: blur(10px);"; newline;
    "        }"; newline;
    "    </style>"; newline;
    "</head>"; newline;
    "<body>"; newline;
    "    <h1>🎩 Epic Degeneration by Degenify</h1>"; newline;
    "    <div class="; quote; "prompt"; quote; ">"; newline;
    "        <strong>Prompt:</strong> "; prompt image; newline;
    "    </div>"; newline;
    "    <img src="; quote; imageUrl; quote; " alt="; quote; "Epic Degeneration"; quote; ">"; newline;
    "    <p>Created with Degenify - Transform any situation! 🔥</p>"; newline;
    "</body>"; newline;
    "</html>" ].

Definition get_api_share (sv : Persistent.Services) (protocol host imageId : string)
  : list Persistent.Row -> Persistent.Reply :=
  try_catch
    (rows <- Persistent.query sv "SELECT * FROM images WHERE id = $1" [JStr imageId]
               (Persistent.where_id imageId) ;;
     match rows with
     | [] => respond (res_send_text 404 "Image not found")
     | image :: _ =>
         let imageUrl := protocol ++ "://" ++ host ++ "/api/image/" ++ imageId in
         ret (Persistent.res_html (html protocol host imageId imageUrl image))
     end)
    (res_send_text 500 "Server error").

End Server.
End Plain.

(** ** The vocabulary of the properties *)

Section Vocabulary.
Context {JSN : JSNumber} {ND : Node}.

(** The request carries [text], not empty, as its prompt. *)
Definition submits (reqbody : option JValue) (text : string) : Prop :=
  prompt_of reqbody = Some (JStr text) /\ text <> EmptyString.

(** The request carries no prompt, or the empty one. *)
Definition lacks_prompt (reqbody : option JValue) : Prop :=
  prompt_of reqbody = None \/ prompt_of reqbody = Some (JStr EmptyString).

(** The generation endpoint answers 2xx with [data], and there is a base
    image to send to it and a key to send it with. *)
Definition generated (env : Env) (w : World) (data : JValue) : Prop :=
  (exists baseImage, base_file w = Some baseImage)
  /\ (exists key, configured (GOOGLE_API_KEY env) = Some key)
  /\ upstream w = Ok data.

(** The parts of the first candidate of an answer; none when the answer has
    not that shape. *)
Definition parts_of (data : JValue) : list JValue :=
  match get data "candidates" with
  | Some candidates =>
      match iterate (or_else (get_opt (get_opt (first_opt candidates) "content") "parts")
                             (JArr [])) with
      | Some items => items
      | None => []
      end
  | None => []
  end.

(** The parts a search in order reads: a [null] among them ends it, for the
    read of its property throws. *)
Fixpoint searched (parts : list JValue) : list JValue :=
  match parts with
  | [] => []
  | JNull :: _ => []
  | part :: rest => part :: searched rest
  end.

(** The payload a part holds under one spelling of the key. *)
Definition payload (key : string) (part : JValue) : option JValue :=
  let data := get_opt (get_opt (Some part) key) "data" in
  if truthy_opt data then data else None.

Definition without_payload (part : JValue) : Prop :=
  payload "inline_data" part = None /\ payload "inlineData" part = None.

(** The names of the fields of an object, in order. *)
Definition fields_of (v : JValue) : option (list string) :=
  match v with
  | JObj fields => Some (map fst fields)
  | _ => None
  end.

(** The elements of a JSON array sent as a response. *)
Definition elements_of (r : Response) : list JValue :=
  match body r with
  | Json (JArr items) => items
  | _ => []
  end.

Definition page_of (r : Response) : string :=
  match body r with
  | Text page => page
  | _ => EmptyString
  end.

(** How many times [needle] occurs in a text. *)
Fixpoint occurrences (needle text : string) : nat :=
  match text with
  | EmptyString => 0
  | String _ rest =>
      (if String.prefix needle text then 1 else 0) + occurrences needle rest
  end.

(** [imageId], as a route parameter, names the number [n]. *)
Definition names (imageId : string) (n : num) : bool :=
  match ToNumber imageId with
  | Some m => num_eqb n m
  | None => false
  end.

(** The ids the successful generate calls of a history gave to records:
    a call is successful when it answers 200 having called the endpoint. *)
Definition successful (env : Env) (r : Response) : bool :=
  (status r =? 200)%Z
  && match configured (GOOGLE_API_KEY env) with Some _ => true | None => false end.

Fixpoint assigned (env : Env) (history : list (World * InMemory.Request))
    (generatedImages : list InMemory.ImageRecord) : list num :=
  match history with
  | [] => []
  | (w, req) :: later =>
      let reply := InMemory.handle env w req generatedImages in
      (match req with
       | InMemory.PostGenerate _ =>
           if successful env (InMemory.response_of reply) then [fresh_id w] else []
       | _ => []
       end
       ++ assigned env later (InMemory.store_after reply))%list
  end.

Fixpoint stored_assigned (env : Env)
    (history : list (World * Persistent.Services * Persistent.Request))
    (images : list Persistent.Row) : list num :=
  match history with
  | [] => []
  | (w, sv, req) :: later =>
      let reply := Persistent.handle env w sv req images in
      (match req with
       | Persistent.PostGenerate _ =>
           if successful env (Persistent.response_of reply) then [fresh_id w] else []
       | _ => []
       end
       ++ stored_assigned env later (Persistent.store_after reply))%list
  end.

End Vocabulary.

(** ** The ways through POST /api/generate *)

Section Paths.
Context {JSN : JSNumber} {ND : Node}.

(** The request carries the truthy value [p] as its prompt. *)
Definition asks (reqbody : option JValue) (p : JValue) : Prop :=
  prompt_of reqbody = Some p /\ truthy p = true.

(** The handler gets as far as calling the generation endpoint: the prompt is
    truthy, the base image was read, a key is configured, and the prompt has
    a text, [text], to put into the instructions. *)
Definition reaches (env : Env) (w : World) (reqbody : option JValue)
    (p : JValue) (text : string) (baseImage : list byte) (key : string) : Prop :=
  asks reqbody p
  /\ base_file w = Some baseImage
  /\ configured (GOOGLE_API_KEY env) = Some key
  /\ ToString p = Some text.

(** Each return and each throw of the handler of server.mjs, with what the
    handler has done by then. *)
Inductive generate_path (env : Env) (w : World) (reqbody : option JValue)
    (generatedImages : list InMemory.ImageRecord) : InMemory.Reply -> Prop :=
| path_no_prompt :
    truthy_opt (prompt_of reqbody) = false ->
    generate_path env w reqbody generatedImages
      (res_json 400 (error_body "prompt required"), generatedImages, [])
| path_no_base p :
    asks reqbody p -> base_file w = None ->
    generate_path env w reqbody generatedImages
      (res_json 400 (error_body ("Base image missing at " ++ BASE_IMAGE_PATH env)),
       generatedImages, [])
| path_no_key p baseImage :
    asks reqbody p -> base_file w = Some baseImage ->
    configured (GOOGLE_API_KEY env) = None ->
    generate_path env w reqbody generatedImages
      (res_png baseImage, generatedImages, [])
| path_no_text p baseImage key :
    asks reqbody p -> base_file w = Some baseImage ->
    configured (GOOGLE_API_KEY env) = Some key ->
    ToString p = None ->
    generate_path env w reqbody generatedImages
      (res_json 500 (error_body "server error"), generatedImages, [])
| path_rejected p text baseImage key :
    reaches env w reqbody p text baseImage key -> upstream w = Rejected ->
    generate_path env w reqbody generatedImages
      (res_json 500 (error_body "server error"), generatedImages,
       [generateContent env key text baseImage])
| path_not_ok p text baseImage key errText :
    reaches env w reqbody p text baseImage key -> upstream w = NotOk errText ->
    generate_path env w reqbody generatedImages
      (res_json 502 (error_detail "Google API error" (JStr errText)), generatedImages,
       [generateContent env key text baseImage])
| path_no_image p text baseImage key data :
    reaches env w reqbody p text baseImage key -> upstream w = Ok data ->
    b64_of data = None ->
    generate_path env w reqbody generatedImages
      (res_json 502 (error_detail "No image returned" data), generatedImages,
       [generateContent env key text baseImage])
| path_undecodable p text baseImage key data b64 :
    reaches env w reqbody p text baseImage key -> upstream w = Ok data ->
    b64_of data = Some b64 -> Buffer_from b64 = None ->
    generate_path env w reqbody generatedImages
      (res_json 500 (error_body "server error"), generatedImages,
       [generateContent env key text baseImage])
| path_created p text baseImage key data b64 imgBuffer :
    reaches env w reqbody p text baseImage key -> upstream w = Ok data ->
    b64_of data = Some b64 -> Buffer_from b64 = Some imgBuffer ->
    generate_path env w reqbody generatedImages
      (res_png imgBuffer,
       (generatedImages ++ [InMemory.created w p imgBuffer])%list,
       [generateContent env key text baseImage;
        WriteFile GALLERY_FILE
          (JArr (map InMemory.to_json
                   (generatedImages ++ [InMemory.created w p imgBuffer])%list))]).

(** The same for server-persistent.mjs, whose last steps are the upload and
    the INSERT. *)
Inductive stored_generate_path (env : Env) (w : World) (sv : Persistent.Services)
    (reqbody : option JValue) (images : list Persistent.Row)
  : Persistent.Reply -> Prop :=
| stored_no_prompt :
    truthy_opt (prompt_of reqbody) = false ->
    stored_generate_path env w sv reqbody images
      (res_json 400 (error_body "prompt required"), images, [])
| stored_no_base p :
    asks reqbody p -> base_file w = None ->
    stored_generate_path env w sv reqbody images
      (res_json 400 (error_body ("Base image missing at " ++ BASE_IMAGE_PATH env)),
       images, [])
| stored_no_key p baseImage :
    asks reqbody p -> base_file w = Some baseImage ->
    configured (GOOGLE_API_KEY env) = None ->
    stored_generate_path env w sv reqbody images (res_png baseImage, images, [])
| stored_no_text p baseImage key :
    asks reqbody p -> base_file w = Some baseImage ->
    configured (GOOGLE_API_KEY env) = Some key ->
    ToString p = None ->
    stored_generate_path env w sv reqbody images
      (res_json 500 (error_body "server error"), images, [])
| stored_rejected p text baseImage key :
    reaches env w reqbody p text baseImage key -> upstream w = Rejected ->
    stored_generate_path env w sv reqbody images
      (res_json 500 (error_body "server error"), images,
       [generateContent env key text baseImage])
| stored_not_ok p text baseImage key errText :
    reaches env w reqbody p text baseImage key -> upstream w = NotOk errText ->
    stored_generate_path env w sv reqbody images
      (res_json 502 (error_detail "Google API error" (JStr errText)), images,
       [generateContent env key text baseImage])
| stored_no_image p text baseImage key data :
    reaches env w reqbody p text baseImage key -> upstream w = Ok data ->
    b64_of data = None ->
    stored_generate_path env w sv reqbody images
      (res_json 502 (error_detail "No image returned" data), images,
       [generateContent env key text baseImage])
| stored_undecodable p text baseImage key data b64 :
    reaches env w reqbody p text baseImage key -> upstream w = Ok data ->
    b64_of data = Some b64 -> Buffer_from b64 = None ->
    stored_generate_path env w sv reqbody images
      (res_json 500 (error_body "server error"), images,
       [generateContent env key text baseImage])
| stored_payload_no_text p text baseImage key data b64 imgBuffer :
    reaches env w reqbody p text baseImage key -> upstream w = Ok data ->
    b64_of data = Some b64 -> Buffer_from b64 = Some imgBuffer ->
    ToString b64 = None ->
    stored_generate_path env w sv reqbody images
      (res_json 500 (error_body "server error"), images,
       [generateContent env key text baseImage])
| stored_upload_rejected p text baseImage key data b64 imgBuffer payload :
    reaches env w reqbody p text baseImage key -> upstream w = Ok data ->
    b64_of data = Some b64 -> Buffer_from b64 = Some imgBuffer ->
    ToString b64 = Some payload ->
    Persistent.uploaded sv = None ->
    stored_generate_path env w sv reqbody images
      (res_json 500 (error_body "server error"), images,
       [generateContent env key text baseImage;
        Persistent.upload payload (fresh_id w)])
| stored_insert_failed p text baseImage key data b64 imgBuffer payload
    secure_url public_id :
    reaches env w reqbody p text baseImage key -> upstream w = Ok data ->
    b64_of data = Some b64 -> Buffer_from b64 = Some imgBuffer ->
    ToString b64 = Some payload ->
    Persistent.uploaded sv = Some (secure_url, public_id) ->
    Persistent.db_up sv = false
    \/ existsb (Persistent.has_id (Persistent.bound (JNum (fresh_id w)))) images = true ->
    stored_generate_path env w sv reqbody images
      (res_json 500 (error_body "server error"), images,
       [generateContent env key text baseImage;
        Persistent.upload payload (fresh_id w);
        Persistent.insert_into (fresh_id w) p secure_url public_id])
| stored_created p text baseImage key data b64 imgBuffer payload secure_url public_id :
    reaches env w reqbody p text baseImage key -> upstream w = Ok data ->
    b64_of data = Some b64 -> Buffer_from b64 = Some imgBuffer ->
    ToString b64 = Some payload ->
    Persistent.uploaded sv = Some (secure_url, public_id) ->
    Persistent.db_up sv = true ->
    existsb (Persistent.has_id (Persistent.bound (JNum (fresh_id w)))) images = false ->
    stored_generate_path env w sv reqbody images
      (res_png imgBuffer,
       (images ++ [Persistent.inserted w sv p secure_url public_id])%list,
       [generateContent env key text baseImage;
        Persistent.upload payload (fresh_id w);
        Persistent.insert_into (fresh_id w) p secure_url public_id]).

(** The calls to the generation endpoint in a log. *)
Definition is_generateContent (ev : Event) : bool :=
  match ev with
  | Fetch method _ _ _ => String.eqb method "POST"
  | _ => false
  end.

Definition generation_calls (log : list Event) : nat :=
  length (filter is_generateContent log).

Definition is_WriteFile (ev : Event) : bool :=
  match ev with
  | WriteFile _ _ => true
  | _ => false
  end.


(** The calls of a history of requests to server.mjs, in order. *)
Fixpoint calls_over (env : Env) (history : list (World * InMemory.Request))
    (generatedImages : list InMemory.ImageRecord) : list Event :=
  match history with
  | [] => []
  | (w, req) :: later =>
      let reply := InMemory.handle env w req generatedImages in
      (InMemory.calls_of reply
         ++ calls_over env later (InMemory.store_after reply))%list
  end.

(** What [file] holds after the writes of a log that all go through: the
    content of the last of them, or what it held before. *)
Fixpoint written (file : string) (log : list Event) (before : option JValue)
  : option JValue :=
  match log with
  | [] => before
  | WriteFile f content :: rest =>
      written file rest (if String.eqb f file then Some content else before)
  | _ :: rest => written file rest before
  end.

(** Each request of a history is handled at a later millisecond than the one
    before it, the first one after [last]. *)
Fixpoint ticking (last : Z) (history : list (World * InMemory.Request)) : Prop :=
  match history with
  | [] => True
  | (w, _) :: later => (last < clock w)%Z /\ ticking (clock w) later
  end.

(** The same by the clock of the database, which stamps the rows. *)
Fixpoint stored_ticking (last : Z)
    (history : list (World * Persistent.Services * Persistent.Request)) : Prop :=
  match history with
  | [] => True
  | (_, sv, _) :: later =>
      (last < Persistent.db_clock sv)%Z /\ stored_ticking (Persistent.db_clock sv) later
  end.

(** The records are in the order of their timestamps, which grow strictly and
    none of which is later than [last]. *)
Definition older_first (images : list InMemory.ImageRecord) (last : Z) : Prop :=
  StronglySorted (fun a b => (InMemory.timestamp a < InMemory.timestamp b)%Z) images
  /\ Forall (fun a => (InMemory.timestamp a <= last)%Z) images.

Definition stored_older_first (images : list Persistent.Row) (last : Z) : Prop :=
  StronglySorted (fun a b => (Persistent.timestamp a < Persistent.timestamp b)%Z) images
  /\ Forall (fun a => (Persistent.timestamp a <= last)%Z) images.

End Paths.

(** * A runtime to run the handlers on

    Numbers in decimal notation, RFC 4648 base64, ISO 8601 dates and the
    PostgreSQL driver's texts.  It shows the interface inhabited and lets the
    handlers be evaluated on concrete requests. *)

Module Reference.

(** ** Numbers *)

(** The rationals, read and written in plain decimal notation; the doubles
    the handlers meet (ids, a few units in the last place of a millisecond
    count) are among them. *)

(** The digits before and after the point. *)
Fixpoint at_point (s : string) : string * option string :=
  match s with
  | EmptyString => (EmptyString, None)
  | String "." rest => (EmptyString, Some rest)
  | String c rest => let (whole, part) := at_point rest in (String c whole, part)
  end.

Definition digits_value (s : string) : option Z :=
  match s with
  | EmptyString => Some 0%Z
  | _ => option_map Z.of_uint (NilZero.uint_of_string s)
  end.

Definition unsigned (s : string) : option Q :=
  let (whole, part) := at_point s in
  match part with
  | None =>
      match whole with
      | EmptyString => None
      | _ => option_map inject_Z (digits_value whole)
      end
  | Some digits =>
      match whole, digits with
      | EmptyString, EmptyString => None
      | _, _ =>
          match digits_value whole, digits_value digits with
          | Some a, Some b =>
              let scale := Pos.pow 10 (Pos.of_nat (String.length digits)) in
              Some (Qmake (a * Zpos scale + b) scale)
          | _, _ => None
          end
      end
  end.

Definition Number_of (s : string) : option Q :=
  match s with
  | EmptyString => Some (inject_Z 0)
  | String "-" rest => option_map Qopp (unsigned rest)
  | String "+" rest => unsigned rest
  | _ => unsigned s
  end.

Fixpoint fraction (fuel : nat) (r den : Z) : string :=
  match fuel with
  | O => EmptyString
  | S fuel' =>
      if (r =? 0)%Z then EmptyString
      else decimal (r * 10 / den) ++ fraction fuel' ((r * 10) mod den) den
  end.

Definition Number_toString (q : Q) : string :=
  let n := Z.abs (Qnum q) in
  let d := Zpos (Qden q) in
  (if (Qnum q <? 0)%Z then "-" else EmptyString)
    ++ decimal (n / d)
    ++ (if (n mod d =? 0)%Z then EmptyString else "." ++ fraction 64 (n mod d) d).

#[export] Instance Rationals : JSNumber := {|
  num := Q;
  num_eqb := Qeq_bool;
  num_is_zero := Qeq_bool (inject_Z 0);
  ToNumber := Number_of;
  num_toString := Number_toString
|}.

(** ** Base64 *)

Definition alphabet : string :=
  "ABCDEFGHIJKLMNOPQRSTUVWXYZabcdefghijklmnopqrstuvwxyz0123456789+/".

Definition digit (n : Z) : ascii :=
  match String.get (Z.to_nat n) alphabet with
  | Some c => c
  | None => "="%char
  end.

(** The value of a character; both the standard and the URL-safe spellings
    of 62 and 63 are read. *)
Definition sextet (c : ascii) : option Z :=
  let n := Z.of_nat (nat_of_ascii c) in
  if (65 <=? n)%Z && (n <=? 90)%Z then Some (n - 65)%Z
  else if (97 <=? n)%Z && (n <=? 122)%Z then Some (n - 71)%Z
  else if (48 <=? n)%Z && (n <=? 57)%Z then Some (n + 4)%Z
  else if (n =? 43)%Z || (n =? 45)%Z then Some 62%Z
  else if (n =? 47)%Z || (n =? 95)%Z then Some 63%Z
  else None.

Definition value (b : byte) : Z := Z.of_N (Byte.to_N b).

Definition octet (n : Z) : byte :=
  match Byte.of_N (Z.to_N (n mod 256)) with
  | Some b => b
  | None => x00
  end.

Fixpoint encode (buf : list byte) : string :=
  match buf with
  | [] => EmptyString
  | [a] =>
      String (digit (value a / 4))
        (String (digit (value a mod 4 * 16)) "==")
  | [a; b] =>
      String (digit (value a / 4))
        (String (digit (value a mod 4 * 16 + value b / 16))
           (String (digit (value b mod 16 * 4)) "="))
  | a :: b :: c :: rest =>
      String (digit (value a / 4))
        (String (digit (value a mod 4 * 16 + value b / 16))
           (String (digit (value b mod 16 * 4 + value c / 64))
              (String (digit (value c mod 64)) (encode rest))))
  end.

(** The sextets of a text up to its padding; what is no base64 character is
    skipped. *)
Fixpoint sextets (s : string) : list Z :=
  match s with
  | EmptyString => []
  | String c rest =>
      if Ascii.eqb c "="%char then []
      else match sextet c with
           | Some n => n :: sextets rest
           | None => sextets rest
           end
  end.

Fixpoint octets (l : list Z) : list byte :=
  match l with
  | a :: b :: c :: d :: rest =>
      octet (a * 4 + b / 16)
        :: octet (b mod 16 * 16 + c / 4)
        :: octet (c mod 4 * 64 + d)
        :: octets rest
  | [a; b; c] => [octet (a * 4 + b / 16); octet (b mod 16 * 16 + c / 4)]
  | [a; b] => [octet (a * 4 + b / 16)]
  | _ => []
  end.

Definition decode (s : string) : list byte := octets (sextets s).

Lemma octet_value b : octet (value b) = b.
Proof.
  unfold octet, value.
  pose proof (Byte.to_N_bounded b) as Hb.
  rewrite Z.mod_small by lia. rewrite N2Z.id, Byte.of_to_N. reflexivity.
Qed.

Lemma value_range b : (0 <= value b < 256)%Z.
Proof. unfold value. pose proof (Byte.to_N_bounded b). lia. Qed.

Lemma sextet_digit_nat k :
  (k < 64)%nat ->
  sextet (digit (Z.of_nat k)) = Some (Z.of_nat k)
  /\ Ascii.eqb (digit (Z.of_nat k)) "="%char = false.
Proof.
  intros Hk.
  do 64 (destruct k as [|k]; [split; reflexivity|]). lia.
Qed.

Lemma sextet_digit n :
  (0 <= n < 64)%Z -> sextet (digit n) = Some n /\ Ascii.eqb (digit n) "="%char = false.
Proof.
  intros H. rewrite <- (Z2Nat.id n) by lia. apply sextet_digit_nat. lia.
Qed.

Lemma sextets_digit n rest :
  (0 <= n < 64)%Z -> sextets (String (digit n) rest) = n :: sextets rest.
Proof.
  intros H. destruct (sextet_digit n H) as [Hs He]. cbn [sextets].
  rewrite He, Hs. reflexivity.
Qed.

Lemma triples_ind {A : Type} (P : list A -> Prop) :
  P [] -> (forall a, P [a]) -> (forall a b, P [a; b]) ->
  (forall a b c rest, P rest -> P (a :: b :: c :: rest)) ->
  forall l, P l.
Proof.
  intros H0 H1 H2 H3. fix IH 1.
  intros [|a [|b [|c rest]]]; [apply H0|apply H1|apply H2|apply H3, IH].
Qed.

Section Regrouping.
Local Open Scope Z_scope.
Variables x y z : Z.
Hypotheses (Hx : 0 <= x < 256) (Hy : 0 <= y < 256) (Hz : 0 <= z < 256).

Lemma sextet_ranges :
  0 <= x / 4 < 64 /\ 0 <= x mod 4 * 16 < 64 /\ 0 <= x mod 4 * 16 + y / 16 < 64
  /\ 0 <= y mod 16 * 4 < 64 /\ 0 <= y mod 16 * 4 + z / 64 < 64 /\ 0 <= z mod 64 < 64.
Proof. clear -Hx Hy Hz. Z.div_mod_to_equations. lia. Qed.

Lemma first_octet : x / 4 * 4 + (x mod 4 * 16 + y / 16) / 16 = x.
Proof. clear -Hx Hy. Z.div_mod_to_equations. lia. Qed.

Lemma second_octet :
  (x mod 4 * 16 + y / 16) mod 16 * 16 + (y mod 16 * 4 + z / 64) / 4 = y.
Proof. clear -Hx Hy Hz. Z.div_mod_to_equations. lia. Qed.

Lemma third_octet : (y mod 16 * 4 + z / 64) mod 4 * 64 + z mod 64 = z.
Proof. clear -Hy Hz. Z.div_mod_to_equations. lia. Qed.

End Regrouping.

Lemma decode_encode buf : decode (encode buf) = buf.
Proof.
  unfold decode.
  induction buf as [|a|a b|a b c rest IH] using triples_ind.
  - reflexivity.
  - pose proof (value_range a) as Ha.
    destruct (sextet_ranges _ _ _ Ha Ha Ha) as (R1 & R2 & _).
    cbn [encode]. rewrite !sextets_digit by assumption.
    cbn [sextets Ascii.eqb Bool.eqb octets].
    pose proof (first_octet _ 0%Z Ha ltac:(lia)) as E. cbn in E.
    rewrite Z.add_0_r in E. rewrite E, octet_value. reflexivity.
  - pose proof (value_range a) as Ha. pose proof (value_range b) as Hb.
    destruct (sextet_ranges _ _ _ Ha Hb Hb) as (R1 & _ & R2 & R3 & _).
    cbn [encode]. rewrite !sextets_digit by assumption.
    cbn [sextets Ascii.eqb Bool.eqb octets].
    pose proof (second_octet _ _ 0%Z Ha Hb ltac:(lia)) as E. cbn in E.
    rewrite Z.add_0_r in E.
    rewrite (first_octet _ _ Ha Hb), E, !octet_value. reflexivity.
  - pose proof (value_range a) as Ha. pose proof (value_range b) as Hb.
    pose proof (value_range c) as Hc.
    destruct (sextet_ranges _ _ _ Ha Hb Hc) as (R1 & _ & R2 & _ & R3 & R4).
    cbn [encode]. rewrite !sextets_digit by assumption.
    cbn [octets]. rewrite IH.
    rewrite (first_octet _ _ Ha Hb), (second_octet _ _ _ Ha Hb Hc),
      (third_octet _ _ Hb Hc), !octet_value.
    reflexivity.
Qed.

(** ** Buffers from arrays *)

(** [Buffer.from(array)] takes each element modulo 256; what is no number
    counts as zero.  A plain object is refused. *)
Definition truncated (q : Q) : Z := Z.quot (Qnum q) (Zpos (Qden q)).

Definition element (v : @JValue Rationals) : byte :=
  match v with
  | JNum n => octet (truncated n)
  | JBool true => x01
  | JStr s => match Number_of s with Some n => octet (truncated n) | None => x00 end
  | _ => x00
  end.

Definition from_object (v : @JValue Rationals) : option (list byte) :=
  match v with
  | JArr items => Some (map element items)
  | _ => None
  end.

(** ** Dates *)

Definition pad (width : nat) (n : Z) : string :=
  let digits := decimal n in
  string_of_list_ascii (repeat "0"%char (width - String.length digits)) ++ digits.

Definition year_text (y : Z) : string :=
  if (0 <=? y)%Z && (y <=? 9999)%Z then pad 4 y
  else (if (y <? 0)%Z then "-" else "+") ++ pad 6 (Z.abs y).

(** The civil date of a day count, then the time of day. *)
Definition iso_text (ms : Z) : string :=
  (let day := ms / 86400000 in
   let rest := ms mod 86400000 in
   let z := day + 719468 in
   let era := z / 146097 in
   let doe := z mod 146097 in
   let yoe := (doe - doe / 1460 + doe / 36524 - doe / 146096) / 365 in
   let doy := doe - (365 * yoe + yoe / 4 - yoe / 100) in
   let mp := (5 * doy + 2) / 153 in
   let d := doy - (153 * mp + 2) / 5 + 1 in
   let m := if mp <? 10 then mp + 3 else mp - 9 in
   let y := yoe + era * 400 + (if m <=? 2 then 1 else 0) in
   year_text y ++ "-" ++ pad 2 m ++ "-" ++ pad 2 d ++ "T"
     ++ pad 2 (rest / 3600000) ++ ":" ++ pad 2 (rest / 60000 mod 60) ++ ":"
     ++ pad 2 (rest / 1000 mod 60) ++ "." ++ pad 3 (rest mod 1000) ++ "Z")%Z.

(** ** Query parameters *)

Definition hex_digit (n : nat) : ascii :=
  match String.get n "0123456789abcdef" with
  | Some c => c
  | None => "0"%char
  end.

Definition backslash : string := String (ascii_of_nat 92) EmptyString.

(** A character inside a JSON string. *)
Definition escape_char (c : ascii) : string :=
  let n := nat_of_ascii c in
  if Nat.eqb n 34 then backslash ++ quote
  else if Nat.eqb n 92 then backslash ++ backslash
  else if Nat.eqb n 8 then backslash ++ "b"
  else if Nat.eqb n 9 then backslash ++ "t"
  else if Nat.eqb n 10 then backslash ++ "n"
  else if Nat.eqb n 12 then backslash ++ "f"
  else if Nat.eqb n 13 then backslash ++ "r"
  else if Nat.ltb n 32
  then backslash ++ "u00"
         ++ String (hex_digit (n / 16)) (String (hex_digit (n mod 16)) EmptyString)
  else String c EmptyString.

Definition JSON_string (s : string) : string :=
  quote ++ String.concat EmptyString (map escape_char (list_ascii_of_string s)) ++ quote.

Fixpoint JSON_stringify (v : @JValue Rationals) : string :=
  match v with
  | JNull => "null"
  | JBool true => "true"
  | JBool false => "false"
  | JNum n => Number_toString n
  | JStr s => JSON_string s
  | JArr items => "[" ++ String.concat "," (map JSON_stringify items) ++ "]"
  | JObj fields =>
      "{" ++ String.concat ","
               (map (fun kv => JSON_string (fst kv) ++ ":" ++ JSON_stringify (snd kv))
                    fields)
          ++ "}"
  end.

(** An element of an array literal: backslashes and quotes escaped, the whole
    in quotes. *)
Definition escapeElement (s : string) : string :=
  quote
    ++ String.concat EmptyString
         (map (fun c => let n := nat_of_ascii c in
                        if Nat.eqb n 92 then backslash ++ backslash
                        else if Nat.eqb n 34 then backslash ++ quote
                        else String c EmptyString)
              (list_ascii_of_string s))
    ++ quote.

Fixpoint prepareValue (v : @JValue Rationals) : string :=
  match v with
  | JNull => "NULL"
  | JBool true => "true"
  | JBool false => "false"
  | JNum n => Number_toString n
  | JStr s => s
  | JArr items =>
      "{" ++ String.concat ","
               (map (fun x => match x with
                              | JNull => "NULL"
                              | JArr _ => prepareValue x
                              | _ => escapeElement (prepareValue x)
                              end) items)
          ++ "}"
  | JObj _ => JSON_stringify v
  end.

(** ** Addresses *)

(** The characters [encodeurl] leaves as they are. *)
Definition url_char (c : ascii) : bool :=
  let n := nat_of_ascii c in
  Nat.eqb n 33 || Nat.leb 35 n && Nat.leb n 59 || Nat.eqb n 61
  || Nat.leb 63 n && Nat.leb n 95 || Nat.leb 97 n && Nat.leb n 122
  || Nat.eqb n 124 || Nat.eqb n 126.

(** The characters [encodeURI] leaves as they are. *)
Definition uri_char (c : ascii) : bool :=
  let n := nat_of_ascii c in
  Nat.leb 48 n && Nat.leb n 57 || Nat.leb 65 n && Nat.leb n 90
  || Nat.leb 97 n && Nat.leb n 122
  || existsb (Ascii.eqb c) (list_ascii_of_string ";/?:@&=+$,-_.!~*'()#").

Definition is_hex (c : ascii) : bool :=
  let n := nat_of_ascii c in
  Nat.leb 48 n && Nat.leb n 57 || Nat.leb 65 n && Nat.leb n 70
  || Nat.leb 97 n && Nat.leb n 102.

Definition HEX_digit (n : nat) : ascii :=
  match String.get n "0123456789ABCDEF" with
  | Some c => c
  | None => "0"%char
  end.

Definition percent (c : ascii) : string :=
  let n := nat_of_ascii c in
  String "%" (String (HEX_digit (n / 16)) (String (HEX_digit (n mod 16)) EmptyString)).

Definition encodeURI_char (c : ascii) : string :=
  if uri_char c then String c EmptyString else percent c.

(** [encodeurl]: what is not allowed in an address is percent-encoded, and so
    is a percent sign that does not start an escape, together with what it
    holds back; an escape already there is kept. *)
Fixpoint encodeurl (s : string) : string :=
  match s with
  | EmptyString => EmptyString
  | String c rest =>
      if Ascii.eqb c "%" then
        match rest with
        | EmptyString => "%25"
        | String h rest1 =>
            if is_hex h then
              match rest1 with
              | EmptyString => String c (encodeurl rest)
              | String l rest2 =>
                  if is_hex l then String c (encodeurl rest)
                  else "%25" ++ String h (encodeURI_char l ++ encodeurl rest2)
              end
            else "%25" ++ encodeURI_char h ++ encodeurl rest1
        end
      else if url_char c then String c (encodeurl rest)
      else percent c ++ encodeurl rest
  end.

#[export] Instance Runtime : Node := {|
  base64_decode := decode;
  base64_encode := encode;
  base64_decode_encode := decode_encode;
  Buffer_from_object := from_object;
  toISOString := iso_text;
  pg_prepareValue := prepareValue;
  encodeUrl := encodeurl
|}.

End Reference.

(** ** Sample requests *)

Module Sample.
Import Reference.

Definition no_key : Env := fun _ => None.

Definition with_key : Env :=
  fun k => if String.eqb k "GOOGLE_API_KEY" then Some "AIza-sample" else None.

Definition png : list byte := [x89; x50; x4e; x47; x0d; x0a; x1a; x0a].

(** An answer of the generation endpoint: a text part, then the picture. *)
Definition answer (b64 : string) : JValue :=
  JObj [("candidates", JArr [
    JObj [("content", JObj [("parts", JArr [
      JObj [("text", JStr "Here is your image.")];
      JObj [("inlineData", JObj [("mimeType", JStr "image/png");
                                 ("data", JStr b64)])]])])]])].

(** An answer with text only. *)
Definition refusal : JValue :=
  JObj [("candidates", JArr [
    JObj [("content", JObj [("parts", JArr [
      JObj [("text", JStr "I cannot draw that.")]])])]])].

(** A request handled at the instant [now], for which [Date.now() +
    Math.random()] came out as [n]. *)
Definition world (n : Q) (now : Z) (data : JValue) : World :=
  {| base_file := Some png; upstream := Ok data; fresh_id := n; clock := now |}.

Definition request (text : string) : option JValue :=
  Some (JObj [("prompt", JStr text)]).

Definition url_of (n : Q) : string :=
  "https://res.cloudinary.com/demo/image/upload/degenify/" ++ Number_toString n
    ++ ".png".

Definition public_id_of (n : Q) : string := "degenify/" ++ Number_toString n.

(** Services that work: the upload lands at [url_of n], the statements go
    through, and the storage serves [served] everywhere. *)
Definition services (n : Q) (now : Z) (rows : list Persistent.Row)
    (served : list byte) : Persistent.Services :=
  {| Persistent.uploaded := Some (url_of n, public_id_of n);
     Persistent.db_up := true;
     Persistent.db_clock := now;
     Persistent.listed := rows;
     Persistent.stored := fun _ => Persistent.Found served |}.

(** Cloudinary rejects the upload. *)
Definition upload_down (now : Z) : Persistent.Services :=
  {| Persistent.uploaded := None;
     Persistent.db_up := true;
     Persistent.db_clock := now;
     Persistent.listed := [];
     Persistent.stored := fun _ => Persistent.Unreachable |}.

(** The database is unreachable. *)
Definition database_down (now : Z) : Persistent.Services :=
  {| Persistent.uploaded := None;
     Persistent.db_up := false;
     Persistent.db_clock := now;
     Persistent.listed := [];
     Persistent.stored := fun _ => Persistent.Unreachable |}.

End Sample.

(** * Properties *)

(** ** The shared generation steps *)

Section GenerationFacts.
Context {JSN : JSNumber} {ND : Node}.
Variable S : Type.
Variables (env : Env) (w : World) (reqbody : option JValue) (s : S).

Lemma generation_without_prompt :
  truthy_opt (prompt_of reqbody) = false ->
  generation env w reqbody s
  = (Return (res_json 400 (error_body "prompt required")), s, []).
Proof.
  intros H. unfold generation, bind, unless_truthy.
  destruct (prompt_of reqbody) as [p|]; cbn in *; [rewrite H|]; reflexivity.
Qed.

Lemma generation_without_base p :
  prompt_of reqbody = Some p -> truthy p = true ->
  base_file w = None ->
  generation env w reqbody s
  = (Return (res_json 400
       (error_body ("Base image missing at " ++ BASE_IMAGE_PATH env))), s, []).
Proof.
  intros Hp Ht Hb. unfold generation, bind, unless_truthy.
  rewrite Hp, Ht, Hb. reflexivity.
Qed.

Lemma generation_without_key p baseImage :
  prompt_of reqbody = Some p -> truthy p = true ->
  base_file w = Some baseImage ->
  configured (GOOGLE_API_KEY env) = None ->
  generation env w reqbody s = (Return (res_png baseImage), s, []).
Proof.
  intros Hp Ht Hb Hk. unfold generation, bind, unless_truthy.
  rewrite Hp, Ht, Hb, Hk. reflexivity.
Qed.

(** A prompt that has no text ends the request before any call. *)
Lemma generation_without_text p baseImage key :
  prompt_of reqbody = Some p -> truthy p = true ->
  base_file w = Some baseImage ->
  configured (GOOGLE_API_KEY env) = Some key ->
  ToString p = None ->
  generation env w reqbody s = (Throw, s, []).
Proof.
  intros Hp Ht Hb Hk Hs. unfold generation, bind, unless_truthy, settle.
  rewrite Hp, Ht, Hb, Hk. cbn. rewrite Hs. reflexivity.
Qed.

(** Once the prompt, the base image and the key are there, and the prompt has
    a text, the endpoint is called once and its answer decides. *)
Lemma generation_with_key p text baseImage key :
  prompt_of reqbody = Some p -> truthy p = true ->
  base_file w = Some baseImage ->
  configured (GOOGLE_API_KEY env) = Some key ->
  ToString p = Some text ->
  generation env w reqbody s
  = (match upstream w with
     | Rejected => Throw
     | NotOk errText =>
         Return (res_json 502 (error_detail "Google API error" (JStr errText)))
     | Ok data =>
         match b64_of data with
         | None => Return (res_json 502 (error_detail "No image returned" data))
         | Some b64 =>
             if truthy b64 then
               match Buffer_from b64 with
               | Some imgBuffer => Next (p, b64, imgBuffer)
               | None => Throw
               end
             else Return (res_json 502 (error_detail "No image returned" data))
         end
     end, s, [generateContent env key text baseImage]).
Proof.
  intros Hp Ht Hb Hk Hs. unfold generation, bind, unless_truthy, settle.
  rewrite Hp, Ht, Hb, Hk. cbn. rewrite Hs. cbn.
  destruct (upstream w) as [|errText|data]; cbn; try reflexivity.
  destruct (b64_of data) as [b64|]; cbn; try reflexivity.
  destruct (truthy b64); cbn; try reflexivity.
  destruct (Buffer_from b64); reflexivity.
Qed.

End GenerationFacts.

Section ScanFacts.
Context {JSN : JSNumber}.

Lemma scan_truthy parts b64 : scan parts = Some (Some b64) -> truthy b64 = true.
Proof.
  induction parts as [|p rest IH]; cbn; [discriminate|].
  destruct (get p "inline_data") as [snake|]; [|discriminate].
  destruct (truthy_opt (get_opt snake "data")) eqn:E1.
  - intros H; injection H as H. rewrite H in E1. exact E1.
  - destruct (get p "inlineData") as [camel|]; [|discriminate].
    destruct (truthy_opt (get_opt camel "data")) eqn:E2; [|exact IH].
    intros H; injection H as H. rewrite H in E2. exact E2.
Qed.

Lemma b64_of_truthy data b64 : b64_of data = Some b64 -> truthy b64 = true.
Proof.
  unfold b64_of.
  destruct (get data "candidates") as [candidates|]; [|discriminate].
  destruct (iterate _) as [items|]; [|discriminate].
  destruct (scan items) as [[found|]|] eqn:E; try discriminate.
  intros H; injection H as <-. eapply scan_truthy; eauto.
Qed.

End ScanFacts.

(** ** server.mjs *)

Section InMemoryFacts.
Context {JSN : JSNumber} {ND : Node}.
Import InMemory.

Lemma generate_created env w reqbody st p text baseImage key data b64 imgBuffer :
  prompt_of reqbody = Some p -> truthy p = true ->
  base_file w = Some baseImage ->
  configured (GOOGLE_API_KEY env) = Some key ->
  ToString p = Some text ->
  upstream w = Ok data ->
  b64_of data = Some b64 ->
  Buffer_from b64 = Some imgBuffer ->
  post_api_generate env w reqbody st
  = (res_png imgBuffer,
     (st ++ [created w p imgBuffer])%list,
     [generateContent env key text baseImage;
      WriteFile GALLERY_FILE
        (JArr (map to_json (st ++ [created w p imgBuffer])%list))]).
Proof.
  intros Hp Ht Hb Hk Hs Hu H64 Hbuf.
  unfold post_api_generate, try_catch, bind.
  rewrite (generation_with_key _ env w reqbody st p text baseImage key Hp Ht Hb Hk Hs).
  rewrite Hu, H64, (b64_of_truthy _ _ H64), Hbuf. reflexivity.
Qed.

(** Every other way through the handler leaves the array alone. *)
Lemma generate_cases env w reqbody st :
  store_after (post_api_generate env w reqbody st) = st
  \/ exists p text baseImage key data b64 imgBuffer,
       prompt_of reqbody = Some p /\ truthy p = true /\
       base_file w = Some baseImage /\
       configured (GOOGLE_API_KEY env) = Some key /\
       ToString p = Some text /\
       upstream w = Ok data /\ b64_of data = Some b64 /\
       Buffer_from b64 = Some imgBuffer.
Proof.
  destruct (prompt_of reqbody) as [p|] eqn:Hp.
  2:{ left. unfold post_api_generate, try_catch, bind.
      rewrite generation_without_prompt by (rewrite Hp; reflexivity). reflexivity. }
  destruct (truthy p) eqn:Ht.
  2:{ left. unfold post_api_generate, try_catch, bind.
      rewrite generation_without_prompt by (rewrite Hp; exact Ht). reflexivity. }
  destruct (base_file w) as [baseImage|] eqn:Hb.
  2:{ left. unfold post_api_generate, try_catch, bind.
      rewrite (generation_without_base _ env w reqbody st p Hp Ht Hb). reflexivity. }
  destruct (configured (GOOGLE_API_KEY env)) as [key|] eqn:Hk.
  2:{ left. unfold post_api_generate, try_catch, bind.
      rewrite (generation_without_key _ env w reqbody st p baseImage Hp Ht Hb Hk).
      reflexivity. }
  destruct (ToString p) as [text|] eqn:Hs.
  2:{ left. unfold post_api_generate, try_catch, bind.
      rewrite (generation_without_text _ env w reqbody st p baseImage key Hp Ht Hb Hk Hs).
      reflexivity. }
  destruct (upstream w) as [|errText|data] eqn:Hu.
  1,2: left; unfold post_api_generate, try_catch, bind;
       rewrite (generation_with_key _ env w reqbody st p text baseImage key
                  Hp Ht Hb Hk Hs), Hu;
       reflexivity.
  destruct (b64_of data) as [b64|] eqn:H64.
  2:{ left. unfold post_api_generate, try_catch, bind.
      rewrite (generation_with_key _ env w reqbody st p text baseImage key
                 Hp Ht Hb Hk Hs), Hu, H64.
      reflexivity. }
  destruct (Buffer_from b64) as [imgBuffer|] eqn:Hbuf.
  2:{ left. unfold post_api_generate, try_catch, bind.
      rewrite (generation_with_key _ env w reqbody st p text baseImage key
                 Hp Ht Hb Hk Hs), Hu, H64.
      rewrite (b64_of_truthy _ _ H64), Hbuf. reflexivity. }
  right. exists p, text, baseImage, key, data, b64, imgBuffer. repeat split; assumption.
Qed.

Lemma handle_cases env w req st :
  store_after (handle env w req st) = st
  \/ exists reqbody p imgBuffer,
       req = PostGenerate reqbody /\
       prompt_of reqbody = Some p /\
       handle env w req st
       = (res_png imgBuffer, (st ++ [created w p imgBuffer])%list,
          calls_of (handle env w req st)).
Proof.
  destruct req as [reqbody| |imageId|imageId]; cbn [handle].
  - destruct (generate_cases env w reqbody st) as [H|H]; [left; exact H|right].
    destruct H as (p & text & baseImage & key & data & b64 & imgBuffer
                   & Hp & Ht & Hb & Hk & Hs & Hu & H64 & Hbuf).
    exists reqbody, p, imgBuffer. split; [reflexivity|]. split; [exact Hp|].
    rewrite (generate_created env w reqbody st p text baseImage key data b64 imgBuffer)
      by assumption.
    reflexivity.
  - left. reflexivity.
  - left. unfold get_api_image. destruct (find _ _); reflexivity.
  - left. unfold get_api_download. destruct (find _ _); reflexivity.
Qed.

Lemma run_extends env history : forall st,
  exists added, run env history st = (st ++ added)%list.
Proof.
  induction history as [|[w req] later IH]; intros st; cbn [run].
  - exists []. symmetry. apply app_nil_r.
  - destruct (handle_cases env w req st) as [H|H].
    + rewrite H. apply IH.
    + destruct H as (reqbody & p & imgBuffer & _ & _ & H). rewrite H.
      unfold store_after; cbn [fst snd].
      destruct (IH (st ++ [created w p imgBuffer])%list) as [added Hadd].
      exists (created w p imgBuffer :: added). rewrite Hadd, <- app_assoc. reflexivity.
Qed.

End InMemoryFacts.

(** ** Sorting *)

Section SortFacts.
Context {A : Type}.
Variable cmp : A -> A -> Z.

Lemma insert_perm x l : Permutation (x :: l) (insert cmp x l).
Proof.
  induction l as [|y rest IH]; cbn; [apply Permutation_refl|].
  destruct (cmp x y <=? 0)%Z; [apply Permutation_refl|].
  eapply perm_trans; [apply perm_swap|]. apply perm_skip, IH.
Qed.

Lemma Array_sort_perm l : Permutation l (Array_sort cmp l).
Proof.
  induction l as [|x rest IH]; cbn; [apply perm_nil|].
  eapply perm_trans; [apply perm_skip, IH|apply insert_perm].
Qed.

(** A comparator is consistent when it orders any two elements one way or
    the other and transitively. *)
Hypothesis cmp_total : forall x y, (0 < cmp x y)%Z -> (cmp y x <= 0)%Z.
Hypothesis cmp_trans :
  forall x y z, (cmp x y <= 0)%Z -> (cmp y z <= 0)%Z -> (cmp x z <= 0)%Z.

Let before (x y : A) : Prop := (cmp x y <= 0)%Z.

Lemma insert_sorted x l :
  StronglySorted before l -> StronglySorted before (insert cmp x l).
Proof.
  induction 1 as [|y rest Hs IH Hy]; cbn.
  - constructor; constructor.
  - destruct (cmp x y <=? 0)%Z eqn:E.
    + apply Z.leb_le in E. constructor; [constructor; assumption|].
      constructor; [exact E|].
      eapply Forall_impl; [|exact Hy]. intros z Hz. eapply cmp_trans; eauto.
    + apply Z.leb_gt in E. constructor; [exact IH|].
      eapply Permutation_Forall; [apply insert_perm|].
      constructor; [apply cmp_total; exact E|exact Hy].
Qed.

Lemma Array_sort_sorted l : StronglySorted before (Array_sort cmp l).
Proof.
  induction l as [|x rest IH]; cbn; [constructor|apply insert_sorted, IH].
Qed.

End SortFacts.

Section SortShapes.
Context {A : Type}.
Variable cmp : A -> A -> Z.

(** An element that every other one goes before lands at the end. *)
Lemma insert_last x l :
  Forall (fun y => (0 < cmp x y)%Z) l -> insert cmp x l = (l ++ [x])%list.
Proof.
  induction 1 as [|y rest Hy _ IH]; cbn; [reflexivity|].
  destruct (cmp x y <=? 0)%Z eqn:E; [apply Z.leb_le in E; lia|].
  rewrite IH. reflexivity.
Qed.

(** Stability: an element that may stay in front does. *)
Lemma insert_first x l :
  Forall (fun y => (cmp x y <= 0)%Z) l -> insert cmp x l = x :: l.
Proof.
  destruct 1 as [|y rest Hy _]; cbn; [reflexivity|].
  destruct (cmp x y <=? 0)%Z eqn:E; [reflexivity|apply Z.leb_gt in E; lia].
Qed.

Lemma Array_sort_reverses l :
  StronglySorted (fun x y => (0 < cmp x y)%Z) l -> Array_sort cmp l = rev l.
Proof.
  induction 1 as [|x rest _ IH Hx]; cbn; [reflexivity|].
  rewrite IH. apply insert_last.
  apply Forall_forall. intros y Hy. apply in_rev in Hy.
  rewrite Forall_forall in Hx. apply Hx, Hy.
Qed.

Lemma Array_sort_keeps l :
  StronglySorted (fun x y => (cmp x y <= 0)%Z) l -> Array_sort cmp l = l.
Proof.
  induction 1 as [|x rest _ IH Hx]; cbn; [reflexivity|].
  rewrite IH. apply insert_first, Hx.
Qed.

(** Two sorted listings of the same elements agree when no two distinct
    elements tie. *)
Lemma sorted_listing_unique (R : A -> A -> Prop) (l1 : list A) : forall l2,
  (forall a b, In a l1 -> In b l1 -> R a b -> R b a -> a = b) ->
  Permutation l1 l2 ->
  StronglySorted R l1 -> StronglySorted R l2 -> l1 = l2.
Proof.
  induction l1 as [|a t IH]; intros l2 Hanti Hperm Hs1 Hs2.
  - apply Permutation_nil in Hperm. symmetry. exact Hperm.
  - destruct l2 as [|b u].
    { apply Permutation_sym, Permutation_nil in Hperm. discriminate. }
    inversion Hs1 as [|? ? Hst Hat]; subst.
    inversion Hs2 as [|? ? Hsu Hbu]; subst.
    assert (Hab : a = b).
    { assert (Ha : In a (b :: u)) by (eapply Permutation_in; [exact Hperm|left; reflexivity]).
      assert (Hb : In b (a :: t))
        by (eapply Permutation_in; [apply Permutation_sym, Hperm|left; reflexivity]).
      destruct Ha as [Ha|Ha]; [symmetry; exact Ha|].
      destruct Hb as [Hb|Hb]; [exact Hb|].
      rewrite Forall_forall in Hat, Hbu.
      apply Hanti; [left; reflexivity|right; exact Hb|apply Hat, Hb|apply Hbu, Ha]. }
    subst b. f_equal. apply IH; try assumption.
    + intros x y Hx Hy. apply Hanti; right; assumption.
    + eapply Permutation_cons_inv. exact Hperm.
Qed.

Lemma sorted_weaken (R R' : A -> A -> Prop) l :
  (forall a b, R a b -> R' a b) -> StronglySorted R l -> StronglySorted R' l.
Proof.
  intros Himp. induction 1 as [|a rest _ IH Ha]; constructor; [exact IH|].
  eapply Forall_impl; [|exact Ha]. intros b. apply Himp.
Qed.

Lemma sorted_append (R : A -> A -> Prop) l1 l2 :
  StronglySorted R l1 -> StronglySorted R l2 ->
  (forall a b, In a l1 -> In b l2 -> R a b) ->
  StronglySorted R (l1 ++ l2)%list.
Proof.
  intros H1 H2 Hcross. induction H1 as [|a rest _ IH Ha]; cbn; [exact H2|].
  constructor.
  - apply IH. intros x y Hx Hy. apply Hcross; [right; exact Hx|exact Hy].
  - apply Forall_app. split; [exact Ha|].
    apply Forall_forall. intros y Hy. apply Hcross; [left; reflexivity|exact Hy].
Qed.

End SortShapes.

(** ** server-persistent.mjs *)

Section PersistentFacts.
Context {JSN : JSNumber} {ND : Node}.
Import Persistent.

Lemma stored_generate_created env w sv reqbody rows p text baseImage key data b64
    imgBuffer payload secure_url public_id :
  prompt_of reqbody = Some p -> truthy p = true ->
  base_file w = Some baseImage ->
  configured (GOOGLE_API_KEY env) = Some key ->
  ToString p = Some text ->
  upstream w = Ok data ->
  b64_of data = Some b64 ->
  Buffer_from b64 = Some imgBuffer ->
  ToString b64 = Some payload ->
  uploaded sv = Some (secure_url, public_id) ->
  db_up sv = true ->
  existsb (has_id (bound (JNum (fresh_id w)))) rows = false ->
  post_api_generate env w sv reqbody rows
  = (res_png imgBuffer,
     (rows ++ [inserted w sv p secure_url public_id])%list,
     [generateContent env key text baseImage;
      upload payload (fresh_id w);
      insert_into (fresh_id w) p secure_url public_id]).
Proof.
  intros Hp Ht Hb Hk Hs Hu H64 Hbuf Hpay Hup Hdb Hfree.
  unfold post_api_generate, try_catch, bind.
  rewrite (generation_with_key _ env w reqbody rows p text baseImage key Hp Ht Hb Hk Hs).
  rewrite Hu, H64, (b64_of_truthy _ _ H64), Hbuf. cbn.
  rewrite Hpay. cbn. rewrite Hup. cbn. cbn in Hfree. rewrite Hdb, Hfree. reflexivity.
Qed.

(** When the payload has no text, the upload is rejected, or the statement
    fails, the handler's catch answers 500 and the table is as before. *)
Lemma stored_generate_failed env w sv reqbody rows p text baseImage key data b64
    imgBuffer :
  prompt_of reqbody = Some p -> truthy p = true ->
  base_file w = Some baseImage ->
  configured (GOOGLE_API_KEY env) = Some key ->
  ToString p = Some text ->
  upstream w = Ok data ->
  b64_of data = Some b64 ->
  Buffer_from b64 = Some imgBuffer ->
  ToString b64 = None
  \/ uploaded sv = None
  \/ db_up sv = false
  \/ existsb (has_id (bound (JNum (fresh_id w)))) rows = true ->
  response_of (post_api_generate env w sv reqbody rows)
  = res_json 500 (error_body "server error")
  /\ store_after (post_api_generate env w sv reqbody rows) = rows.
Proof.
  intros Hp Ht Hb Hk Hs Hu H64 Hbuf Hfail.
  unfold post_api_generate, try_catch, bind.
  rewrite (generation_with_key _ env w reqbody rows p text baseImage key Hp Ht Hb Hk Hs).
  rewrite Hu, H64, (b64_of_truthy _ _ H64), Hbuf. cbn.
  destruct (ToString b64) as [payload|]; cbn; [|split; reflexivity].
  destruct (uploaded sv) as [[secure_url public_id]|]; cbn; [|split; reflexivity].
  destruct Hfail as [Hfail|[Hfail|[Hfail|Hfail]]]; [discriminate|discriminate| |].
  - rewrite Hfail. cbn. split; reflexivity.
  - cbn in Hfail. rewrite Hfail, andb_false_r. cbn. split; reflexivity.
Qed.

Lemma stored_generate_cases env w sv reqbody rows :
  store_after (post_api_generate env w sv reqbody rows) = rows
  \/ exists p text baseImage key data b64 imgBuffer payload secure_url public_id,
       prompt_of reqbody = Some p /\ truthy p = true /\
       base_file w = Some baseImage /\
       configured (GOOGLE_API_KEY env) = Some key /\
       ToString p = Some text /\
       upstream w = Ok data /\ b64_of data = Some b64 /\
       Buffer_from b64 = Some imgBuffer /\
       ToString b64 = Some payload /\
       uploaded sv = Some (secure_url, public_id) /\
       db_up sv = true /\
       existsb (has_id (bound (JNum (fresh_id w)))) rows = false.
Proof.
  destruct (prompt_of reqbody) as [p|] eqn:Hp.
  2:{ left. unfold post_api_generate, try_catch, bind.
      rewrite generation_without_prompt by (rewrite Hp; reflexivity). reflexivity. }
  destruct (truthy p) eqn:Ht.
  2:{ left. unfold post_api_generate, try_catch, bind.
      rewrite generation_without_prompt by (rewrite Hp; exact Ht). reflexivity. }
  destruct (base_file w) as [baseImage|] eqn:Hb.
  2:{ left. unfold post_api_generate, try_catch, bind.
      rewrite (generation_without_base _ env w reqbody rows p Hp Ht Hb). reflexivity. }
  destruct (configured (GOOGLE_API_KEY env)) as [key|] eqn:Hk.
  2:{ left. unfold post_api_generate, try_catch, bind.
      rewrite (generation_without_key _ env w reqbody rows p baseImage Hp Ht Hb Hk).
      reflexivity. }
  destruct (ToString p) as [text|] eqn:Hs.
  2:{ left. unfold post_api_generate, try_catch, bind.
      rewrite (generation_without_text _ env w reqbody rows p baseImage key
                 Hp Ht Hb Hk Hs).
      reflexivity. }
  destruct (upstream w) as [|errText|data] eqn:Hu.
  1,2: left; unfold post_api_generate, try_catch, bind;
       rewrite (generation_with_key _ env w reqbody rows p text baseImage key
                  Hp Ht Hb Hk Hs), Hu;
       reflexivity.
  destruct (b64_of data) as [b64|] eqn:H64.
  2:{ left. unfold post_api_generate, try_catch, bind.
      rewrite (generation_with_key _ env w reqbody rows p text baseImage key
                 Hp Ht Hb Hk Hs), Hu, H64.
      reflexivity. }
  destruct (Buffer_from b64) as [imgBuffer|] eqn:Hbuf.
  2:{ left. unfold post_api_generate, try_catch, bind.
      rewrite (generation_with_key _ env w reqbody rows p text baseImage key
                 Hp Ht Hb Hk Hs), Hu, H64.
      rewrite (b64_of_truthy _ _ H64), Hbuf. reflexivity. }
  destruct (ToString b64) as [payload|] eqn:Hpay.
  2:{ left. eapply stored_generate_failed; eauto. }
  destruct (uploaded sv) as [[secure_url public_id]|] eqn:Hup.
  2:{ left. eapply stored_generate_failed; eauto. }
  destruct (db_up sv) eqn:Hdb.
  2:{ left. eapply stored_generate_failed; eauto. }
  destruct (existsb (has_id (bound (JNum (fresh_id w)))) rows) eqn:Hfree.
  1:{ left. eapply stored_generate_failed; eauto 6. }
  right. exists p, text, baseImage, key, data, b64, imgBuffer, payload, secure_url, public_id.
  repeat split; assumption.
Qed.

Lemma query_answers sv sql params select images :
  query sv sql params select images
  = (if db_up sv then Next (select images) else Throw, images, [Query sql params]).
Proof. unfold query, bind, call, read, ret, throw. destruct (db_up sv); reflexivity. Qed.

(** A handler that only reads. *)
Lemma query_only sv sql params select (k : list Row -> Handler (list Row) Response)
    fallback rows :
  (forall found, exists o log, k found rows = (o, rows, log)) ->
  store_after (try_catch (bind (query sv sql params select) k) fallback rows) = rows.
Proof.
  intros Hk. unfold try_catch, bind, query, call, read.
  destruct (db_up sv); cbn; [|reflexivity].
  destruct (Hk (select rows)) as (o & log & E). rewrite E.
  destruct o; reflexivity.
Qed.

Lemma stored_handle_cases env w sv req rows :
  store_after (handle env w sv req rows) = rows
  \/ exists reqbody p imgBuffer secure_url public_id,
       req = PostGenerate reqbody /\
       prompt_of reqbody = Some p /\
       existsb (has_id (bound (JNum (fresh_id w)))) rows = false /\
       handle env w sv req rows
       = (res_png imgBuffer,
          (rows ++ [inserted w sv p secure_url public_id])%list,
          calls_of (handle env w sv req rows)).
Proof.
  destruct req as [reqbody| |imageId|protocol host imageId|imageId]; cbn [handle].
  - destruct (stored_generate_cases env w sv reqbody rows) as [H|H]; [left; exact H|right].
    destruct H as (p & text & baseImage & key & data & b64 & imgBuffer & payload
                   & secure_url & public_id
                   & Hp & Ht & Hb & Hk & Hs & Hu & H64 & Hbuf & Hpay & Hup & Hdb & Hfree).
    exists reqbody, p, imgBuffer, secure_url, public_id.
    split; [reflexivity|]. split; [exact Hp|]. split; [exact Hfree|].
    rewrite (stored_generate_created env w sv reqbody rows p text baseImage key data b64
               imgBuffer payload secure_url public_id) by assumption.
    reflexivity.
  - left. apply query_only. intros found. do 2 eexists. reflexivity.
  - left. apply query_only. intros [|image found]; [do 2 eexists; reflexivity|].
    unfold bind, call. cbn. destruct (stored sv _); do 2 eexists; reflexivity.
  - left. apply query_only.
    intros [|image found]; cbv beta zeta; unfold ret, respond; do 2 eexists; reflexivity.
  - left. apply query_only. intros [|image found]; do 2 eexists; reflexivity.
Qed.

Lemma stored_run_extends env history : forall rows,
  exists added, run env history rows = (rows ++ added)%list.
Proof.
  induction history as [|[[w sv] req] later IH]; intros rows; cbn [run].
  - exists []. symmetry. apply app_nil_r.
  - destruct (stored_handle_cases env w sv req rows) as [H|H].
    + rewrite H. apply IH.
    + destruct H as (reqbody & p & imgBuffer & secure_url & public_id & _ & _ & _ & H).
      rewrite H. unfold store_after; cbn [fst snd].
      destruct (IH (rows ++ [inserted w sv p secure_url public_id])%list) as [added Hadd].
      exists (inserted w sv p secure_url public_id :: added).
      rewrite Hadd, <- app_assoc. reflexivity.
Qed.

End PersistentFacts.

(** * The claims *)

Import Reference.

Section Prompts.
Context {JSN : JSNumber} {ND : Node}.

Lemma submits_truthy reqbody text :
  submits reqbody text ->
  prompt_of reqbody = Some (JStr text) /\ truthy (JStr text) = true.
Proof.
  intros [Hp Hne]. split; [exact Hp|]. cbn.
  destruct (String.eqb text EmptyString) eqn:E; [|reflexivity].
  apply String.eqb_eq in E. contradiction.
Qed.

Lemma lacks_prompt_falsy reqbody :
  lacks_prompt reqbody -> truthy_opt (prompt_of reqbody) = false.
Proof. intros [H|H]; rewrite H; reflexivity. Qed.

End Prompts.

(** C2.  A POST /api/generate whose prompt is empty or missing is answered
    400 (prompt required) by both servers; the stored records are the same
    afterwards and nothing was called: neither the generation endpoint, nor
    the object store, nor the database. *)
Theorem generate_rejects_missing_prompt {JSN : JSNumber} {ND : Node} :
  forall (env : Env) (w : World) (reqbody : option JValue),
    lacks_prompt reqbody ->
    (forall generatedImages,
       InMemory.post_api_generate env w reqbody generatedImages
       = (res_json 400 (error_body "prompt required"), generatedImages, []))
    /\ (forall sv images,
          Persistent.post_api_generate env w sv reqbody images
          = (res_json 400 (error_body "prompt required"), images, [])).
Proof.
  intros env w reqbody H. apply lacks_prompt_falsy in H.
  split; intros.
  - unfold InMemory.post_api_generate, try_catch, bind.
    rewrite generation_without_prompt by exact H. reflexivity.
  - unfold Persistent.post_api_generate, try_catch, bind.
    rewrite generation_without_prompt by exact H. reflexivity.
Qed.

Lemma generate_rejects_missing_prompt_witness :
  let w := Sample.world 1758537512345.25%Q 1758537512345 (Sample.answer "AAAA") in
  lacks_prompt (Sample.request EmptyString)
  /\ lacks_prompt (Some (JObj [("text", JStr "a cat")]))
  /\ lacks_prompt None
  /\ InMemory.post_api_generate Sample.with_key w (Sample.request EmptyString) []
     = (res_json 400 (error_body "prompt required"), [], []).
Proof.
  cbv zeta.
  split; [right; reflexivity|]. split; [left; reflexivity|]. split; [left; reflexivity|].
  apply (proj1 (generate_rejects_missing_prompt Sample.with_key
                  (Sample.world 1758537512345.25%Q 1758537512345 (Sample.answer "AAAA"))
                  (Sample.request EmptyString) (or_intror eq_refl))).
Defined.

(** C10.  Without a configured GOOGLE_API_KEY (unset, or set to the empty
    text), a POST /api/generate with a non-empty prompt and an existing base
    image is answered 200 with the bytes of the base image as they are; the
    generation endpoint is not called (nothing is), and no record is created.
    Both servers. *)
Theorem generate_without_key_serves_base_image {JSN : JSNumber} {ND : Node} :
  forall (env : Env) (w : World) (reqbody : option JValue) (text : string)
         (baseImage : list byte),
    configured (GOOGLE_API_KEY env) = None ->
    submits reqbody text ->
    base_file w = Some baseImage ->
    status (res_png baseImage) = 200%Z
    /\ body (res_png baseImage) = Bytes baseImage
    /\ (forall generatedImages,
          InMemory.post_api_generate env w reqbody generatedImages
          = (res_png baseImage, generatedImages, []))
    /\ (forall sv images,
          Persistent.post_api_generate env w sv reqbody images
          = (res_png baseImage, images, [])).
Proof.
  intros env w reqbody text baseImage Hk Hs Hb.
  destruct (submits_truthy _ _ Hs) as [Hp Ht].
  split; [reflexivity|]. split; [reflexivity|]. split; intros.
  - unfold InMemory.post_api_generate, try_catch, bind.
    rewrite (generation_without_key _ env w reqbody _ _ baseImage Hp Ht Hb Hk).
    reflexivity.
  - unfold Persistent.post_api_generate, try_catch, bind.
    rewrite (generation_without_key _ env w reqbody _ _ baseImage Hp Ht Hb Hk).
    reflexivity.
Qed.

Lemma generate_without_key_serves_base_image_witness :
  configured (GOOGLE_API_KEY Sample.no_key) = None
  /\ submits (Sample.request "a cat on the moon") "a cat on the moon"
  /\ InMemory.post_api_generate Sample.no_key
       (Sample.world 1758537512345.25%Q 1758537512345 (Sample.answer "AAAA"))
       (Sample.request "a cat on the moon") []
     = (res_png Sample.png, [], []).
Proof.
  assert (Hs : submits (Sample.request "a cat on the moon") "a cat on the moon")
    by (split; [reflexivity|discriminate]).
  split; [reflexivity|]. split; [exact Hs|].
  apply (generate_without_key_serves_base_image Sample.no_key
           (Sample.world 1758537512345.25%Q 1758537512345 (Sample.answer "AAAA"))
           (Sample.request "a cat on the moon") "a cat on the moon" Sample.png
           eq_refl Hs eq_refl).
Defined.

(** C9.  Of all the operations the servers expose, only a POST /api/generate
    that answers with the generated image changes the stored records, and it
    appends one record, whose id is the one drawn for that request, after the
    records already there.  So over any history of requests the records
    present at the start are still there, in place and as they were: none is
    updated, none is deleted, no id is given again to a stored record. *)
Theorem generate_is_the_only_writer {JSN : JSNumber} {ND : Node} :
  forall env : Env,
    (forall w req generatedImages,
       let reply := InMemory.handle env w req generatedImages in
       InMemory.store_after reply = generatedImages
       \/ exists reqbody prompt imgBuffer,
            req = InMemory.PostGenerate reqbody
            /\ InMemory.response_of reply = res_png imgBuffer
            /\ InMemory.store_after reply
               = (generatedImages ++ [InMemory.created w prompt imgBuffer])%list
            /\ InMemory.id (InMemory.created w prompt imgBuffer) = fresh_id w)
    /\ (forall history generatedImages,
          exists added,
            InMemory.run env history generatedImages
            = (generatedImages ++ added)%list)
    /\ (forall w sv req images,
          let reply := Persistent.handle env w sv req images in
          Persistent.store_after reply = images
          \/ exists reqbody prompt imgBuffer secure_url public_id,
               req = Persistent.PostGenerate reqbody
               /\ Persistent.response_of reply = res_png imgBuffer
               /\ Persistent.store_after reply
                  = (images ++ [Persistent.inserted w sv prompt secure_url public_id])%list
               /\ Persistent.id (Persistent.inserted w sv prompt secure_url public_id)
                  = Persistent.bound (JNum (fresh_id w)))
    /\ (forall history images,
          exists added, Persistent.run env history images = (images ++ added)%list)
    /\ (forall sv protocol host imageId images,
          Persistent.store_after (Plain.get_api_share sv protocol host imageId images)
          = images).
Proof.
  intros env. repeat split.
  - intros w req generatedImages reply.
    destruct (handle_cases env w req generatedImages) as [H|H]; [left; exact H|right].
    destruct H as (reqbody & p & imgBuffer & Hreq & _ & H).
    exists reqbody, p, imgBuffer. subst reply. rewrite H. repeat split. exact Hreq.
  - intros history generatedImages. apply run_extends.
  - intros w sv req images reply.
    destruct (stored_handle_cases env w sv req images) as [H|H]; [left; exact H|right].
    destruct H as (reqbody & p & imgBuffer & secure_url & public_id & Hreq & _ & _ & H).
    exists reqbody, p, imgBuffer, secure_url, public_id.
    subst reply. rewrite H. repeat split. exact Hreq.
  - intros history images. apply stored_run_extends.
  - intros sv protocol host imageId images. unfold Plain.get_api_share.
    apply query_only.
    intros [|image found]; cbv beta zeta; unfold ret, respond; do 2 eexists; reflexivity.
Qed.

(** C1, as the code has it.  For every non-empty prompt, when the generation
    endpoint is called, answers 2xx and its answer holds a base64 text as
    image payload, POST /api/generate of server.mjs answers 200 with the
    decoded bytes as image/png and appends exactly one record, whose prompt is
    the submitted text.  server-persistent.mjs does the same provided the
    upload to the object store and the INSERT go through (the latter needs
    the drawn id to be free in the table). *)
Theorem generate_stores_the_image {JSN : JSNumber} {ND : Node} :
  forall (env : Env) (w : World) (reqbody : option JValue) (text : string)
         (data : JValue) (b64 : string),
    submits reqbody text ->
    generated env w data ->
    b64_of data = Some (JStr b64) ->
    let imgBuffer := base64_decode b64 in
    status (res_png imgBuffer) = 200%Z
    /\ headers (res_png imgBuffer) = [("Content-Type", "image/png")]
    /\ body (res_png imgBuffer) = Bytes imgBuffer
    /\ (forall generatedImages,
          let record := InMemory.created w (JStr text) imgBuffer in
          InMemory.prompt record = JStr text
          /\ InMemory.response_of
               (InMemory.post_api_generate env w reqbody generatedImages)
             = res_png imgBuffer
          /\ InMemory.store_after
               (InMemory.post_api_generate env w reqbody generatedImages)
             = (generatedImages ++ [record])%list)
    /\ (forall sv images secure_url public_id,
          Persistent.uploaded sv = Some (secure_url, public_id) ->
          Persistent.db_up sv = true ->
          existsb (Persistent.has_id (Persistent.bound (JNum (fresh_id w)))) images
          = false ->
          let row := Persistent.inserted w sv (JStr text) secure_url public_id in
          Persistent.prompt row = text
          /\ Persistent.response_of
               (Persistent.post_api_generate env w sv reqbody images)
             = res_png imgBuffer
          /\ Persistent.store_after
               (Persistent.post_api_generate env w sv reqbody images)
             = (images ++ [row])%list).
Proof.
  intros env w reqbody text data b64 Hs ([baseImage Hb] & [key Hk] & Hu) H64 imgBuffer.
  destruct (submits_truthy _ _ Hs) as [Hp Ht].
  assert (Hbuf : Buffer_from (JStr b64) = Some imgBuffer) by reflexivity.
  assert (Htext : ToString (JStr text) = Some text) by reflexivity.
  assert (Hpay : ToString (JStr b64) = Some b64) by reflexivity.
  repeat split.
  - rewrite (generate_created env w reqbody generatedImages (JStr text) text baseImage key
               data (JStr b64) imgBuffer) by assumption.
    reflexivity.
  - rewrite (generate_created env w reqbody generatedImages (JStr text) text baseImage key
               data (JStr b64) imgBuffer) by assumption.
    reflexivity.
  - rewrite (stored_generate_created env w sv reqbody images (JStr text) text baseImage key
               data (JStr b64) imgBuffer b64 secure_url public_id) by assumption.
    reflexivity.
  - rewrite (stored_generate_created env w sv reqbody images (JStr text) text baseImage key
               data (JStr b64) imgBuffer b64 secure_url public_id) by assumption.
    reflexivity.
Qed.

Lemma generate_stores_the_image_witness :
  submits (Sample.request "a cat on the moon") "a cat on the moon"
  /\ generated Sample.with_key (Sample.world 1758537512345.25%Q 1758537512345 (Sample.answer "AAAA"))
       (Sample.answer "AAAA")
  /\ b64_of (Sample.answer "AAAA") = Some (JStr "AAAA")
  /\ InMemory.store_after
       (InMemory.post_api_generate Sample.with_key
          (Sample.world 1758537512345.25%Q 1758537512345 (Sample.answer "AAAA"))
          (Sample.request "a cat on the moon") [])
     = [InMemory.created (Sample.world 1758537512345.25%Q 1758537512345 (Sample.answer "AAAA"))
          (JStr "a cat on the moon") [x00; x00; x00]].
Proof.
  assert (Hs : submits (Sample.request "a cat on the moon") "a cat on the moon")
    by (split; [reflexivity|discriminate]).
  assert (Hg : generated Sample.with_key (Sample.world 1758537512345.25%Q 1758537512345 (Sample.answer "AAAA"))
                 (Sample.answer "AAAA")).
  { split; [exists Sample.png; reflexivity|].
    split; [exists "AIza-sample"; reflexivity|reflexivity]. }
  split; [exact Hs|]. split; [exact Hg|]. split; [reflexivity|].
  exact (proj2 (proj2 (proj1 (proj2 (proj2 (proj2
    (generate_stores_the_image Sample.with_key
       (Sample.world 1758537512345.25%Q 1758537512345 (Sample.answer "AAAA"))
       (Sample.request "a cat on the moon") "a cat on the moon"
       (Sample.answer "AAAA") "AAAA" Hs Hg eq_refl)))) []))).
Defined.

(** C1 as stated fails on server-persistent.mjs: the prompt is not empty, the
    generation endpoint answers 2xx with an image payload, and yet, Cloudinary
    rejecting the upload, the answer is 500 (server error) and no record is
    created. *)
Lemma generate_fails_when_upload_rejected :
  let w := Sample.world 1758537512345.25%Q 1758537512345 (Sample.answer "AAAA") in
  let reply := Persistent.post_api_generate Sample.with_key w (Sample.upload_down 1758537512345)
                 (Sample.request "a cat on the moon") [] in
  submits (Sample.request "a cat on the moon") "a cat on the moon"
  /\ generated Sample.with_key w (Sample.answer "AAAA")
  /\ b64_of (Sample.answer "AAAA") = Some (JStr "AAAA")
  /\ Persistent.response_of reply = res_json 500 (error_body "server error")
  /\ Persistent.store_after reply = [].
Proof.
  cbv zeta. split; [split; [reflexivity|discriminate]|].
  split.
  { split; [exists Sample.png; reflexivity|].
    split; [exists "AIza-sample"; reflexivity|reflexivity]. }
  split; [reflexivity|]. split; reflexivity.
Qed.

(** ** The search for the payload *)

Section Search.
Context {JSN : JSNumber}.

Lemma get_of_part part key :
  part <> JNull -> get part key = Some (get_opt (Some part) key).
Proof. destruct part; intros H; try reflexivity. contradiction. Qed.

Lemma searched_cons part rest :
  part <> JNull -> searched (part :: rest) = part :: searched rest.
Proof. destruct part; intros H; try reflexivity. contradiction. Qed.

Lemma searched_all parts : ~ In JNull parts -> searched parts = parts.
Proof.
  induction parts as [|part rest IH]; intros H; [reflexivity|].
  rewrite searched_cons by (intros ->; apply H; left; reflexivity).
  rewrite IH; [reflexivity|]. intros Hin. apply H. right. exact Hin.
Qed.

Lemma payload_none key part :
  payload key part = None
  <-> truthy_opt (get_opt (get_opt (Some part) key) "data") = false.
Proof.
  unfold payload.
  destruct (truthy_opt (get_opt (get_opt (Some part) key) "data")) eqn:E.
  - split; [|discriminate]. intros H. rewrite H in E. discriminate.
  - split; reflexivity.
Qed.

(** The loop leaves [b64] undefined exactly when none of the parts it reads
    holds a payload under either spelling. *)
Lemma scan_finds_nothing parts :
  match scan parts with Some b64 => b64 | None => None end = None
  <-> Forall without_payload (searched parts).
Proof.
  induction parts as [|part rest IH]; [split; [constructor|reflexivity]|].
  destruct (match part with JNull => true | _ => false end) eqn:Enull.
  { destruct part; try discriminate. split; [constructor|reflexivity]. }
  assert (Hpart : part <> JNull) by (intros ->; discriminate).
  rewrite (searched_cons part rest Hpart). cbn [scan].
  rewrite !(get_of_part part _ Hpart).
  destruct (truthy_opt (get_opt (get_opt (Some part) "inline_data") "data")) eqn:E1.
  { split.
    - intros H. rewrite H in E1. discriminate.
    - intros H. inversion H as [|? ? [H1 _] _]; subst.
      apply payload_none in H1. rewrite H1 in E1. discriminate. }
  destruct (truthy_opt (get_opt (get_opt (Some part) "inlineData") "data")) eqn:E2.
  { split.
    - intros H. rewrite H in E2. discriminate.
    - intros H. inversion H as [|? ? [_ H2] _]; subst.
      apply payload_none in H2. rewrite H2 in E2. discriminate. }
  rewrite IH. split.
  - intros H. constructor; [|exact H]. split; apply payload_none; assumption.
  - intros H. inversion H; assumption.
Qed.

Lemma b64_of_finds_nothing data :
  b64_of data = None <-> Forall without_payload (searched (parts_of data)).
Proof.
  unfold b64_of, parts_of.
  destruct (get data "candidates") as [candidates|]; [|split; [constructor|reflexivity]].
  destruct (iterate _) as [items|]; [|split; [constructor|reflexivity]].
  rewrite <- scan_finds_nothing.
  destruct (scan items) as [found|]; reflexivity.
Qed.

End Search.

(** C3.  When the generation endpoint is called and answers 2xx, the handler
    searches the parts of the first candidate, in order, for a payload under
    [inline_data] and under [inlineData].  If and only if the search finds
    none under either key, the answer is 502 with the error No image returned
    and the endpoint's answer as detail; then no record is created, and the
    call to the endpoint is the only one made (nothing is uploaded or
    inserted).  Both servers.  The endpoint is called for a truthy prompt that
    has a text to put into the instructions, as every text, number and
    boolean has.  The search reads the parts up to a [null] one, on which the
    read throws into the empty catch; an answer with no [null] part is
    searched whole. *)
Theorem missing_image_is_reported {JSN : JSNumber} {ND : Node} :
  forall (env : Env) (w : World) (reqbody : option JValue) (prompt data : JValue)
         (text : string),
    prompt_of reqbody = Some prompt -> truthy prompt = true ->
    ToString prompt = Some text ->
    generated env w data ->
    let no_image := res_json 502 (error_detail "No image returned" data) in
    (~ In JNull (parts_of data) -> searched (parts_of data) = parts_of data)
    /\ (forall generatedImages,
       let reply := InMemory.post_api_generate env w reqbody generatedImages in
       (Forall without_payload (searched (parts_of data))
        <-> InMemory.response_of reply = no_image)
       /\ (InMemory.response_of reply = no_image ->
           InMemory.store_after reply = generatedImages
           /\ exists key baseImage,
                InMemory.calls_of reply = [generateContent env key text baseImage]))
    /\ (forall sv images,
          let reply := Persistent.post_api_generate env w sv reqbody images in
          (Forall without_payload (searched (parts_of data))
           <-> Persistent.response_of reply = no_image)
          /\ (Persistent.response_of reply = no_image ->
              Persistent.store_after reply = images
              /\ exists key baseImage,
                   Persistent.calls_of reply
                   = [generateContent env key text baseImage])).
Proof.
  intros env w reqbody prompt data text Hp Ht Hs ([baseImage Hb] & [key Hk] & Hu) no_image.
  pose proof (b64_of_finds_nothing data) as Hfind.
  split; [apply searched_all|]. split.
  - intros generatedImages reply. subst reply. rewrite <- Hfind.
    unfold InMemory.post_api_generate, try_catch, bind.
    rewrite (generation_with_key _ env w reqbody generatedImages prompt text baseImage key
               Hp Ht Hb Hk Hs), Hu.
    destruct (b64_of data) as [b64|] eqn:H64.
    + rewrite (b64_of_truthy _ _ H64).
      destruct (Buffer_from b64) as [imgBuffer|]; cbn;
        (split; [split; discriminate|discriminate]).
    + cbn. split; [split; reflexivity|]. intros _. split; [reflexivity|].
      exists key, baseImage. reflexivity.
  - intros sv images reply. subst reply. rewrite <- Hfind.
    unfold Persistent.post_api_generate, try_catch, bind.
    rewrite (generation_with_key _ env w reqbody images prompt text baseImage key
               Hp Ht Hb Hk Hs), Hu.
    destruct (b64_of data) as [b64|] eqn:H64.
    + rewrite (b64_of_truthy _ _ H64).
      destruct (Buffer_from b64) as [imgBuffer|]; cbn;
        [|split; [split; discriminate|discriminate]].
      destruct (ToString b64) as [payload|]; cbn;
        [|split; [split; discriminate|discriminate]].
      destruct (Persistent.uploaded sv) as [[secure_url public_id]|]; cbn;
        [|split; [split; discriminate|discriminate]].
      destruct (Persistent.db_up sv && _); cbn;
        (split; [split; discriminate|discriminate]).
    + cbn. split; [split; reflexivity|]. intros _. split; [reflexivity|].
      exists key, baseImage. reflexivity.
Qed.

Lemma missing_image_is_reported_witness :
  let w := Sample.world 1758537512345.25%Q 1758537512345 Sample.refusal in
  prompt_of (Sample.request "a cat on the moon") = Some (JStr "a cat on the moon")
  /\ ToString (JStr "a cat on the moon") = Some "a cat on the moon"
  /\ generated Sample.with_key w Sample.refusal
  /\ Forall without_payload (searched (parts_of Sample.refusal))
  /\ InMemory.response_of
       (InMemory.post_api_generate Sample.with_key w
          (Sample.request "a cat on the moon") [])
     = res_json 502 (error_detail "No image returned" Sample.refusal).
Proof.
  cbv zeta.
  assert (Hg : generated Sample.with_key (Sample.world 1758537512345.25%Q 1758537512345 Sample.refusal)
                 Sample.refusal).
  { split; [exists Sample.png; reflexivity|].
    split; [exists "AIza-sample"; reflexivity|reflexivity]. }
  assert (Hn : Forall without_payload (searched (parts_of Sample.refusal))).
  { cbn. constructor; [split; reflexivity|constructor]. }
  split; [reflexivity|]. split; [reflexivity|]. split; [exact Hg|]. split; [exact Hn|].
  apply (proj1 (proj1 (proj2 (missing_image_is_reported Sample.with_key
                         (Sample.world 1758537512345.25%Q 1758537512345 Sample.refusal)
                         (Sample.request "a cat on the moon")
                         (JStr "a cat on the moon") Sample.refusal "a cat on the moon"
                         eq_refl eq_refl eq_refl Hg)) [])).
  exact Hn.
Defined.

(** ** The listing *)

Section Listing.
Context {JSN : JSNumber} {ND : Node}.

Lemma newest_first_total (x y : InMemory.ImageRecord) :
  (0 < InMemory.newest_first x y)%Z -> (InMemory.newest_first y x <= 0)%Z.
Proof. unfold InMemory.newest_first. lia. Qed.

Lemma newest_first_trans (x y z : InMemory.ImageRecord) :
  (InMemory.newest_first x y <= 0)%Z -> (InMemory.newest_first y z <= 0)%Z ->
  (InMemory.newest_first x z <= 0)%Z.
Proof. unfold InMemory.newest_first. lia. Qed.

Lemma sortedImages_descending generatedImages :
  StronglySorted
    (fun a b => (InMemory.timestamp b <= InMemory.timestamp a)%Z)
    (InMemory.sortedImages generatedImages).
Proof.
  eapply sorted_weaken.
  2: apply (Array_sort_sorted InMemory.newest_first newest_first_total newest_first_trans).
  intros a b. cbv beta. unfold InMemory.newest_first. lia.
Qed.

(** With strictly growing timestamps there is one listing that is newest
    first: the rows in reverse. *)
Lemma listed_in_reverse (images rows : list Persistent.Row) :
  StronglySorted (fun a b => (Persistent.timestamp a < Persistent.timestamp b)%Z) images ->
  Persistent.order_by_timestamp_desc images rows ->
  rows = rev images.
Proof.
  intros Hinc [Hperm Hsorted]. symmetry.
  apply (sorted_listing_unique Persistent.newer_or_same).
  - (* two rows of the table that tie are the same row *)
    intros a b Ha Hb Hab Hba. unfold Persistent.newer_or_same in *.
    apply in_rev in Ha. apply in_rev in Hb.
    clear Hperm Hsorted rows.
    induction Hinc as [|x rest _ IH Hx]; [contradiction|].
    rewrite Forall_forall in Hx.
    destruct Ha as [<-|Ha], Hb as [<-|Hb]; try reflexivity.
    + specialize (Hx _ Hb). lia.
    + specialize (Hx _ Ha). lia.
    + apply IH; assumption.
  - eapply perm_trans; [apply Permutation_sym, Permutation_rev|exact Hperm].
  - clear Hperm Hsorted rows.
    induction Hinc as [|x rest _ IH Hx]; cbn; [constructor|].
    apply sorted_append; [exact IH|constructor; constructor|].
    intros a b Ha Hb. destruct Hb as [<-|[]]. apply in_rev in Ha.
    rewrite Forall_forall in Hx. specialize (Hx _ Ha).
    unfold Persistent.newer_or_same. lia.
  - exact Hsorted.
Qed.

End Listing.

(** C4, as the code has it.  GET /api/gallery answers with every stored
    record, none filtered out and none held back, newest first by timestamp;
    with no record the answer is the empty list, not an error.  After
    inserting A, then B, then C with timestamps that grow strictly, the
    listing is C, B, A; records of one and the same timestamp are listed by
    server.mjs in the order of their insertion.  server-persistent.mjs lists
    what the ORDER BY query returns when the query goes through, and answers
    500 (Database error) when it does not. *)
Theorem gallery_lists_newest_first {JSN : JSNumber} {ND : Node} :
  (forall generatedImages,
     InMemory.get_api_gallery generatedImages
     = (res_json 200
          (JArr (map InMemory.to_json (InMemory.sortedImages generatedImages))),
        generatedImages, [])
     /\ Permutation generatedImages (InMemory.sortedImages generatedImages)
     /\ StronglySorted
          (fun a b => (InMemory.timestamp b <= InMemory.timestamp a)%Z)
          (InMemory.sortedImages generatedImages))
  /\ InMemory.get_api_gallery [] = (res_json 200 (JArr []), [], [])
  /\ (forall generatedImages,
        StronglySorted
          (fun a b => (InMemory.timestamp a < InMemory.timestamp b)%Z)
          generatedImages ->
        InMemory.sortedImages generatedImages = rev generatedImages)
  /\ (forall A B C,
        (InMemory.timestamp A < InMemory.timestamp B)%Z ->
        (InMemory.timestamp B < InMemory.timestamp C)%Z ->
        InMemory.sortedImages [A; B; C] = [C; B; A])
  /\ (forall A B C,
        InMemory.timestamp A = InMemory.timestamp B ->
        InMemory.timestamp B = InMemory.timestamp C ->
        InMemory.sortedImages [A; B; C] = [A; B; C])
  /\ (forall sv images,
        Persistent.db_up sv = true ->
        Persistent.order_by_timestamp_desc images (Persistent.listed sv) ->
        Persistent.get_api_gallery sv images
        = (res_json 200 (JArr (map Persistent.to_json (Persistent.listed sv))),
           images,
           [Query "SELECT * FROM images ORDER BY timestamp DESC" []])
        /\ (images = [] -> Persistent.listed sv = [])
        /\ (forall A B C,
              images = [A; B; C] ->
              (Persistent.timestamp A < Persistent.timestamp B)%Z ->
              (Persistent.timestamp B < Persistent.timestamp C)%Z ->
              Persistent.listed sv = [C; B; A]))
  /\ (forall sv images,
        Persistent.db_up sv = false ->
        Persistent.response_of (Persistent.get_api_gallery sv images)
        = res_json 500 (error_body "Database error")
        /\ Persistent.store_after (Persistent.get_api_gallery sv images) = images).
Proof.
  split; [|split; [|split; [|split; [|split; [|split]]]]].
  - intros generatedImages. split; [reflexivity|]. split.
    + apply Array_sort_perm.
    + apply sortedImages_descending.
  - reflexivity.
  - intros generatedImages H. apply Array_sort_reverses.
    eapply sorted_weaken; [|exact H].
    intros a b. cbv beta. unfold InMemory.newest_first. lia.
  - intros A B C HAB HBC. unfold InMemory.sortedImages.
    rewrite Array_sort_reverses; [reflexivity|].
    repeat constructor; unfold InMemory.newest_first; lia.
  - intros A B C HAB HBC. unfold InMemory.sortedImages.
    apply Array_sort_keeps.
    repeat constructor; unfold InMemory.newest_first; lia.
  - intros sv images Hup Hlisted. split; [|split].
    + unfold Persistent.get_api_gallery, try_catch, bind, Persistent.query, call, read.
      rewrite Hup. reflexivity.
    + intros ->. destruct Hlisted as [Hperm _].
      apply Permutation_nil in Hperm. exact Hperm.
    + intros A B C -> HAB HBC.
      rewrite (listed_in_reverse [A; B; C] (Persistent.listed sv)); [reflexivity| |exact Hlisted].
      repeat constructor; lia.
  - intros sv images Hdown.
    unfold Persistent.get_api_gallery, try_catch, bind, Persistent.query, call, read.
    rewrite Hdown. split; reflexivity.
Qed.

Lemma gallery_lists_newest_first_witness :
  let w1 := Sample.world 1758537512345.25%Q 1758537512345 (Sample.answer "AAAA") in
  let w2 := Sample.world 1758537513345.5%Q 1758537513345 (Sample.answer "AAAB") in
  let w3 := Sample.world 1758537514345.75%Q 1758537514345 (Sample.answer "AAAC") in
  let A := InMemory.created w1 (JStr "first") [x00; x00; x00] in
  let B := InMemory.created w2 (JStr "second") [x00; x00; x01] in
  let C := InMemory.created w3 (JStr "third") [x00; x00; x02] in
  (InMemory.timestamp A < InMemory.timestamp B)%Z
  /\ (InMemory.timestamp B < InMemory.timestamp C)%Z
  /\ InMemory.sortedImages [A; B; C] = [C; B; A].
Proof.
  cbv zeta. split; [reflexivity|]. split; [reflexivity|].
  apply (proj1 (proj2 (proj2 (proj2 gallery_lists_newest_first)))); reflexivity.
Defined.

(** C4 as stated fails on server.mjs: three generate calls that complete
    within one millisecond insert A, then B, then C, all of one timestamp,
    and the gallery lists A, B, C. *)
Lemma gallery_lists_ties_in_insertion_order :
  let w1 := Sample.world 1758537512345.25%Q 1758537512345 (Sample.answer "AAAA") in
  let w2 := Sample.world 1758537512345.5%Q 1758537512345 (Sample.answer "AAAB") in
  let w3 := Sample.world 1758537512345.75%Q 1758537512345 (Sample.answer "AAAC") in
  let A := InMemory.created w1 (JStr "first") [x00; x00; x00] in
  let B := InMemory.created w2 (JStr "second") [x00; x00; x01] in
  let C := InMemory.created w3 (JStr "third") [x00; x00; x02] in
  InMemory.run Sample.with_key
    [(w1, InMemory.PostGenerate (Sample.request "first"));
     (w2, InMemory.PostGenerate (Sample.request "second"));
     (w3, InMemory.PostGenerate (Sample.request "third"))] []
  = [A; B; C]
  /\ InMemory.response_of (InMemory.get_api_gallery [A; B; C])
     = res_json 200 (JArr (map InMemory.to_json [A; B; C]))
  /\ map InMemory.timestamp [A; B; C]
     = [1758537512345; 1758537512345; 1758537512345]%Z
  /\ map InMemory.prompt [A; B; C] = [JStr "first"; JStr "second"; JStr "third"]
  /\ map InMemory.prompt [C; B; A] = [JStr "third"; JStr "second"; JStr "first"].
Proof.
  cbv zeta. repeat split.
Qed.

(** C5, as the code has it.  Every element of the answer of GET /api/gallery
    is an object with exactly the fields id, prompt, imageData and timestamp,
    in both servers: the picture (inline base64 text in server.mjs, the
    storage URL in server-persistent.mjs) is sent under the name imageData. *)
Theorem gallery_elements_have_four_fields {JSN : JSNumber} {ND : Node} :
  (forall generatedImages element,
     In element
        (elements_of (InMemory.response_of (InMemory.get_api_gallery generatedImages))) ->
     fields_of element = Some ["id"; "prompt"; "imageData"; "timestamp"])
  /\ (forall sv images element,
        In element
           (elements_of (Persistent.response_of (Persistent.get_api_gallery sv images))) ->
        fields_of element = Some ["id"; "prompt"; "imageData"; "timestamp"]).
Proof.
  split.
  - intros generatedImages element H. cbn in H.
    apply in_map_iff in H. destruct H as (img & <- & _). reflexivity.
  - intros sv images element.
    unfold Persistent.get_api_gallery, try_catch, bind, Persistent.query, call, read.
    destruct (Persistent.db_up sv); cbn; [|contradiction].
    intros H. apply in_map_iff in H. destruct H as (row & <- & _). reflexivity.
Qed.

Lemma gallery_elements_have_four_fields_witness :
  let img := InMemory.created (Sample.world 1758537512345.25%Q 1758537512345 (Sample.answer "AAAA"))
               (JStr "a cat on the moon") [x00; x00; x00] in
  In (InMemory.to_json img)
     (elements_of (InMemory.response_of (InMemory.get_api_gallery [img])))
  /\ fields_of (InMemory.to_json img) = Some ["id"; "prompt"; "imageData"; "timestamp"].
Proof.
  cbv zeta.
  assert (H : In (InMemory.to_json
                    (InMemory.created (Sample.world 1758537512345.25%Q 1758537512345 (Sample.answer "AAAA"))
                       (JStr "a cat on the moon") [x00; x00; x00]))
                 (elements_of (InMemory.response_of (InMemory.get_api_gallery
                    [InMemory.created (Sample.world 1758537512345.25%Q 1758537512345 (Sample.answer "AAAA"))
                       (JStr "a cat on the moon") [x00; x00; x00]]))))
    by (left; reflexivity).
  split; [exact H|].
  exact (proj1 gallery_elements_have_four_fields _ _ H).
Defined.

(** C5 as stated fails: the one element of this listing has the fields id,
    prompt, imageData and timestamp, and none called imageLocation. *)
Lemma gallery_element_has_no_imageLocation :
  let img := InMemory.created (Sample.world 1758537512345.25%Q 1758537512345 (Sample.answer "AAAA"))
               (JStr "a cat on the moon") [x00; x00; x00] in
  exists element,
    elements_of (InMemory.response_of (InMemory.get_api_gallery [img])) = [element]
    /\ fields_of element = Some ["id"; "prompt"; "imageData"; "timestamp"]
    /\ fields_of element <> Some ["id"; "prompt"; "imageLocation"; "timestamp"]
    /\ get_opt (Some element) "imageLocation" = None.
Proof.
  cbv zeta. eexists. split; [reflexivity|]. split; [reflexivity|].
  split; [discriminate|reflexivity].
Qed.

(** ** Template literals *)

Lemma append_assoc (a b c : string) : (a ++ b) ++ c = a ++ b ++ c.
Proof. induction a as [|ch a IH]; cbn; [reflexivity|]. rewrite IH. reflexivity. Qed.

Lemma template_split (l1 : list string) (x : string) (l2 : list string) :
  template (l1 ++ x :: l2)%list = template l1 ++ x ++ template l2.
Proof.
  unfold template.
  induction l1 as [|y l1 IH]; cbn [fold_right List.app]; [reflexivity|].
  rewrite IH, append_assoc. reflexivity.
Qed.

(** The literal on either side of one of its expressions. *)
Ltac split_literal x l :=
  lazymatch l with
  | x :: ?rest => constr:((@nil string, rest))
  | ?y :: ?rest =>
      let r := split_literal x rest in
      lazymatch r with
      | (?a, ?b) => constr:((y :: a, b))
      end
  end.

Ltac around x :=
  lazymatch goal with
  | |- template ?l = _ =>
      let r := split_literal x l in
      lazymatch r with
      | (?a, ?b) =>
          change l with (a ++ x :: b)%list;
          rewrite (template_split a x b);
          reflexivity
      end
  end.

(** C7, as the code has it.  The HTML document of GET /api/share/:id holds
    the prompt of the record exactly as stored, between markup that does not
    depend on it: nothing escapes it, so a script tag in the prompt is a
    script tag of the document.  Both share pages (server-persistent.mjs and
    the plain one). *)
Theorem share_page_holds_prompt_verbatim {JSN : JSNumber} {ND : Node} :
  (forall protocol host imageId imageUrl cloudinaryUrl,
     exists before after,
       forall image,
         Persistent.html protocol host imageId imageUrl cloudinaryUrl image
         = before ++ Persistent.prompt image ++ after)
  /\ (forall protocol host imageId imageUrl,
        exists before after,
          forall image,
            Plain.html protocol host imageId imageUrl image
            = before ++ Persistent.prompt image ++ after)
  /\ (forall w sv protocol host imageId images image others,
        Persistent.db_up sv = true ->
        Persistent.where_id imageId images = image :: others ->
        Persistent.response_of
          (Persistent.get_api_share w sv protocol host imageId images)
        = Persistent.res_html
            (Persistent.html protocol host imageId
               (protocol ++ "://" ++ host ++ "/api/image/" ++ imageId)
               (Persistent.cloudinary_url image ++ "?t=" ++ decimal (clock w))
               image)
        /\ Persistent.response_of (Plain.get_api_share sv protocol host imageId images)
           = Persistent.res_html
               (Plain.html protocol host imageId
                  (protocol ++ "://" ++ host ++ "/api/image/" ++ imageId)
                  image)).
Proof.
  split; [|split].
  - intros protocol host imageId imageUrl cloudinaryUrl.
    do 2 eexists. intros image. unfold Persistent.html.
    around (Persistent.prompt image).
  - intros protocol host imageId imageUrl.
    do 2 eexists. intros image. unfold Plain.html. cbv zeta.
    around (Persistent.prompt image).
  - intros w sv protocol host imageId images image others Hup Hrow. split.
    + unfold Persistent.get_api_share, try_catch, bind.
      rewrite query_answers, Hup, Hrow. reflexivity.
    + unfold Plain.get_api_share, try_catch, bind.
      rewrite query_answers, Hup, Hrow. reflexivity.
Qed.

Lemma share_page_holds_prompt_verbatim_witness :
  let w := Sample.world 1758537512345.25%Q 1758537512345 (Sample.answer "AAAA") in
  let sv := Sample.services 1758537512345.25%Q 1758537512345 [] [x00; x00; x00] in
  let image := Persistent.inserted w sv (JStr "a cat on the moon")
                 (Sample.url_of 1758537512345.25%Q) (Sample.public_id_of 1758537512345.25%Q) in
  Persistent.db_up sv = true
  /\ Persistent.where_id "1758537512345.25" [image] = [image]
  /\ Persistent.response_of
       (Plain.get_api_share sv "https" "degenify.example" "1758537512345.25" [image])
     = Persistent.res_html
         (Plain.html "https" "degenify.example" "1758537512345.25"
            ("https" ++ "://" ++ "degenify.example" ++ "/api/image/" ++ "1758537512345.25") image).
Proof.
  cbv zeta. split; [reflexivity|]. split; [reflexivity|].
  set (w := Sample.world 1758537512345.25%Q 1758537512345 (Sample.answer "AAAA")).
  set (sv := Sample.services 1758537512345.25%Q 1758537512345 [] [x00; x00; x00]).
  set (image := Persistent.inserted w sv (JStr "a cat on the moon")
                  (Sample.url_of 1758537512345.25%Q) (Sample.public_id_of 1758537512345.25%Q)).
  exact (proj2 (proj2 (proj2 share_page_holds_prompt_verbatim)
                  w sv "https" "degenify.example" "1758537512345.25" [image] image []
                  eq_refl eq_refl)).
Defined.

(** C7 as stated fails.  A generate call stores the prompt
    <script>alert(1)</script>; the share page of that record then holds the
    prompt as it is, script tag included: the plain page, whose markup has no
    script tag of its own, holds one, and the page of server-persistent.mjs
    holds two, its own and the prompt's. *)
Lemma share_page_carries_script_of_prompt :
  let w := Sample.world 1758537512345.25%Q 1758537512345 (Sample.answer "AAAA") in
  let sv := Sample.services 1758537512345.25%Q 1758537512345 [] [x00; x00; x00] in
  let stored_with text :=
    Persistent.run Sample.with_key
      [(w, sv, Persistent.PostGenerate (Sample.request text))] [] in
  let plain text :=
    page_of (Persistent.response_of
      (Plain.get_api_share sv "https" "degenify.example" "1758537512345.25" (stored_with text))) in
  let styled text :=
    page_of (Persistent.response_of
      (Persistent.get_api_share w sv "https" "degenify.example" "1758537512345.25" (stored_with text))) in
  map Persistent.prompt (stored_with "<script>alert(1)</script>")
  = ["<script>alert(1)</script>"]
  /\ occurrences "<script>" (plain "a cat on the moon") = 0
  /\ occurrences "<script>" (plain "<script>alert(1)</script>") = 1
  /\ occurrences "<script>alert(1)</script>" (plain "<script>alert(1)</script>") = 1
  /\ occurrences "<script>" (styled "a cat on the moon") = 1
  /\ occurrences "<script>" (styled "<script>alert(1)</script>") = 2
  /\ occurrences "<script>alert(1)</script>" (styled "<script>alert(1)</script>") = 1.
Proof.
  cbv zeta. split; [reflexivity|]. repeat split; vm_compute; reflexivity.
Qed.

(** ** Where the ids of the stored records come from *)

Section Ids.
Context {JSN : JSNumber} {ND : Node}.

Lemma handle_assigns env w req generatedImages :
  InMemory.store_after (InMemory.handle env w req generatedImages) = generatedImages
  \/ exists reqbody prompt imgBuffer,
       req = InMemory.PostGenerate reqbody
       /\ InMemory.store_after (InMemory.handle env w req generatedImages)
          = (generatedImages ++ [InMemory.created w prompt imgBuffer])%list
       /\ successful env
            (InMemory.response_of (InMemory.handle env w req generatedImages)) = true.
Proof.
  destruct req as [reqbody| |imageId|imageId].
  2: destruct (handle_cases env w InMemory.GetGallery generatedImages)
       as [H|(? & ? & ? & H & _)]; [left; exact H|discriminate H].
  2: destruct (handle_cases env w (InMemory.GetImage imageId) generatedImages)
       as [H|(? & ? & ? & H & _)]; [left; exact H|discriminate H].
  2: destruct (handle_cases env w (InMemory.GetDownload imageId) generatedImages)
       as [H|(? & ? & ? & H & _)]; [left; exact H|discriminate H].
  cbn [InMemory.handle].
  destruct (generate_cases env w reqbody generatedImages) as [H|H]; [left; exact H|right].
  destruct H as (p & text & baseImage & key & data & b64 & imgBuffer
                 & Hp & Ht & Hb & Hk & Hs & Hu & H64 & Hbuf).
  exists reqbody, p, imgBuffer. split; [reflexivity|].
  rewrite (generate_created env w reqbody generatedImages p text baseImage key data b64
             imgBuffer)
    by assumption.
  split; [reflexivity|]. unfold successful. rewrite Hk. reflexivity.
Qed.

(** Every stored record was there at the start or got its id from a
    successful generate call. *)
Lemma run_ids env history : forall generatedImages img,
  In img (InMemory.run env history generatedImages) ->
  In img generatedImages
  \/ In (InMemory.id img) (assigned env history generatedImages).
Proof.
  induction history as [|[w req] later IH]; intros generatedImages img Hin;
    cbn [InMemory.run assigned] in *; [left; exact Hin|].
  destruct (handle_assigns env w req generatedImages) as [H|H].
  - rewrite H in *. destruct (IH _ _ Hin) as [Hold|Hnew]; [left; exact Hold|right].
    apply in_or_app. right. exact Hnew.
  - destruct H as (reqbody & p & imgBuffer & -> & Hstore & Hok).
    rewrite Hstore in *. rewrite Hok.
    destruct (IH _ _ Hin) as [Hold|Hnew].
    + apply in_app_or in Hold. destruct Hold as [Hold|[<-|[]]]; [left; exact Hold|].
      right. left. reflexivity.
    + right. right. exact Hnew.
Qed.

Lemma stored_handle_assigns env w sv req images :
  Persistent.store_after (Persistent.handle env w sv req images) = images
  \/ exists reqbody prompt secure_url public_id,
       req = Persistent.PostGenerate reqbody
       /\ Persistent.store_after (Persistent.handle env w sv req images)
          = (images ++ [Persistent.inserted w sv prompt secure_url public_id])%list
       /\ successful env
            (Persistent.response_of (Persistent.handle env w sv req images)) = true.
Proof.
  destruct req as [reqbody| |imageId|protocol host imageId|imageId].
  2: destruct (stored_handle_cases env w sv Persistent.GetGallery images)
       as [H|(? & ? & ? & ? & ? & H & _)]; [left; exact H|discriminate H].
  2: destruct (stored_handle_cases env w sv (Persistent.GetImage imageId) images)
       as [H|(? & ? & ? & ? & ? & H & _)]; [left; exact H|discriminate H].
  2: destruct (stored_handle_cases env w sv (Persistent.GetShare protocol host imageId) images)
       as [H|(? & ? & ? & ? & ? & H & _)]; [left; exact H|discriminate H].
  2: destruct (stored_handle_cases env w sv (Persistent.GetDownload imageId) images)
       as [H|(? & ? & ? & ? & ? & H & _)]; [left; exact H|discriminate H].
  cbn [Persistent.handle].
  destruct (stored_generate_cases env w sv reqbody images) as [H|H]; [left; exact H|right].
  destruct H as (p & text & baseImage & key & data & b64 & imgBuffer & payload
                 & secure_url & public_id
                 & Hp & Ht & Hb & Hk & Hs & Hu & H64 & Hbuf & Hpay & Hup & Hdb & Hfree).
  exists reqbody, p, secure_url, public_id. split; [reflexivity|].
  rewrite (stored_generate_created env w sv reqbody images p text baseImage key data b64
             imgBuffer payload secure_url public_id) by assumption.
  split; [reflexivity|]. unfold successful. rewrite Hk. reflexivity.
Qed.

Lemma stored_run_ids env history : forall images row,
  In row (Persistent.run env history images) ->
  In row images
  \/ exists n, In n (stored_assigned env history images)
               /\ Persistent.id row = Persistent.bound (JNum n).
Proof.
  induction history as [|[[w sv] req] later IH]; intros images row Hin;
    cbn [Persistent.run stored_assigned] in *; [left; exact Hin|].
  destruct (stored_handle_assigns env w sv req images) as [H|H].
  - rewrite H in *. destruct (IH _ _ Hin) as [Hold|(n & Hn & Hid)]; [left; exact Hold|right].
    exists n. split; [|exact Hid]. apply in_or_app. right. exact Hn.
  - destruct H as (reqbody & p & secure_url & public_id & -> & Hstore & Hok).
    rewrite Hstore in *. rewrite Hok.
    destruct (IH _ _ Hin) as [Hold|(n & Hn & Hid)].
    + apply in_app_or in Hold. destruct Hold as [Hold|[<-|[]]]; [left; exact Hold|].
      right. exists (fresh_id w). split; [left; reflexivity|reflexivity].
    + right. exists n. split; [right; exact Hn|exact Hid].
Qed.

Lemma find_none {A : Type} (f : A -> bool) (l : list A) :
  (forall x, In x l -> f x = false) -> find f l = None.
Proof.
  induction l as [|x l IH]; intros H; cbn; [reflexivity|].
  rewrite (H x (or_introl eq_refl)). apply IH. intros y Hy. apply H. right. exact Hy.
Qed.

Lemma filter_none {A : Type} (f : A -> bool) (l : list A) :
  (forall x, In x l -> f x = false) -> filter f l = [].
Proof.
  induction l as [|x l IH]; intros H; cbn; [reflexivity|].
  rewrite (H x (or_introl eq_refl)). apply IH. intros y Hy. apply H. right. exact Hy.
Qed.

End Ids.

(** C8, as the code has it.  For every GET /api/image/:id and GET
    /api/download/:id whose id names no record present at the start and was
    assigned to no record by a successful generate call since, server.mjs
    answers 404 (Image not found).  server-persistent.mjs answers 404 too
    when its lookup goes through; when the query fails it answers 500
    (Database error), known id or not. *)
Theorem unknown_id_is_not_found {JSN : JSNumber} {ND : Node} :
  forall env : Env,
    (forall history generatedImages imageId,
       (forall img, In img generatedImages -> names imageId (InMemory.id img) = false) ->
       (forall n, In n (assigned env history generatedImages) -> names imageId n = false) ->
       let now := InMemory.run env history generatedImages in
       InMemory.get_api_image imageId now
       = (res_json 404 (error_body "Image not found"), now, [])
       /\ InMemory.get_api_download imageId now
          = (res_json 404 (error_body "Image not found"), now, []))
    /\ (forall history images imageId sv,
          (forall row, In row images -> Persistent.has_id imageId row = false) ->
          (forall n, In n (stored_assigned env history images) ->
                     String.eqb (Persistent.bound (JNum n)) imageId = false) ->
          let now := Persistent.run env history images in
          (Persistent.db_up sv = true ->
           Persistent.response_of (Persistent.get_api_image sv imageId now)
           = res_json 404 (error_body "Image not found")
           /\ Persistent.response_of (Persistent.get_api_download sv imageId now)
              = res_json 404 (error_body "Image not found"))
          /\ (Persistent.db_up sv = false ->
              Persistent.response_of (Persistent.get_api_image sv imageId now)
              = res_json 500 (error_body "Database error")
              /\ Persistent.response_of (Persistent.get_api_download sv imageId now)
                 = res_json 500 (error_body "Database error"))).
Proof.
  intros env. split.
  - intros history generatedImages imageId Hold Hnew now.
    assert (Hnone : find (InMemory.id_is imageId) now = None).
    { apply find_none. intros img Hin.
      destruct (run_ids env history generatedImages img Hin) as [H|H].
      - exact (Hold img H).
      - exact (Hnew _ H). }
    unfold InMemory.get_api_image, InMemory.get_api_download.
    rewrite Hnone. split; reflexivity.
  - intros history images imageId sv Hold Hnew now. split.
    + intros Hup.
      assert (Hnone : Persistent.where_id imageId now = []).
      { apply filter_none. intros row Hin.
        destruct (stored_run_ids env history images row Hin) as [H|(n & Hn & Hid)].
        - exact (Hold row H).
        - unfold Persistent.has_id. rewrite Hid. exact (Hnew n Hn). }
      unfold Persistent.get_api_image, Persistent.get_api_download, try_catch, bind.
      rewrite !query_answers, Hup, Hnone. split; reflexivity.
    + intros Hdown.
      unfold Persistent.get_api_image, Persistent.get_api_download, try_catch, bind.
      rewrite !query_answers, Hdown. split; reflexivity.
Qed.

Lemma unknown_id_is_not_found_witness :
  let w := Sample.world 1758537512345.25%Q 1758537512345 (Sample.answer "AAAA") in
  let history := [(w, InMemory.PostGenerate (Sample.request "a cat on the moon"))] in
  assigned Sample.with_key history [] = [1758537512345.25%Q]
  /\ names "1758537512346" 1758537512345.25%Q = false
  /\ InMemory.response_of
       (InMemory.get_api_image "1758537512346" (InMemory.run Sample.with_key history []))
     = res_json 404 (error_body "Image not found").
Proof.
  cbv zeta. split; [reflexivity|]. split; [reflexivity|].
  set (w := Sample.world 1758537512345.25%Q 1758537512345 (Sample.answer "AAAA")).
  set (history := [(w, InMemory.PostGenerate (Sample.request "a cat on the moon"))]).
  assert (Hold : forall img, In img [] -> names "1758537512346" (InMemory.id img) = false)
    by (intros img []).
  assert (Hnew : forall n, In n (assigned Sample.with_key history []) ->
                           names "1758537512346" n = false)
    by (intros n [<-|[]]; reflexivity).
  rewrite (proj1 (proj1 (unknown_id_is_not_found Sample.with_key) history [] "1758537512346"
                    Hold Hnew)).
  reflexivity.
Defined.

(** C8 as stated fails on server-persistent.mjs: no record was ever created,
    the database does not answer, and both endpoints reply 500. *)
Lemma unknown_id_with_database_down :
  let sv := Sample.database_down 1758537512345 in
  stored_assigned Sample.with_key [] [] = []
  /\ Persistent.response_of (Persistent.get_api_download sv "1758537512345.25" [])
     = res_json 500 (error_body "Database error")
  /\ Persistent.response_of (Persistent.get_api_image sv "1758537512345.25" [])
     = res_json 500 (error_body "Database error").
Proof. cbv zeta. repeat split. Qed.

(** ** Reading a record back *)

Section ReadBack.
Context {A : Type}.


Lemma filter_first (f : A -> bool) (l1 : list A) (y : A) (l2 : list A) :
  (forall x, In x l1 -> f x = false) -> f y = true ->
  filter f (l1 ++ y :: l2)%list = y :: filter f l2.
Proof.
  intros Hl1 Hy. induction l1 as [|x l1 IH]; cbn.
  - rewrite Hy. reflexivity.
  - rewrite (Hl1 x (or_introl eq_refl)). apply IH.
    intros z Hz. apply Hl1. right. exact Hz.
Qed.

Lemma not_longer (l : list A) (x : A) : l <> (l ++ [x])%list.
Proof.
  intros H. apply (f_equal (@length A)) in H. rewrite length_app in H. cbn in H. lia.
Qed.

End ReadBack.




(** * Further properties of the handlers *)

Section PathFacts.
Context {JSN : JSNumber} {ND : Node}.

(** Every run of the handler takes one of the ways listed. *)
Lemma generate_takes_a_path env w reqbody generatedImages :
  generate_path env w reqbody generatedImages
    (InMemory.post_api_generate env w reqbody generatedImages).
Proof.
  unfold InMemory.post_api_generate, try_catch, bind.
  destruct (prompt_of reqbody) as [p|] eqn:Hp.
  2:{ rewrite generation_without_prompt by (rewrite Hp; reflexivity).
      apply path_no_prompt. rewrite Hp. reflexivity. }
  destruct (truthy p) eqn:Ht.
  2:{ rewrite generation_without_prompt by (rewrite Hp; exact Ht).
      apply path_no_prompt. rewrite Hp. exact Ht. }
  assert (Ha : asks reqbody p) by (split; assumption).
  destruct (base_file w) as [baseImage|] eqn:Hb.
  2:{ rewrite (generation_without_base _ env w reqbody _ p Hp Ht Hb).
      eapply path_no_base; eauto. }
  destruct (configured (GOOGLE_API_KEY env)) as [key|] eqn:Hk.
  2:{ rewrite (generation_without_key _ env w reqbody _ p baseImage Hp Ht Hb Hk).
      eapply path_no_key; eauto. }
  destruct (ToString p) as [text|] eqn:Hs.
  2:{ rewrite (generation_without_text _ env w reqbody _ p baseImage key Hp Ht Hb Hk Hs).
      eapply path_no_text; eauto. }
  assert (Hr : reaches env w reqbody p text baseImage key) by (repeat split; assumption).
  rewrite (generation_with_key _ env w reqbody _ p text baseImage key Hp Ht Hb Hk Hs).
  destruct (upstream w) as [|errText|data] eqn:Hu.
  - eapply path_rejected; eassumption.
  - eapply path_not_ok; eassumption.
  - destruct (b64_of data) as [b64|] eqn:H64.
    2:{ eapply path_no_image; eassumption. }
    rewrite (b64_of_truthy _ _ H64).
    destruct (Buffer_from b64) as [imgBuffer|] eqn:Hbuf.
    + eapply path_created; eauto.
    + eapply path_undecodable; eauto.
Qed.

Lemma stored_generate_takes_a_path env w sv reqbody images :
  stored_generate_path env w sv reqbody images
    (Persistent.post_api_generate env w sv reqbody images).
Proof.
  unfold Persistent.post_api_generate, try_catch, bind.
  destruct (prompt_of reqbody) as [p|] eqn:Hp.
  2:{ rewrite generation_without_prompt by (rewrite Hp; reflexivity).
      apply stored_no_prompt. rewrite Hp. reflexivity. }
  destruct (truthy p) eqn:Ht.
  2:{ rewrite generation_without_prompt by (rewrite Hp; exact Ht).
      apply stored_no_prompt. rewrite Hp. exact Ht. }
  assert (Ha : asks reqbody p) by (split; assumption).
  destruct (base_file w) as [baseImage|] eqn:Hb.
  2:{ rewrite (generation_without_base _ env w reqbody _ p Hp Ht Hb).
      eapply stored_no_base; eauto. }
  destruct (configured (GOOGLE_API_KEY env)) as [key|] eqn:Hk.
  2:{ rewrite (generation_without_key _ env w reqbody _ p baseImage Hp Ht Hb Hk).
      eapply stored_no_key; eauto. }
  destruct (ToString p) as [text|] eqn:Hs.
  2:{ rewrite (generation_without_text _ env w reqbody _ p baseImage key Hp Ht Hb Hk Hs).
      eapply stored_no_text; eauto. }
  assert (Hr : reaches env w reqbody p text baseImage key) by (repeat split; assumption).
  rewrite (generation_with_key _ env w reqbody _ p text baseImage key Hp Ht Hb Hk Hs).
  destruct (upstream w) as [|errText|data] eqn:Hu.
  - eapply stored_rejected; eassumption.
  - eapply stored_not_ok; eassumption.
  - destruct (b64_of data) as [b64|] eqn:H64.
    2:{ eapply stored_no_image; eassumption. }
    rewrite (b64_of_truthy _ _ H64).
    destruct (Buffer_from b64) as [imgBuffer|] eqn:Hbuf.
    2:{ eapply stored_undecodable; eauto. }
    cbn. destruct (ToString b64) as [payload|] eqn:Hpay; cbn.
    2:{ eapply stored_payload_no_text; eauto. }
    destruct (Persistent.uploaded sv) as [[secure_url public_id]|] eqn:Hup; cbn.
    2:{ eapply stored_upload_rejected; eauto. }
    destruct (Persistent.db_up sv) eqn:Hdb; cbn.
    2:{ eapply stored_insert_failed; eauto. }
    destruct (existsb _ images) eqn:Hfree; cbn.
    + eapply stored_insert_failed; eauto.
    + eapply stored_created; eauto.
Qed.

End PathFacts.

(** ** Which requests are turned down, and how *)

Section Refusals.
Context {JSN : JSNumber} {ND : Node}.

Lemma falsy_prompts (v : option JValue) :
  truthy_opt v = false
  <-> v = None
      \/ v = Some JNull
      \/ v = Some (JBool false)
      \/ (exists n, v = Some (JNum n) /\ num_is_zero n = true)
      \/ v = Some (JStr EmptyString).
Proof.
  split.
  - destruct v as [[ |[|]|n|s|items|fields]|]; cbn; intros H; try discriminate; auto.
    + right. right. right. left. exists n. split; [reflexivity|].
      destruct (num_is_zero n); [reflexivity|discriminate].
    + right. right. right. right.
      destruct (String.eqb s EmptyString) eqn:E; [|discriminate].
      apply String.eqb_eq in E. rewrite E. reflexivity.
  - intros [-> | [-> | [-> | [(n & -> & Hn) | ->]]]]; cbn; try reflexivity.
    rewrite Hn. reflexivity.
Qed.

Lemma asks_truthy reqbody p :
  asks reqbody p -> truthy_opt (prompt_of reqbody) = true.
Proof. intros [Hp Ht]. rewrite Hp. exact Ht. Qed.

Lemma generate_refuses env w reqbody st :
  InMemory.response_of (InMemory.post_api_generate env w reqbody st)
  = res_json 400 (error_body "prompt required")
  <-> truthy_opt (prompt_of reqbody) = false.
Proof.
  pose proof (generate_takes_a_path env w reqbody st) as H.
  remember (InMemory.post_api_generate env w reqbody st) as reply eqn:E.
  clear E. destruct H as [H| | | | | | | | ]; unfold InMemory.response_of; cbn [fst].
  1: split; [intros _; exact H|reflexivity].
  all: match goal with
       | Ha : asks _ _ |- _ => apply asks_truthy in Ha
       | Hr : reaches _ _ _ _ _ _ _ |- _ => destruct Hr as [Ha _]; apply asks_truthy in Ha
       end.
  all: split; intros Hx; [exfalso; cbn in Hx; discriminate Hx|congruence].
Qed.

Lemma stored_generate_refuses env w sv reqbody images :
  Persistent.response_of (Persistent.post_api_generate env w sv reqbody images)
  = res_json 400 (error_body "prompt required")
  <-> truthy_opt (prompt_of reqbody) = false.
Proof.
  pose proof (stored_generate_takes_a_path env w sv reqbody images) as H.
  remember (Persistent.post_api_generate env w sv reqbody images) as reply eqn:E.
  clear E. destruct H as [H| | | | | | | | | | | ]; unfold Persistent.response_of;
    cbn [fst].
  1: split; [intros _; exact H|reflexivity].
  all: match goal with
       | Ha : asks _ _ |- _ => apply asks_truthy in Ha
       | Hr : reaches _ _ _ _ _ _ _ |- _ => destruct Hr as [Ha _]; apply asks_truthy in Ha
       end.
  all: split; intros Hx; [exfalso; cbn in Hx; discriminate Hx|congruence].
Qed.

End Refusals.

(** X1.  POST /api/generate answers 400 (prompt required) exactly when the
    prompt of the request is falsy: missing, [null], [false], zero or the
    empty text.  Every other prompt, a text or not, gets past the check.  Both
    servers. *)
Theorem prompt_is_required_exactly_when_falsy {JSN : JSNumber} {ND : Node} :
  forall (env : Env) (w : World) (reqbody : option JValue),
    (truthy_opt (prompt_of reqbody) = false
     <-> prompt_of reqbody = None
         \/ prompt_of reqbody = Some JNull
         \/ prompt_of reqbody = Some (JBool false)
         \/ (exists n, prompt_of reqbody = Some (JNum n) /\ num_is_zero n = true)
         \/ prompt_of reqbody = Some (JStr EmptyString))
    /\ (forall generatedImages,
          InMemory.response_of (InMemory.post_api_generate env w reqbody generatedImages)
          = res_json 400 (error_body "prompt required")
          <-> truthy_opt (prompt_of reqbody) = false)
    /\ (forall sv images,
          Persistent.response_of (Persistent.post_api_generate env w sv reqbody images)
          = res_json 400 (error_body "prompt required")
          <-> truthy_opt (prompt_of reqbody) = false).
Proof.
  intros env w reqbody. split; [apply falsy_prompts|]. split.
  - intros generatedImages. apply generate_refuses.
  - intros sv images. apply stored_generate_refuses.
Qed.

(** X2.  When the file at BASE_IMAGE_PATH does not exist, a POST
    /api/generate with a prompt is answered 400 with the configured path in
    the message, key or no key: nothing is called and no record is created.
    The path is the one of the environment, or public/base.png.  Both
    servers. *)
Theorem missing_base_image_is_a_bad_request {JSN : JSNumber} {ND : Node} :
  forall (env : Env) (w : World) (reqbody : option JValue) (p : JValue),
    asks reqbody p ->
    base_file w = None ->
    let refusal :=
      res_json 400 (error_body ("Base image missing at " ++ BASE_IMAGE_PATH env)) in
    (forall generatedImages,
       InMemory.post_api_generate env w reqbody generatedImages
       = (refusal, generatedImages, []))
    /\ (forall sv images,
          Persistent.post_api_generate env w sv reqbody images = (refusal, images, []))
    /\ (BASE_IMAGE_PATH env = "public/base.png"
        \/ env "BASE_IMAGE_PATH" = Some (BASE_IMAGE_PATH env)).
Proof.
  intros env w reqbody p [Hp Ht] Hb refusal. split; [|split].
  - intros generatedImages. unfold InMemory.post_api_generate, try_catch, bind.
    rewrite (generation_without_base _ env w reqbody _ p Hp Ht Hb). reflexivity.
  - intros sv images. unfold Persistent.post_api_generate, try_catch, bind.
    rewrite (generation_without_base _ env w reqbody _ p Hp Ht Hb). reflexivity.
  - unfold BASE_IMAGE_PATH, env_or.
    destruct (env "BASE_IMAGE_PATH") as [v|]; [|left; reflexivity].
    destruct (String.eqb v EmptyString); [left|right]; reflexivity.
Qed.

Lemma missing_base_image_is_a_bad_request_witness :
  let w := {| base_file := None; upstream := Ok (Sample.answer "AAAA");
              fresh_id := 1758537512345.25%Q; clock := 1758537512345 |} in
  asks (Sample.request "a cat on the moon") (JStr "a cat on the moon")
  /\ base_file w = None
  /\ InMemory.post_api_generate Sample.with_key w (Sample.request "a cat on the moon") []
     = (res_json 400 (error_body "Base image missing at public/base.png"), [], []).
Proof.
  cbv zeta. split; [split; reflexivity|]. split; [reflexivity|].
  exact (proj1 (missing_base_image_is_a_bad_request Sample.with_key
                  {| base_file := None; upstream := Ok (Sample.answer "AAAA");
                     fresh_id := 1758537512345.25%Q; clock := 1758537512345 |}
                  (Sample.request "a cat on the moon") (JStr "a cat on the moon")
                  (conj eq_refl eq_refl) eq_refl) []).
Defined.

(** X3.  Once the generation endpoint is called (the prompt is truthy and
    has a text, the base image was read, a key is configured), a failure of
    it ends the request: an answer that is not 2xx gives 502 (Google API
    error) with the text of that answer as detail, passed on as it came; a
    call that rejects gives 500 (server error).  In both cases the call is
    the only one made (nothing is written, uploaded or inserted) and no
    record is created.  Both servers. *)
Theorem upstream_failure_is_reported {JSN : JSNumber} {ND : Node} :
  forall (env : Env) (w : World) (reqbody : option JValue) (p : JValue)
         (text : string) (baseImage : list byte) (key : string),
    reaches env w reqbody p text baseImage key ->
    let calls := [generateContent env key text baseImage] in
    (forall errText,
       upstream w = NotOk errText ->
       let answer := res_json 502 (error_detail "Google API error" (JStr errText)) in
       (forall generatedImages,
          InMemory.post_api_generate env w reqbody generatedImages
          = (answer, generatedImages, calls))
       /\ (forall sv images,
             Persistent.post_api_generate env w sv reqbody images
             = (answer, images, calls)))
    /\ (upstream w = Rejected ->
        let answer := res_json 500 (error_body "server error") in
        (forall generatedImages,
           InMemory.post_api_generate env w reqbody generatedImages
           = (answer, generatedImages, calls))
        /\ (forall sv images,
              Persistent.post_api_generate env w sv reqbody images
              = (answer, images, calls))).
Proof.
  intros env w reqbody p text baseImage key ([Hp Ht] & Hb & Hk & Hs) calls.
  split; [intros errText Hu answer|intros Hu answer]; split; intros.
  all: unfold InMemory.post_api_generate, Persistent.post_api_generate, try_catch, bind.
  all: rewrite (generation_with_key _ env w reqbody _ p text baseImage key
                  Hp Ht Hb Hk Hs), Hu.
  all: reflexivity.
Qed.

Lemma upstream_failure_is_reported_witness :
  let w := {| base_file := Some Sample.png; upstream := NotOk "quota exceeded";
              fresh_id := 1758537512345.25%Q; clock := 1758537512345 |} in
  reaches Sample.with_key w (Sample.request "a cat on the moon")
    (JStr "a cat on the moon") "a cat on the moon" Sample.png "AIza-sample"
  /\ InMemory.post_api_generate Sample.with_key w (Sample.request "a cat on the moon") []
     = (res_json 502 (error_detail "Google API error" (JStr "quota exceeded")), [],
        [generateContent Sample.with_key "AIza-sample" "a cat on the moon" Sample.png]).
Proof.
  cbv zeta.
  assert (Hr : reaches Sample.with_key
                 {| base_file := Some Sample.png; upstream := NotOk "quota exceeded";
                    fresh_id := 1758537512345.25%Q; clock := 1758537512345 |}
                 (Sample.request "a cat on the moon")
                 (JStr "a cat on the moon") "a cat on the moon" Sample.png "AIza-sample")
    by (repeat split).
  split; [exact Hr|].
  exact (proj1 (proj1 (upstream_failure_is_reported Sample.with_key _ _ _ _ _ _ Hr)
                  "quota exceeded" eq_refl) []).
Defined.

(** X4.  The payload found in the answer of the generation endpoint is not
    checked to be a text.  When the endpoint was called and the payload is a
    number or a boolean, [Buffer.from] throws and the request ends in the
    handler's catch: 500 (server error), no record, and no call but the one
    to the endpoint.  Both servers. *)
Theorem payload_that_is_no_text_is_a_server_error {JSN : JSNumber} {ND : Node} :
  forall (env : Env) (w : World) (reqbody : option JValue) (p : JValue)
         (text : string) (baseImage : list byte) (key : string) (data b64 : JValue),
    reaches env w reqbody p text baseImage key ->
    upstream w = Ok data ->
    b64_of data = Some b64 ->
    (exists n, b64 = JNum n) \/ (exists b, b64 = JBool b) ->
    let answer := res_json 500 (error_body "server error") in
    let calls := [generateContent env key text baseImage] in
    (forall generatedImages,
       InMemory.post_api_generate env w reqbody generatedImages
       = (answer, generatedImages, calls))
    /\ (forall sv images,
          Persistent.post_api_generate env w sv reqbody images = (answer, images, calls)).
Proof.
  intros env w reqbody p text baseImage key data b64 ([Hp Ht] & Hb & Hk & Hs) Hu H64 Hkind
         answer calls.
  assert (Hbuf : Buffer_from b64 = None)
    by (destruct Hkind as [[n ->]|[b ->]]; reflexivity).
  split; intros.
  all: unfold InMemory.post_api_generate, Persistent.post_api_generate, try_catch, bind.
  all: rewrite (generation_with_key _ env w reqbody _ p text baseImage key
                  Hp Ht Hb Hk Hs), Hu, H64.
  all: rewrite (b64_of_truthy _ _ H64), Hbuf.
  all: reflexivity.
Qed.

Lemma payload_that_is_no_text_is_a_server_error_witness :
  let data := JObj [("candidates", JArr [
                JObj [("content", JObj [("parts", JArr [
                  JObj [("inlineData", JObj [("data", JBool true)])]])])]])] in
  let w := Sample.world 1758537512345.25%Q 1758537512345 data in
  reaches Sample.with_key w (Sample.request "a cat on the moon")
    (JStr "a cat on the moon") "a cat on the moon" Sample.png "AIza-sample"
  /\ b64_of data = Some (JBool true)
  /\ Persistent.post_api_generate Sample.with_key w
       (Sample.services 1758537512345.25%Q 1758537512345 [] Sample.png)
       (Sample.request "a cat on the moon") []
     = (res_json 500 (error_body "server error"), [],
        [generateContent Sample.with_key "AIza-sample" "a cat on the moon" Sample.png]).
Proof.
  cbv zeta.
  set (data := JObj [("candidates", JArr [
                 JObj [("content", JObj [("parts", JArr [
                   JObj [("inlineData", JObj [("data", JBool true)])]])])]])]).
  assert (Hr : reaches Sample.with_key (Sample.world 1758537512345.25%Q 1758537512345 data)
                 (Sample.request "a cat on the moon")
                 (JStr "a cat on the moon") "a cat on the moon" Sample.png "AIza-sample")
    by (repeat split).
  split; [exact Hr|]. split; [reflexivity|].
  exact (proj2 (payload_that_is_no_text_is_a_server_error Sample.with_key _ _ _ _ _ _
                  data (JBool true) Hr eq_refl eq_refl
                  (or_intror (ex_intro _ true eq_refl)))
           (Sample.services 1758537512345.25%Q 1758537512345 [] Sample.png) []).
Defined.



(** X18.  A prompt need not be a text, but it must have one: its text goes
    into the instructions sent to the generation endpoint.  A truthy prompt
    that cannot be turned into a text (an object with a key [toString] of its
    own, as JSON can carry) makes the handler throw once the base image is
    read and a key is found: the answer is 500 (server error), nothing is
    called, and no record is created.  A text, a number and a boolean always
    have a text.  Both servers. *)
Theorem prompt_without_text_is_a_server_error {JSN : JSNumber} {ND : Node} :
  forall (env : Env) (w : World) (reqbody : option JValue) (p : JValue)
         (baseImage : list byte) (key : string),
    asks reqbody p ->
    base_file w = Some baseImage ->
    configured (GOOGLE_API_KEY env) = Some key ->
    ToString p = None ->
    (forall generatedImages,
       InMemory.post_api_generate env w reqbody generatedImages
       = (res_json 500 (error_body "server error"), generatedImages, []))
    /\ (forall sv images,
          Persistent.post_api_generate env w sv reqbody images
          = (res_json 500 (error_body "server error"), images, []))
    /\ (forall fields v, lookup "toString" fields = Some v -> ToString (JObj fields) = None)
    /\ (forall s, ToString (JStr s) = Some s)
    /\ (forall n, ToString (JNum n) = Some (num_toString n))
    /\ (forall b, ToString (JBool b) = Some (if b then "true" else "false")).
Proof.
  intros env w reqbody p baseImage key [Hp Ht] Hb Hk Hs.
  split; [|split; [|split; [|split; [|split]]]].
  - intros generatedImages. unfold InMemory.post_api_generate, try_catch, bind.
    rewrite (generation_without_text _ env w reqbody _ p baseImage key Hp Ht Hb Hk Hs).
    reflexivity.
  - intros sv images. unfold Persistent.post_api_generate, try_catch, bind.
    rewrite (generation_without_text _ env w reqbody _ p baseImage key Hp Ht Hb Hk Hs).
    reflexivity.
  - intros fields v Hv. cbn. rewrite Hv. reflexivity.
  - reflexivity.
  - reflexivity.
  - intros [|]; reflexivity.
Qed.

Lemma prompt_without_text_is_a_server_error_witness :
  let p := JObj [("toString", JNum 1%Q)] in
  let w := Sample.world 1758537512345.25%Q 1758537512345 (Sample.answer "AAAA") in
  asks (Some (JObj [("prompt", p)])) p
  /\ ToString p = None
  /\ InMemory.post_api_generate Sample.with_key w (Some (JObj [("prompt", p)])) []
     = (res_json 500 (error_body "server error"), [], []).
Proof.
  cbv zeta. split; [split; reflexivity|]. split; [reflexivity|].
  exact (proj1 (prompt_without_text_is_a_server_error Sample.with_key
                  (Sample.world 1758537512345.25%Q 1758537512345 (Sample.answer "AAAA"))
                  (Some (JObj [("prompt", JObj [("toString", JNum 1%Q)])]))
                  (JObj [("toString", JNum 1%Q)]) Sample.png "AIza-sample"
                  (conj eq_refl eq_refl) eq_refl eq_refl eq_refl) []).
Defined.

(** ** What a request to generate calls, and what it answers *)

Section Calls.
Context {JSN : JSNumber} {ND : Node}.

Lemma MODEL_ID_is_no_alias env : MODEL_ID env <> "gemini-2.5-flash-image".
Proof.
  unfold MODEL_ID. cbv zeta.
  destruct (String.eqb _ "gemini-2.5-flash-image") eqn:E; [discriminate|].
  apply String.eqb_neq. exact E.
Qed.

Lemma MODEL_ID_cases env :
  MODEL_ID env = "gemini-2.5-flash-image-preview"
  \/ env "MODEL_ID" = Some (MODEL_ID env).
Proof.
  unfold MODEL_ID, env_or. cbv zeta.
  destruct (env "MODEL_ID") as [v|]; [|left; reflexivity].
  destruct (String.eqb v EmptyString); [left; reflexivity|].
  destruct (String.eqb v "gemini-2.5-flash-image"); [left|right]; reflexivity.
Qed.

Lemma configured_key key k :
  configured key = Some k -> key = Some k /\ k <> EmptyString.
Proof.
  unfold configured. destruct key as [k'|]; [|discriminate].
  destruct (String.eqb k' EmptyString) eqn:E; [discriminate|].
  intros H; injection H as <-. split; [reflexivity|]. apply String.eqb_neq. exact E.
Qed.

Lemma generate_calls_the_endpoint env w reqbody st ev :
  In ev (InMemory.calls_of (InMemory.post_api_generate env w reqbody st)) ->
  is_generateContent ev = true ->
  exists p text baseImage key,
    reaches env w reqbody p text baseImage key
    /\ ev = generateContent env key text baseImage.
Proof.
  pose proof (generate_takes_a_path env w reqbody st) as H.
  remember (InMemory.post_api_generate env w reqbody st) as reply eqn:E.
  clear E. destruct H; unfold InMemory.calls_of; cbn [snd]; intros Hin Hev.
  1-4: contradiction.
  all: exists p, text, baseImage, key; split; [assumption|].
  1-4: destruct Hin as [<-|[]]; reflexivity.
  destruct Hin as [<-|[<-|[]]]; [reflexivity|discriminate Hev].
Qed.

Lemma stored_generate_calls_the_endpoint env w sv reqbody images ev :
  In ev (Persistent.calls_of (Persistent.post_api_generate env w sv reqbody images)) ->
  is_generateContent ev = true ->
  exists p text baseImage key,
    reaches env w reqbody p text baseImage key
    /\ ev = generateContent env key text baseImage.
Proof.
  pose proof (stored_generate_takes_a_path env w sv reqbody images) as H.
  remember (Persistent.post_api_generate env w sv reqbody images) as reply eqn:E.
  clear E. destruct H; unfold Persistent.calls_of; cbn [snd]; intros Hin Hev.
  1-4: contradiction.
  all: exists p, text, baseImage, key; split; [assumption|].
  1-5: destruct Hin as [<-|[]]; reflexivity.
  1: destruct Hin as [<-|[<-|[]]]; [reflexivity|discriminate Hev].
  all: destruct Hin as [<-|[<-|[<-|[]]]]; [reflexivity|discriminate Hev|discriminate Hev].
Qed.

Lemma reaches_excludes env w reqbody p text baseImage key :
  reaches env w reqbody p text baseImage key ->
  truthy_opt (prompt_of reqbody) = true
  /\ base_file w <> None
  /\ configured (GOOGLE_API_KEY env) <> None
  /\ forall q, prompt_of reqbody = Some q -> ToString q <> None.
Proof.
  intros (Ha & Hb & Hk & Hs). split; [apply (asks_truthy _ _ Ha)|].
  split; [congruence|]. split; [congruence|].
  intros q Hq. destruct Ha as [Hp _]. congruence.
Qed.

Lemma generate_call_count env w reqbody st :
  (generation_calls (InMemory.calls_of (InMemory.post_api_generate env w reqbody st)) = 1
   /\ exists p text baseImage key, reaches env w reqbody p text baseImage key)
  \/ (InMemory.calls_of (InMemory.post_api_generate env w reqbody st) = []
      /\ ~ exists p text baseImage key, reaches env w reqbody p text baseImage key).
Proof.
  pose proof (generate_takes_a_path env w reqbody st) as H.
  remember (InMemory.post_api_generate env w reqbody st) as reply eqn:E.
  clear E.
  destruct H as [H|q [Hq Hq'] H|q b [Hq Hq'] Hb H|q b k [Hq Hq'] Hb Hk H| | | | | ];
    unfold InMemory.calls_of; cbn [snd].
  1-4: right; split; [reflexivity|];
       intros (p' & t' & b' & k' & Hr); apply reaches_excludes in Hr;
       destruct Hr as (H1 & H2 & H3 & H4); try congruence;
       exact (H4 _ Hq H).
  all: left; split; [reflexivity|eauto].
Qed.

Lemma stored_generate_call_count env w sv reqbody images :
  (generation_calls
     (Persistent.calls_of (Persistent.post_api_generate env w sv reqbody images)) = 1
   /\ exists p text baseImage key, reaches env w reqbody p text baseImage key)
  \/ (Persistent.calls_of (Persistent.post_api_generate env w sv reqbody images) = []
      /\ ~ exists p text baseImage key, reaches env w reqbody p text baseImage key).
Proof.
  pose proof (stored_generate_takes_a_path env w sv reqbody images) as H.
  remember (Persistent.post_api_generate env w sv reqbody images) as reply eqn:E.
  clear E.
  destruct H as [H|q [Hq Hq'] H|q b [Hq Hq'] Hb H|q b k [Hq Hq'] Hb Hk H| | | | | | | | ];
    unfold Persistent.calls_of; cbn [snd].
  1-4: right; split; [reflexivity|];
       intros (p' & t' & b' & k' & Hr); apply reaches_excludes in Hr;
       destruct Hr as (H1 & H2 & H3 & H4); try congruence;
       exact (H4 _ Hq H).
  all: left; split; [reflexivity|eauto].
Qed.

End Calls.

(** X6.  Every call a POST /api/generate makes to the generation endpoint is
    a POST to GOOGLE_API_BASE/v1beta/models/MODEL_ID:generateContent that
    carries the configured key, which is not empty, in the x-goog-api-key
    header, and the text of the prompt and the base image of the request in
    its body.  The model in the address is never the alias
    gemini-2.5-flash-image: it is the one of the environment as it is, or
    gemini-2.5-flash-image-preview.  Both servers. *)
Theorem generation_call_goes_to_the_configured_model {JSN : JSNumber} {ND : Node} :
  forall (env : Env) (w : World) (reqbody : option JValue) (ev : Event),
    (exists generatedImages,
       In ev (InMemory.calls_of
                (InMemory.post_api_generate env w reqbody generatedImages)))
    \/ (exists sv images,
          In ev (Persistent.calls_of
                   (Persistent.post_api_generate env w sv reqbody images))) ->
    is_generateContent ev = true ->
    exists p text baseImage key,
      reaches env w reqbody p text baseImage key
      /\ ev = Fetch "POST"
                (GOOGLE_API_BASE env ++ "/v1beta/models/" ++ MODEL_ID env
                   ++ ":generateContent")
                [("Content-Type", "application/json"); ("x-goog-api-key", key)]
                (Some (requestBody text baseImage))
      /\ GOOGLE_API_KEY env = Some key
      /\ key <> EmptyString
      /\ MODEL_ID env <> "gemini-2.5-flash-image"
      /\ (MODEL_ID env = "gemini-2.5-flash-image-preview"
          \/ env "MODEL_ID" = Some (MODEL_ID env)).
Proof.
  intros env w reqbody ev Hin Hev.
  assert (H : exists p text baseImage key,
                reaches env w reqbody p text baseImage key
                /\ ev = generateContent env key text baseImage).
  { destruct Hin as [[st Hin]|(sv & images & Hin)].
    - eapply generate_calls_the_endpoint; eauto.
    - eapply stored_generate_calls_the_endpoint; eauto. }
  destruct H as (p & text & baseImage & key & Hr & ->).
  exists p, text, baseImage, key. split; [exact Hr|]. split; [reflexivity|].
  destruct Hr as (_ & _ & Hk & _). apply configured_key in Hk. destruct Hk as [Hk Hne].
  split; [exact Hk|]. split; [exact Hne|].
  split; [apply MODEL_ID_is_no_alias|apply MODEL_ID_cases].
Qed.

Lemma generation_call_goes_to_the_configured_model_witness :
  let env : Env :=
    fun k => if String.eqb k "GOOGLE_API_KEY" then Some "AIza-sample"
             else if String.eqb k "MODEL_ID" then Some "gemini-2.5-flash-image"
             else None in
  let w := Sample.world 1758537512345.25%Q 1758537512345 (Sample.answer "AAAA") in
  let ev := Fetch "POST"
              "https://generativelanguage.googleapis.com/v1beta/models/gemini-2.5-flash-image-preview:generateContent"
              [("Content-Type", "application/json"); ("x-goog-api-key", "AIza-sample")]
              (Some (requestBody "a cat on the moon" Sample.png)) in
  In ev (InMemory.calls_of
           (InMemory.post_api_generate env w (Sample.request "a cat on the moon") []))
  /\ is_generateContent ev = true
  /\ MODEL_ID env <> "gemini-2.5-flash-image".
Proof.
  cbv zeta.
  set (env := fun k => if String.eqb k "GOOGLE_API_KEY" then Some "AIza-sample"
                       else if String.eqb k "MODEL_ID" then Some "gemini-2.5-flash-image"
                       else None).
  set (w := Sample.world 1758537512345.25%Q 1758537512345 (Sample.answer "AAAA")).
  set (ev := Fetch "POST"
               "https://generativelanguage.googleapis.com/v1beta/models/gemini-2.5-flash-image-preview:generateContent"
               [("Content-Type", "application/json"); ("x-goog-api-key", "AIza-sample")]
               (Some (requestBody "a cat on the moon" Sample.png))).
  assert (Hin : In ev (InMemory.calls_of
                         (InMemory.post_api_generate env w
                            (Sample.request "a cat on the moon") [])))
    by (left; reflexivity).
  split; [exact Hin|]. split; [reflexivity|].
  destruct (generation_call_goes_to_the_configured_model env w
              (Sample.request "a cat on the moon") ev
              (or_introl (ex_intro _ [] Hin)) eq_refl)
    as (_ & _ & _ & _ & _ & _ & _ & _ & H & _).
  exact H.
Defined.

(** X7.  A POST /api/generate calls the generation endpoint at most once:
    there is no retry.  It calls it exactly once when the prompt is truthy
    and has a text, the base image was read and a key is configured, and
    then before any other call; otherwise it calls nothing at all.  Both
    servers. *)
Theorem generation_endpoint_is_called_at_most_once {JSN : JSNumber} {ND : Node} :
  forall (env : Env) (w : World) (reqbody : option JValue),
    (forall generatedImages,
       let calls :=
         InMemory.calls_of (InMemory.post_api_generate env w reqbody generatedImages) in
       (generation_calls calls = 1
        /\ (exists p text baseImage key,
              reaches env w reqbody p text baseImage key
              /\ hd_error calls = Some (generateContent env key text baseImage)))
       \/ (calls = []
           /\ ~ exists p text baseImage key, reaches env w reqbody p text baseImage key))
    /\ (forall sv images,
          let calls :=
            Persistent.calls_of (Persistent.post_api_generate env w sv reqbody images) in
          (generation_calls calls = 1
           /\ (exists p text baseImage key,
                 reaches env w reqbody p text baseImage key
                 /\ hd_error calls = Some (generateContent env key text baseImage)))
          \/ (calls = []
              /\ ~ exists p text baseImage key,
                    reaches env w reqbody p text baseImage key)).
Proof.
  intros env w reqbody. split.
  - intros st calls. subst calls.
    destruct (generate_call_count env w reqbody st) as [[Hn _]|H]; [left|right; exact H].
    split; [exact Hn|].
    destruct (InMemory.calls_of (InMemory.post_api_generate env w reqbody st))
      as [|ev rest] eqn:E; [discriminate Hn|].
    assert (Hev : is_generateContent ev = true).
    { pose proof (generate_takes_a_path env w reqbody st) as H.
      remember (InMemory.post_api_generate env w reqbody st) as reply eqn:Er.
      clear Er. destruct H; unfold InMemory.calls_of in E; cbn [snd] in E;
        try discriminate E; injection E as <- _; reflexivity. }
    destruct (generate_calls_the_endpoint env w reqbody st ev)
      as (p & t & b & k & Hr & ->);
      [rewrite E; left; reflexivity|exact Hev|].
    exists p, t, b, k. split; [exact Hr|reflexivity].
  - intros sv images calls. subst calls.
    destruct (stored_generate_call_count env w sv reqbody images) as [[Hn _]|H];
      [left|right; exact H].
    split; [exact Hn|].
    destruct (Persistent.calls_of (Persistent.post_api_generate env w sv reqbody images))
      as [|ev rest] eqn:E; [discriminate Hn|].
    assert (Hev : is_generateContent ev = true).
    { pose proof (stored_generate_takes_a_path env w sv reqbody images) as H.
      remember (Persistent.post_api_generate env w sv reqbody images) as reply eqn:Er.
      clear Er. destruct H; unfold Persistent.calls_of in E; cbn [snd] in E;
        try discriminate E; injection E as <- _; reflexivity. }
    destruct (stored_generate_calls_the_endpoint env w sv reqbody images ev)
      as (p & t & b & k & Hr & ->); [rewrite E; left; reflexivity|exact Hev|].
    exists p, t, b, k. split; [exact Hr|reflexivity].
Qed.

(** X8.  The handler of POST /api/generate answers in one of two ways only:
    200 with a picture as image/png, or a JSON object whose first field is
    [error], with status 400, 500 or 502; in the second case no record is
    created.  It never answers 404, and never sends text.  Both servers. *)
Theorem generate_answers_a_picture_or_an_error {JSN : JSNumber} {ND : Node} :
  forall (env : Env) (w : World) (reqbody : option JValue),
    (forall generatedImages,
       let reply := InMemory.post_api_generate env w reqbody generatedImages in
       (exists buf, InMemory.response_of reply = res_png buf)
       \/ (InMemory.store_after reply = generatedImages
           /\ exists code msg others,
                InMemory.response_of reply
                = res_json code (JObj (("error", JStr msg) :: others))
                /\ (code = 400 \/ code = 500 \/ code = 502)%Z))
    /\ (forall sv images,
          let reply := Persistent.post_api_generate env w sv reqbody images in
          (exists buf, Persistent.response_of reply = res_png buf)
          \/ (Persistent.store_after reply = images
              /\ exists code msg others,
                   Persistent.response_of reply
                   = res_json code (JObj (("error", JStr msg) :: others))
                   /\ (code = 400 \/ code = 500 \/ code = 502)%Z)).
Proof.
  intros env w reqbody. split.
  - intros st reply. subst reply.
    pose proof (generate_takes_a_path env w reqbody st) as H.
    remember (InMemory.post_api_generate env w reqbody st) as reply eqn:E.
    clear E. destruct H; unfold InMemory.response_of, InMemory.store_after; cbn [fst snd].
    3,9: left; eexists; reflexivity.
    all: right; split; [reflexivity|]; do 3 eexists; split; [reflexivity|]; auto.
  - intros sv images reply. subst reply.
    pose proof (stored_generate_takes_a_path env w sv reqbody images) as H.
    remember (Persistent.post_api_generate env w sv reqbody images) as reply eqn:E.
    clear E. destruct H; unfold Persistent.response_of, Persistent.store_after;
      cbn [fst snd].
    3,12: left; eexists; reflexivity.
    all: right; split; [reflexivity|]; do 3 eexists; split; [reflexivity|]; auto.
Qed.

(** ** The records over a history of requests *)

Section Histories.
Context {JSN : JSNumber} {ND : Node}.

Lemma written_append file log1 : forall log2 before,
  written file (log1 ++ log2)%list before = written file log2 (written file log1 before).
Proof.
  induction log1 as [|ev log1 IH]; intros log2 before; [reflexivity|].
  destruct ev; cbn [written List.app]; apply IH.
Qed.

(** One request of server.mjs either leaves the array alone and writes
    nothing, or appends one record and writes the file once, with the whole
    array. *)
Lemma handle_writes_the_array env w req st :
  let reply := InMemory.handle env w req st in
  (InMemory.store_after reply = st
   /\ filter is_WriteFile (InMemory.calls_of reply) = [])
  \/ (exists img,
        InMemory.store_after reply = (st ++ [img])%list
        /\ filter is_WriteFile (InMemory.calls_of reply)
           = [WriteFile GALLERY_FILE
                (JArr (map InMemory.to_json (InMemory.store_after reply)))]).
Proof.
  destruct req as [reqbody| |imageId|imageId]; cbn [InMemory.handle]; cbv zeta.
  - pose proof (generate_takes_a_path env w reqbody st) as H.
    remember (InMemory.post_api_generate env w reqbody st) as reply eqn:E.
    clear E. destruct H; unfold InMemory.calls_of, InMemory.store_after; cbn [fst snd].
    1-8: left; split; reflexivity.
    right. eexists. split; reflexivity.
  - left. split; reflexivity.
  - left. unfold InMemory.get_api_image. destruct (find _ _); split; reflexivity.
  - left. unfold InMemory.get_api_download. destruct (find _ _); split; reflexivity.
Qed.

Lemma written_filter file log before :
  written file log before = written file (filter is_WriteFile log) before.
Proof.
  revert before. induction log as [|ev log IH]; intros before; [reflexivity|].
  destruct ev; cbn [written filter is_WriteFile]; apply IH.
Qed.

Lemma handle_writes env w req st before :
  let reply := InMemory.handle env w req st in
  (InMemory.store_after reply = st
   /\ written GALLERY_FILE (InMemory.calls_of reply) before = before)
  \/ written GALLERY_FILE (InMemory.calls_of reply) before
     = Some (JArr (map InMemory.to_json (InMemory.store_after reply))).
Proof.
  cbv zeta. rewrite written_filter.
  destruct (handle_writes_the_array env w req st) as [[Hst Hw]|(img & Hst & Hw)];
    rewrite Hw.
  - left. split; [exact Hst|reflexivity].
  - right. reflexivity.
Qed.

Lemma history_writes env history : forall st before,
  (InMemory.run env history st = st
   /\ written GALLERY_FILE (calls_over env history st) before = before)
  \/ written GALLERY_FILE (calls_over env history st) before
     = Some (JArr (map InMemory.to_json (InMemory.run env history st))).
Proof.
  induction history as [|[w req] later IH]; intros st before;
    cbn [InMemory.run calls_over]; [left; split; reflexivity|].
  cbv zeta. rewrite written_append.
  destruct (handle_writes env w req st before) as [[Hst Hw]|Hw].
  - rewrite Hst, Hw. apply IH.
  - rewrite Hw.
    destruct (IH (InMemory.store_after (InMemory.handle env w req st))
                 (Some (JArr (map InMemory.to_json
                                (InMemory.store_after (InMemory.handle env w req st))))))
      as [[Hrun Hlater]|Hlater]; right.
    + rewrite Hlater, Hrun. reflexivity.
    + exact Hlater.
Qed.

(** A generate call of server.mjs stores a record exactly when it answers 200
    having called the endpoint. *)
Lemma generate_assigns env w reqbody st :
  (InMemory.store_after (InMemory.post_api_generate env w reqbody st) = st
   /\ successful env
        (InMemory.response_of (InMemory.post_api_generate env w reqbody st)) = false)
  \/ (exists p imgBuffer,
        InMemory.store_after (InMemory.post_api_generate env w reqbody st)
        = (st ++ [InMemory.created w p imgBuffer])%list
        /\ successful env
             (InMemory.response_of (InMemory.post_api_generate env w reqbody st)) = true).
Proof.
  pose proof (generate_takes_a_path env w reqbody st) as H.
  remember (InMemory.post_api_generate env w reqbody st) as reply eqn:E.
  clear E.
  destruct H as [ | |q b Hq Hb Hk| | | | | |q t b k data b64 buf (_ & _ & Hk & _)];
    unfold InMemory.response_of, InMemory.store_after, successful; cbn [fst snd].
  1,2,4,5,6,7,8: left; split; reflexivity.
  - left. rewrite Hk. split; [reflexivity|apply andb_false_r].
  - right. exists q, buf. rewrite Hk. split; reflexivity.
Qed.

Lemma stored_generate_assigns env w sv reqbody images :
  (Persistent.store_after (Persistent.post_api_generate env w sv reqbody images) = images
   /\ successful env
        (Persistent.response_of (Persistent.post_api_generate env w sv reqbody images))
      = false)
  \/ (exists p secure_url public_id,
        Persistent.store_after (Persistent.post_api_generate env w sv reqbody images)
        = (images ++ [Persistent.inserted w sv p secure_url public_id])%list
        /\ existsb (Persistent.has_id (Persistent.bound (JNum (fresh_id w)))) images
           = false
        /\ successful env
             (Persistent.response_of
                (Persistent.post_api_generate env w sv reqbody images)) = true).
Proof.
  pose proof (stored_generate_takes_a_path env w sv reqbody images) as H.
  remember (Persistent.post_api_generate env w sv reqbody images) as reply eqn:E.
  clear E.
  destruct H as [ | |q b Hq Hb Hk| | | | | | | |
                 |q t b k data b64 buf pay url pid (_ & _ & Hk & _) _ _ _ _ _ _ Hfree];
    unfold Persistent.response_of, Persistent.store_after, successful; cbn [fst snd].
  1,2,4,5,6,7,8,9,10,11: left; split; reflexivity.
  - left. rewrite Hk. split; [reflexivity|apply andb_false_r].
  - right. exists q, url, pid. rewrite Hk. repeat split. exact Hfree.
Qed.

Lemma reads_keep env w req st :
  (forall reqbody, req <> InMemory.PostGenerate reqbody) ->
  InMemory.store_after (InMemory.handle env w req st) = st.
Proof.
  intros Hreq. destruct (handle_cases env w req st) as [H|(reqbody & _ & _ & E & _)];
    [exact H|]. destruct (Hreq _ E).
Qed.

Lemma stored_reads_keep env w sv req images :
  (forall reqbody, req <> Persistent.PostGenerate reqbody) ->
  Persistent.store_after (Persistent.handle env w sv req images) = images.
Proof.
  intros Hreq.
  destruct (stored_handle_cases env w sv req images)
    as [H|(reqbody & _ & _ & _ & _ & E & _)]; [exact H|]. destruct (Hreq _ E).
Qed.

Lemma run_assigns env history : forall st,
  map InMemory.id (InMemory.run env history st)
  = (map InMemory.id st ++ assigned env history st)%list.
Proof.
  induction history as [|[w req] later IH]; intros st; cbn [InMemory.run assigned].
  - symmetry. apply app_nil_r.
  - cbv zeta. rewrite IH.
    destruct req as [reqbody| |imageId|imageId].
    2-4: rewrite reads_keep by discriminate; reflexivity.
    cbn [InMemory.handle].
    destruct (generate_assigns env w reqbody st) as [[Hst Hok]|(p & buf & Hst & Hok)];
      rewrite Hst, Hok; [reflexivity|].
    rewrite map_app, <- app_assoc. reflexivity.
Qed.

Lemma stored_run_assigns env history : forall images,
  map Persistent.id (Persistent.run env history images)
  = (map Persistent.id images
       ++ map (fun n => Persistent.bound (JNum n)) (stored_assigned env history images))%list.
Proof.
  induction history as [|[[w sv] req] later IH]; intros images;
    cbn [Persistent.run stored_assigned].
  - symmetry. apply app_nil_r.
  - cbv zeta. rewrite IH.
    destruct req as [reqbody| |imageId|protocol host imageId|imageId].
    2-5: rewrite stored_reads_keep by discriminate; reflexivity.
    cbn [Persistent.handle].
    destruct (stored_generate_assigns env w sv reqbody images)
      as [[Hst Hok]|(p & url & pid & Hst & _ & Hok)];
      rewrite Hst, Hok; [reflexivity|].
    rewrite map_app, <- app_assoc. reflexivity.
Qed.

Lemma distinct_after_append (ids : list string) (x : string) :
  NoDup ids -> ~ In x ids -> NoDup (ids ++ [x])%list.
Proof.
  intros Hnd Hin. induction Hnd as [|y ids Hy Hnd IH]; cbn [List.app].
  - constructor; [intros []|constructor].
  - constructor.
    + intros H. apply in_app_or in H. destruct H as [H|[<-|[]]]; [exact (Hy H)|].
      apply Hin. left. reflexivity.
    + apply IH. intros H. apply Hin. right. exact H.
Qed.

Lemma free_id imageId (images : list Persistent.Row) :
  existsb (Persistent.has_id imageId) images = false ->
  ~ In imageId (map Persistent.id images).
Proof.
  intros Hfree Hin. apply in_map_iff in Hin. destruct Hin as (row & Hid & Hrow).
  assert (H : existsb (Persistent.has_id imageId) images = true).
  { apply existsb_exists. exists row. split; [exact Hrow|].
    unfold Persistent.has_id. rewrite Hid. apply String.eqb_refl. }
  rewrite H in Hfree. discriminate.
Qed.

Lemma stored_handle_keeps_distinct env w sv req images :
  NoDup (map Persistent.id images) ->
  NoDup (map Persistent.id (Persistent.store_after (Persistent.handle env w sv req images))).
Proof.
  intros Hnd. destruct req as [reqbody| |imageId|protocol host imageId|imageId].
  2-5: rewrite stored_reads_keep by discriminate; exact Hnd.
  cbn [Persistent.handle].
  destruct (stored_generate_assigns env w sv reqbody images)
    as [[Hst _]|(p & url & pid & Hst & Hfree & _)]; rewrite Hst; [exact Hnd|].
  rewrite map_app. cbn [map]. apply distinct_after_append; [exact Hnd|].
  apply free_id. exact Hfree.
Qed.

Lemma stored_run_keeps_distinct env history : forall images,
  NoDup (map Persistent.id images) ->
  NoDup (map Persistent.id (Persistent.run env history images)).
Proof.
  induction history as [|[[w sv] req] later IH]; intros images Hnd;
    cbn [Persistent.run]; [exact Hnd|].
  apply IH. apply stored_handle_keeps_distinct. exact Hnd.
Qed.

Lemma one_row_per_id imageId (images : list Persistent.Row) :
  NoDup (map Persistent.id images) ->
  length (Persistent.where_id imageId images) <= 1.
Proof.
  unfold Persistent.where_id.
  induction images as [|row rest IH]; intros Hnd; cbn [filter map] in *; [cbn; lia|].
  inversion Hnd as [|? ? Hnotin Hrest]; subst.
  destruct (Persistent.has_id imageId row) eqn:E; [|apply IH; exact Hrest].
  rewrite filter_none; [cbn; lia|].
  intros other Hin. destruct (Persistent.has_id imageId other) eqn:E'; [|reflexivity].
  exfalso. apply Hnotin. unfold Persistent.has_id in E, E'.
  apply String.eqb_eq in E. apply String.eqb_eq in E'. rewrite E, <- E'.
  apply in_map. exact Hin.
Qed.

End Histories.

(** X9.  server.mjs writes gallery.json only when it has stored a record, and
    what it writes is the whole array.  Each request either leaves the array
    as it was and writes no file, or appends one record and writes one file,
    gallery.json, with all the records then in the array, in their order.  So
    over any history of requests, with writes that go through, either no
    record was added and the file is as it was, or the file holds exactly the
    records of the array. *)
Theorem gallery_file_holds_the_records {JSN : JSNumber} {ND : Node} :
  forall env : Env,
    (forall w req generatedImages,
       let reply := InMemory.handle env w req generatedImages in
       (InMemory.store_after reply = generatedImages
        /\ filter is_WriteFile (InMemory.calls_of reply) = [])
       \/ (exists img,
             InMemory.store_after reply = (generatedImages ++ [img])%list
             /\ filter is_WriteFile (InMemory.calls_of reply)
                = [WriteFile GALLERY_FILE
                     (JArr (map InMemory.to_json (InMemory.store_after reply)))]))
    /\ (forall history generatedImages before,
          let now := InMemory.run env history generatedImages in
          let file :=
            written GALLERY_FILE (calls_over env history generatedImages) before in
          (now = generatedImages /\ file = before)
          \/ file = Some (JArr (map InMemory.to_json now))).
Proof.
  intros env. split.
  - intros w req generatedImages. apply handle_writes_the_array.
  - intros history generatedImages before now file. apply history_writes.
Qed.

(** X10.  Over any history of requests the ids of the stored records are the
    ids of the records present at the start followed by the ids drawn by the
    successful generate calls, one for each such call and in the order of the
    calls: a call stores one record, never more, and a prompt submitted again
    is stored again.  In server-persistent.mjs the ids are the texts of
    these numbers.  Both servers. *)
Theorem records_follow_the_successful_calls {JSN : JSNumber} {ND : Node} :
  forall env : Env,
    (forall history generatedImages,
       map InMemory.id (InMemory.run env history generatedImages)
       = (map InMemory.id generatedImages ++ assigned env history generatedImages)%list
       /\ length (InMemory.run env history generatedImages)
          = length generatedImages + length (assigned env history generatedImages))
    /\ (forall history images,
          map Persistent.id (Persistent.run env history images)
          = (map Persistent.id images
               ++ map (fun n => Persistent.bound (JNum n))
                    (stored_assigned env history images))%list
          /\ length (Persistent.run env history images)
             = length images + length (stored_assigned env history images)).
Proof.
  intros env. split.
  - intros history generatedImages.
    pose proof (run_assigns env history generatedImages) as H. split; [exact H|].
    apply (f_equal (@length _)) in H.
    rewrite length_app, !length_map in H. exact H.
  - intros history images.
    pose proof (stored_run_assigns env history images) as H. split; [exact H|].
    apply (f_equal (@length _)) in H.
    rewrite length_app, !length_map in H. exact H.
Qed.

(** X11.  The ids of the rows of server-persistent.mjs stay distinct: from a
    table whose ids are distinct, every history of requests leads to a table
    whose ids are distinct (an INSERT with a taken id fails, lines 43 to 49
    and 144 to 147), so the lookup by id of the image, share and download
    endpoints finds one row at most. *)
Theorem table_ids_stay_distinct {JSN : JSNumber} {ND : Node} :
  forall (env : Env) (history : list (World * Persistent.Services * Persistent.Request))
         (images : list Persistent.Row),
    NoDup (map Persistent.id images) ->
    NoDup (map Persistent.id (Persistent.run env history images))
    /\ forall imageId,
         length (Persistent.where_id imageId (Persistent.run env history images)) <= 1.
Proof.
  intros env history images Hnd.
  pose proof (stored_run_keeps_distinct env history images Hnd) as H.
  split; [exact H|]. intros imageId. apply one_row_per_id. exact H.
Qed.

Lemma table_ids_stay_distinct_witness :
  let w := Sample.world 1758537512345.25%Q 1758537512345 (Sample.answer "AAAA") in
  let sv := Sample.services 1758537512345.25%Q 1758537512345 [] Sample.png in
  let history := [(w, sv, Persistent.PostGenerate (Sample.request "a cat"));
                  (w, sv, Persistent.PostGenerate (Sample.request "a dog"))] in
  NoDup (map Persistent.id (@nil Persistent.Row))
  /\ map Persistent.id (Persistent.run Sample.with_key history []) = ["1758537512345.25"]
  /\ NoDup (map Persistent.id (Persistent.run Sample.with_key history [])).
Proof.
  cbv zeta. split; [constructor|]. split; [reflexivity|].
  exact (proj1 (table_ids_stay_distinct Sample.with_key
                  [(Sample.world 1758537512345.25%Q 1758537512345 (Sample.answer "AAAA"),
                    Sample.services 1758537512345.25%Q 1758537512345 [] Sample.png,
                    Persistent.PostGenerate (Sample.request "a cat"));
                   (Sample.world 1758537512345.25%Q 1758537512345 (Sample.answer "AAAA"),
                    Sample.services 1758537512345.25%Q 1758537512345 [] Sample.png,
                    Persistent.PostGenerate (Sample.request "a dog"))]
                  [] (NoDup_nil _))).
Defined.

(** ** Reading the records of server-persistent.mjs *)

Section Lookups.
Context {JSN : JSNumber} {ND : Node}.

(** What a generate call of server-persistent.mjs that adds a row has done. *)
Lemma stored_generate_added env w sv reqbody images response row calls :
  Persistent.post_api_generate env w sv reqbody images
  = (response, (images ++ [row])%list, calls) ->
  exists p imgBuffer secure_url public_id,
    asks reqbody p
    /\ response = res_png imgBuffer
    /\ Persistent.uploaded sv = Some (secure_url, public_id)
    /\ row = Persistent.inserted w sv p secure_url public_id
    /\ existsb (Persistent.has_id (Persistent.id row)) images = false.
Proof.
  intros Hgen.
  pose proof (stored_generate_takes_a_path env w sv reqbody images) as H.
  rewrite Hgen in H. clear Hgen.
  remember (response, (images ++ [row])%list, calls) as reply eqn:E.
  destruct H as [ | | | | | | | | | |
                 |q t b k data b64 buf pay url pid (Hq & _) _ _ _ _ Hup _ Hfree];
    injection E as Hresp Hstore _;
    try (exfalso; eapply not_longer; eassumption).
  apply app_inj_tail in Hstore. destruct Hstore as [_ <-].
  exists q, buf, url, pid. repeat split; try assumption; try apply Hq.
  symmetry. exact Hresp.
Qed.

Lemma generate_added env w reqbody st response img calls :
  InMemory.post_api_generate env w reqbody st = (response, (st ++ [img])%list, calls) ->
  exists p imgBuffer,
    asks reqbody p
    /\ response = res_png imgBuffer
    /\ img = InMemory.created w p imgBuffer.
Proof.
  intros Hgen.
  pose proof (generate_takes_a_path env w reqbody st) as H.
  rewrite Hgen in H. clear Hgen.
  remember (response, (st ++ [img])%list, calls) as reply eqn:E.
  destruct H as [ | | | | | | |
                 |q t b k data b64 buf (Hq & _)];
    injection E as Hresp Hstore _;
    try (exfalso; eapply not_longer; eassumption).
  apply app_inj_tail in Hstore. destruct Hstore as [_ <-].
  exists q, buf. repeat split; try apply Hq.
  symmetry. exact Hresp.
Qed.

Lemma where_id_finds (images : list Persistent.Row) row later :
  existsb (Persistent.has_id (Persistent.id row)) images = false ->
  exists others,
    Persistent.where_id (Persistent.id row) (images ++ row :: later)%list = row :: others.
Proof.
  intros Hfree. exists (filter (Persistent.has_id (Persistent.id row)) later).
  unfold Persistent.where_id. apply filter_first.
  - intros old Hin. destruct (Persistent.has_id _ old) eqn:E; [|reflexivity].
    assert (Hex : existsb (Persistent.has_id (Persistent.id row)) images = true)
      by (apply existsb_exists; exists old; split; [exact Hin|exact E]).
    rewrite Hex in Hfree. discriminate.
  - unfold Persistent.has_id. apply String.eqb_refl.
Qed.

Lemma where_id_sound imageId (images : list Persistent.Row) image rest :
  Persistent.where_id imageId images = image :: rest ->
  In image images /\ Persistent.id image = imageId.
Proof.
  intros H.
  assert (Hin : In image (Persistent.where_id imageId images))
    by (rewrite H; left; reflexivity).
  apply filter_In in Hin. destruct Hin as [Hin Hid].
  split; [exact Hin|]. apply String.eqb_eq. exact Hid.
Qed.

End Lookups.

(** X12.  In server-persistent.mjs, for every row a POST /api/generate
    inserted, a later GET /api/download/:id for the id of the row, made while
    the database answers, is answered by a redirection, 302, to the address
    the upload of that very request returned, which Express encodes into the
    Location header; it makes one query, fetches nothing, and leaves the
    table alone. *)
Theorem download_redirects_to_the_upload {JSN : JSNumber} {ND : Node} :
  forall (env : Env) (w : World) (sv : Persistent.Services)
         (reqbody : option JValue) (images : list Persistent.Row)
         (response : Response) (row : Persistent.Row) (calls : list Event)
         (history : list (World * Persistent.Services * Persistent.Request))
         (later : Persistent.Services),
    Persistent.post_api_generate env w sv reqbody images
    = (response, (images ++ [row])%list, calls) ->
    Persistent.db_up later = true ->
    let now := Persistent.run env history (images ++ [row])%list in
    let reply := Persistent.get_api_download later (Persistent.id row) now in
    (exists public_id,
       Persistent.uploaded sv = Some (Persistent.cloudinary_url row, public_id))
    /\ Persistent.response_of reply = res_redirect (Persistent.cloudinary_url row)
    /\ status (Persistent.response_of reply) = 302%Z
    /\ headers (Persistent.response_of reply)
       = [("Location", encodeUrl (Persistent.cloudinary_url row))]
    /\ Persistent.store_after reply = now
    /\ Persistent.calls_of reply
       = [Query "SELECT * FROM images WHERE id = $1" [JStr (Persistent.id row)]].
Proof.
  intros env w sv reqbody images response row calls history later Hgen Hup now reply.
  destruct (stored_generate_added env w sv reqbody images response row calls Hgen)
    as (p & buf & url & pid & _ & _ & Hupl & Hrow & Hfree).
  split; [exists pid; rewrite Hupl, Hrow; reflexivity|].
  subst reply now.
  destruct (stored_run_extends env history (images ++ [row])%list) as [added ->].
  rewrite <- app_assoc. cbn [List.app].
  destruct (where_id_finds images row added Hfree) as [others Hfound].
  unfold Persistent.get_api_download, try_catch, bind.
  rewrite query_answers, Hup, Hfound. repeat split.
Qed.

Lemma download_redirects_to_the_upload_witness :
  let w := Sample.world 1758537512345.25%Q 1758537512345 (Sample.answer "AAAA") in
  let sv := Sample.services 1758537512345.25%Q 1758537512345 [] Sample.png in
  let row := Persistent.inserted w sv (JStr "a cat on the moon")
               (Sample.url_of 1758537512345.25%Q)
               (Sample.public_id_of 1758537512345.25%Q) in
  Persistent.store_after
    (Persistent.post_api_generate Sample.with_key w sv
       (Sample.request "a cat on the moon") [])
  = [row]
  /\ headers
       (Persistent.response_of
          (Persistent.get_api_download sv "1758537512345.25"
             (Persistent.run Sample.with_key
                [(Sample.world 1758537519000.5%Q 1758537519000 (Sample.answer "////"),
                  Sample.services 1758537519000.5%Q 1758537519000 [] Sample.png,
                  Persistent.PostGenerate (Sample.request "a dog"))]
                [row])))
     = [("Location",
         "https://res.cloudinary.com/demo/image/upload/degenify/1758537512345.25.png")].
Proof.
  cbv zeta. split; [reflexivity|].
  set (w := Sample.world 1758537512345.25%Q 1758537512345 (Sample.answer "AAAA")).
  set (sv := Sample.services 1758537512345.25%Q 1758537512345 [] Sample.png).
  set (row := Persistent.inserted w sv (JStr "a cat on the moon")
                (Sample.url_of 1758537512345.25%Q)
                (Sample.public_id_of 1758537512345.25%Q)).
  assert (Hgen : Persistent.post_api_generate Sample.with_key w sv
                   (Sample.request "a cat on the moon") []
                 = (res_png [x00; x00; x00], ([] ++ [row])%list,
                    Persistent.calls_of
                      (Persistent.post_api_generate Sample.with_key w sv
                         (Sample.request "a cat on the moon") [])))
    by reflexivity.
  destruct (download_redirects_to_the_upload Sample.with_key w sv
              (Sample.request "a cat on the moon") [] _ row _
              [(Sample.world 1758537519000.5%Q 1758537519000 (Sample.answer "////"),
                Sample.services 1758537519000.5%Q 1758537519000 [] Sample.png,
                Persistent.PostGenerate (Sample.request "a dog"))]
              sv Hgen eq_refl) as (_ & _ & _ & H & _).
  exact H.
Defined.

(** X13.  GET /api/share/:id, in both versions of the page, makes one query
    and never changes the table.  When the query fails the answer is 500 with
    the text Server error; when no row has the id it is 404 with the text
    Image not found (a text in both cases, not the JSON object of the other
    endpoints); otherwise it is 200 with the page of the first row that has
    the id, sent as text/html. *)
Theorem share_answers_in_text {JSN : JSNumber} {ND : Node} :
  forall (w : World) (sv : Persistent.Services) (protocol host imageId : string)
         (images : list Persistent.Row),
    let lookup := [Query "SELECT * FROM images WHERE id = $1" [JStr imageId]] in
    let page := Persistent.get_api_share w sv protocol host imageId images in
    let earlier := Plain.get_api_share sv protocol host imageId images in
    (Persistent.db_up sv = false
     /\ page = (res_send_text 500 "Server error", images, lookup)
     /\ earlier = (res_send_text 500 "Server error", images, lookup))
    \/ (Persistent.db_up sv = true
        /\ (forall row, In row images -> Persistent.id row <> imageId)
        /\ page = (res_send_text 404 "Image not found", images, lookup)
        /\ earlier = (res_send_text 404 "Image not found", images, lookup))
    \/ (exists image others,
          Persistent.db_up sv = true
          /\ Persistent.where_id imageId images = image :: others
          /\ In image images
          /\ Persistent.id image = imageId
          /\ page
             = ({| status := 200; headers := [("Content-Type", "text/html")];
                   body := Text (Persistent.html protocol host imageId
                                   (protocol ++ "://" ++ host ++ "/api/image/" ++ imageId)
                                   (Persistent.cloudinary_url image ++ "?t="
                                      ++ decimal (clock w))
                                   image) |},
                images, lookup)
          /\ earlier
             = ({| status := 200; headers := [("Content-Type", "text/html")];
                   body := Text (Plain.html protocol host imageId
                                   (protocol ++ "://" ++ host ++ "/api/image/" ++ imageId)
                                   image) |},
                images, lookup)).
Proof.
  intros w sv protocol host imageId images lookup page earlier.
  subst lookup page earlier.
  unfold Persistent.get_api_share, Plain.get_api_share, try_catch, bind.
  rewrite !query_answers.
  destruct (Persistent.db_up sv) eqn:Hup; [right|left; repeat split].
  destruct (Persistent.where_id imageId images) as [|image others] eqn:Hrows.
  - left. split; [reflexivity|]. split; [|split; reflexivity].
    intros row Hin Hid.
    assert (H : In row (Persistent.where_id imageId images)).
    { apply filter_In. split; [exact Hin|]. unfold Persistent.has_id.
      rewrite Hid. apply String.eqb_refl. }
    rewrite Hrows in H. exact H.
  - right. exists image, others.
    destruct (where_id_sound imageId images image others Hrows) as [Hin Hid].
    repeat split; assumption.
Qed.

(** X14.  GET /api/image/:id of server-persistent.mjs serves what the object
    store holds, not what the table holds.  For a row that is in the table,
    with the database answering: when the store has the picture no more, the
    answer is 404 (Image not found on Cloudinary), though the row stays and
    GET /api/download/:id still redirects to its address; when the store
    cannot be reached the answer is 500 (Database error); when it serves
    bytes they are sent as image/png, cacheable for a year.  Each time the
    handler makes one query and one GET of the stored address. *)
Theorem stored_image_follows_the_object_store {JSN : JSNumber} {ND : Node} :
  forall (sv : Persistent.Services) (imageId : string)
         (images : list Persistent.Row) (image : Persistent.Row)
         (others : list Persistent.Row),
    Persistent.db_up sv = true ->
    Persistent.where_id imageId images = image :: others ->
    let calls := [Query "SELECT * FROM images WHERE id = $1" [JStr imageId];
                  Fetch "GET" (Persistent.cloudinary_url image) [] None] in
    (Persistent.stored sv (Persistent.cloudinary_url image) = Persistent.Missing ->
     Persistent.get_api_image sv imageId images
     = (res_json 404 (error_body "Image not found on Cloudinary"), images, calls)
     /\ Persistent.response_of (Persistent.get_api_download sv imageId images)
        = res_redirect (Persistent.cloudinary_url image))
    /\ (Persistent.stored sv (Persistent.cloudinary_url image) = Persistent.Unreachable ->
        Persistent.get_api_image sv imageId images
        = (res_json 500 (error_body "Database error"), images, calls))
    /\ (forall imageBuffer,
          Persistent.stored sv (Persistent.cloudinary_url image)
          = Persistent.Found imageBuffer ->
          Persistent.get_api_image sv imageId images
          = ({| status := 200;
                headers := [("Content-Type", "image/png");
                            ("Cache-Control", "public, max-age=31536000")];
                body := Bytes imageBuffer |}, images, calls)).
Proof.
  intros sv imageId images image others Hup Hrows calls. subst calls.
  unfold Persistent.get_api_image, Persistent.get_api_download, try_catch, bind.
  rewrite !query_answers, Hup, Hrows. unfold call. cbn [fst snd].
  split; [|split]; intros; rewrite H; repeat split.
Qed.

Lemma stored_image_follows_the_object_store_witness :
  let row := {| Persistent.id := "1758537512345.25";
                Persistent.prompt := "a cat on the moon";
                Persistent.cloudinary_url := Sample.url_of 1758537512345.25%Q;
                Persistent.cloudinary_public_id := Sample.public_id_of 1758537512345.25%Q;
                Persistent.timestamp := 1758537512345 |} in
  let sv := {| Persistent.uploaded := None;
               Persistent.db_up := true;
               Persistent.db_clock := 1758537519000;
               Persistent.listed := [row];
               Persistent.stored := fun _ => Persistent.Missing |} in
  Persistent.where_id "1758537512345.25" [row] = [row]
  /\ Persistent.response_of (Persistent.get_api_image sv "1758537512345.25" [row])
     = res_json 404 (error_body "Image not found on Cloudinary")
  /\ Persistent.response_of (Persistent.get_api_download sv "1758537512345.25" [row])
     = res_redirect
         "https://res.cloudinary.com/demo/image/upload/degenify/1758537512345.25.png".
Proof.
  cbv zeta. split; [reflexivity|].
  set (row := {| Persistent.id := "1758537512345.25";
                 Persistent.prompt := "a cat on the moon";
                 Persistent.cloudinary_url := Sample.url_of 1758537512345.25%Q;
                 Persistent.cloudinary_public_id := Sample.public_id_of 1758537512345.25%Q;
                 Persistent.timestamp := 1758537512345 |}).
  set (sv := {| Persistent.uploaded := None;
                Persistent.db_up := true;
                Persistent.db_clock := 1758537519000;
                Persistent.listed := [row];
                Persistent.stored := fun _ => Persistent.Missing |}).
  destruct (proj1 (stored_image_follows_the_object_store sv "1758537512345.25" [row]
                     row [] eq_refl eq_refl) eq_refl) as [Himage Hdownload].
  split; [rewrite Himage; reflexivity|exact Hdownload].
Defined.

(** X15.  A record that POST /api/generate created is in every later answer
    of GET /api/gallery.  In server.mjs the listing has one element for each
    stored record, the element of the new record carries the prompt of the
    request as it was sent, and its imageData decodes to the bytes the
    generate call answered with.  In server-persistent.mjs the same holds of
    the row, with the prompt as the parameter of the INSERT carries it, when
    the database answers with the rows of the table. *)
Theorem generated_record_is_listed {JSN : JSNumber} {ND : Node} :
  forall env : Env,
    (forall w reqbody generatedImages response img calls history,
       InMemory.post_api_generate env w reqbody generatedImages
       = (response, (generatedImages ++ [img])%list, calls) ->
       let now := InMemory.run env history (generatedImages ++ [img])%list in
       let listing := elements_of (InMemory.response_of (InMemory.get_api_gallery now)) in
       In (InMemory.to_json img) listing
       /\ length listing = length now
       /\ prompt_of reqbody = Some (InMemory.prompt img)
       /\ response = res_png (base64_decode (InMemory.imageData img)))
    /\ (forall w sv reqbody images response row calls history later,
          Persistent.post_api_generate env w sv reqbody images
          = (response, (images ++ [row])%list, calls) ->
          Persistent.db_up later = true ->
          let now := Persistent.run env history (images ++ [row])%list in
          Persistent.order_by_timestamp_desc now (Persistent.listed later) ->
          let listing :=
            elements_of (Persistent.response_of (Persistent.get_api_gallery later now)) in
          In (Persistent.to_json row) listing
          /\ length listing = length now
          /\ exists p, prompt_of reqbody = Some p
                       /\ Persistent.prompt row = Persistent.bound p).
Proof.
  intros env. split.
  - intros w reqbody st response img calls history Hgen now listing.
    destruct (generate_added env w reqbody st response img calls Hgen)
      as (p & buf & [Hp Ht] & -> & ->).
    assert (Hlisting : listing = map InMemory.to_json (InMemory.sortedImages now))
      by reflexivity.
    rewrite Hlisting. split; [|split; [|split]].
    + apply in_map. apply (Permutation_in _ (Array_sort_perm InMemory.newest_first now)).
      subst now.
      destruct (run_extends env history (st ++ [InMemory.created w p buf])%list)
        as [added ->].
      apply in_or_app. left. apply in_or_app. right. left. reflexivity.
    + rewrite length_map. symmetry. apply Permutation_length.
      apply (Array_sort_perm InMemory.newest_first now).
    + exact Hp.
    + cbn [InMemory.created InMemory.imageData]. rewrite base64_decode_encode.
      reflexivity.
  - intros w sv reqbody images response row calls history later Hgen Hup now
           [Hperm _] listing.
    destruct (stored_generate_added env w sv reqbody images response row calls Hgen)
      as (p & buf & url & pid & [Hp Ht] & _ & _ & Hrow & _).
    assert (Hlisting : listing = map Persistent.to_json (Persistent.listed later)).
    { subst listing.
      unfold Persistent.get_api_gallery, try_catch, bind.
      rewrite query_answers, Hup. reflexivity. }
    rewrite Hlisting. split; [|split].
    + apply in_map. apply (Permutation_in _ Hperm). subst now.
      destruct (stored_run_extends env history (images ++ [row])%list) as [added ->].
      apply in_or_app. left. apply in_or_app. right. left. reflexivity.
    + rewrite length_map. symmetry. apply Permutation_length. exact Hperm.
    + exists p. split; [exact Hp|]. rewrite Hrow. reflexivity.
Qed.

Lemma generated_record_is_listed_witness :
  let w := Sample.world 1758537512345.25%Q 1758537512345 (Sample.answer "AAAA") in
  let img := InMemory.created w (JStr "a cat on the moon") [x00; x00; x00] in
  let later := (Sample.world 1758537519000.5%Q 1758537519000 (Sample.answer "////"),
                InMemory.PostGenerate (Sample.request "a dog")) in
  InMemory.store_after
    (InMemory.post_api_generate Sample.with_key w (Sample.request "a cat on the moon") [])
  = [img]
  /\ In (InMemory.to_json img)
        (elements_of
           (InMemory.response_of
              (InMemory.get_api_gallery (InMemory.run Sample.with_key [later] [img]))))
  /\ map InMemory.prompt (InMemory.run Sample.with_key [later] [img])
     = [JStr "a cat on the moon"; JStr "a dog"].
Proof.
  cbv zeta. split; [reflexivity|].
  set (w := Sample.world 1758537512345.25%Q 1758537512345 (Sample.answer "AAAA")).
  set (img := InMemory.created w (JStr "a cat on the moon") [x00; x00; x00]).
  assert (Hgen : InMemory.post_api_generate Sample.with_key w
                   (Sample.request "a cat on the moon") []
                 = (res_png [x00; x00; x00], ([] ++ [img])%list,
                    InMemory.calls_of
                      (InMemory.post_api_generate Sample.with_key w
                         (Sample.request "a cat on the moon") [])))
    by reflexivity.
  split; [|reflexivity].
  exact (proj1 (proj1 (generated_record_is_listed Sample.with_key) w
                  (Sample.request "a cat on the moon") [] _ img _
                  [(Sample.world 1758537519000.5%Q 1758537519000 (Sample.answer "////"),
                    InMemory.PostGenerate (Sample.request "a dog"))]
                  Hgen)).
Defined.

(** ** Which payload is taken *)

Section Choice.
Context {JSN : JSNumber}.

Lemma b64_of_scans data :
  b64_of data = match scan (parts_of data) with Some b64 => b64 | None => None end.
Proof.
  unfold b64_of, parts_of.
  destruct (get data "candidates") as [candidates|]; [|reflexivity].
  destruct (iterate _) as [items|]; reflexivity.
Qed.

Lemma scan_passes before rest :
  Forall without_payload before -> ~ In JNull before ->
  scan (before ++ rest)%list = scan rest.
Proof.
  induction before as [|part before IH]; intros Hno Hnull; [reflexivity|].
  inversion Hno as [|? ? [H1 H2] Hrest]; subst.
  assert (Hpart : part <> JNull) by (intros ->; apply Hnull; left; reflexivity).
  cbn [List.app scan]. rewrite !(get_of_part part _ Hpart).
  apply payload_none in H1. apply payload_none in H2. rewrite H1, H2.
  apply IH; [exact Hrest|]. intros H. apply Hnull. right. exact H.
Qed.

Lemma payload_some key part v :
  payload key part = Some v ->
  part <> JNull
  /\ get_opt (get_opt (Some part) key) "data" = Some v
  /\ truthy v = true.
Proof.
  unfold payload. cbv zeta.
  destruct (truthy_opt (get_opt (get_opt (Some part) key) "data")) eqn:E; [|discriminate].
  intros H. rewrite H in E. split; [|split; [exact H|exact E]].
  intros ->. discriminate H.
Qed.

Lemma scan_takes part rest v :
  payload "inline_data" part = Some v
  \/ (payload "inline_data" part = None /\ payload "inlineData" part = Some v) ->
  scan (part :: rest) = Some (Some v).
Proof.
  intros [H|[Hnone H]].
  - apply payload_some in H. destruct H as (Hpart & Hv & Ht).
    cbn [scan]. rewrite (get_of_part part _ Hpart), Hv. cbn [truthy_opt].
    rewrite Ht. reflexivity.
  - apply payload_some in H. destruct H as (Hpart & Hv & Ht).
    apply payload_none in Hnone.
    cbn [scan]. rewrite !(get_of_part part _ Hpart), Hnone, Hv. cbn [truthy_opt].
    rewrite Ht. reflexivity.
Qed.

End Choice.

(** X16.  Of several payloads in the answer of the generation endpoint the
    handlers take the first: the payload of the first part of the first
    candidate that holds one, no [null] part coming before it, and within
    that part the one under [inline_data] in preference to the one under
    [inlineData].  What comes after that part is not read.  When the
    endpoint was called and the payload is a text, server.mjs answers with
    its decoded bytes. *)
Theorem first_payload_is_taken {JSN : JSNumber} {ND : Node} :
  forall (data : JValue) (before : list JValue) (part : JValue) (after : list JValue)
         (v : JValue),
    parts_of data = (before ++ part :: after)%list ->
    Forall without_payload before ->
    ~ In JNull before ->
    payload "inline_data" part = Some v
    \/ (payload "inline_data" part = None /\ payload "inlineData" part = Some v) ->
    b64_of data = Some v
    /\ forall env w reqbody p text baseImage key s generatedImages,
         reaches env w reqbody p text baseImage key ->
         upstream w = Ok data ->
         v = JStr s ->
         InMemory.response_of (InMemory.post_api_generate env w reqbody generatedImages)
         = res_png (base64_decode s).
Proof.
  intros data before part after v Hparts Hno Hnull Hpart.
  assert (H64 : b64_of data = Some v).
  { rewrite b64_of_scans, Hparts, (scan_passes before _ Hno Hnull).
    rewrite (scan_takes part after v Hpart). reflexivity. }
  split; [exact H64|].
  intros env w reqbody p text baseImage key s st ([Hp Ht] & Hb & Hk & Hs) Hu ->.
  rewrite (generate_created env w reqbody st p text baseImage key data (JStr s)
             (base64_decode s)) by (assumption || reflexivity).
  reflexivity.
Qed.

Lemma first_payload_is_taken_witness :
  let text := JObj [("text", JStr "Two pictures.")] in
  let both := JObj [("inline_data", JObj [("data", JStr "AAAA")]);
                    ("inlineData", JObj [("data", JStr "////")])] in
  let last := JObj [("inlineData", JObj [("data", JStr "AAAB")])] in
  let data := JObj [("candidates", JArr [
                JObj [("content", JObj [("parts", JArr [text; both; last])])]])] in
  parts_of data = ([text] ++ both :: [last])%list
  /\ Forall without_payload [text]
  /\ payload "inline_data" both = Some (JStr "AAAA")
  /\ b64_of data = Some (JStr "AAAA").
Proof.
  cbv zeta.
  set (text := JObj [("text", JStr "Two pictures.")]).
  set (both := JObj [("inline_data", JObj [("data", JStr "AAAA")]);
                     ("inlineData", JObj [("data", JStr "////")])]).
  set (last := JObj [("inlineData", JObj [("data", JStr "AAAB")])]).
  set (data := JObj [("candidates", JArr [
                 JObj [("content", JObj [("parts", JArr [text; both; last])])]])]).
  assert (Hno : Forall without_payload [text])
    by (constructor; [split; reflexivity|constructor]).
  assert (Hnull : ~ In JNull [text]) by (intros [H|[]]; discriminate H).
  split; [reflexivity|]. split; [exact Hno|]. split; [reflexivity|].
  exact (proj1 (first_payload_is_taken data [text] both [last] (JStr "AAAA")
                  eq_refl Hno Hnull (or_introl eq_refl))).
Defined.

(** ** The order of the records *)

Section Order.
Context {JSN : JSNumber} {ND : Node}.

Lemma run_keeps_order env history : forall st last,
  older_first st last -> ticking last history ->
  exists last', older_first (InMemory.run env history st) last'.
Proof.
  induction history as [|[w req] later IH]; intros st last Hst Htick;
    cbn [InMemory.run]; [exists last; exact Hst|].
  destruct Htick as [Hlast Htick]. destruct Hst as [Hsorted Hbound].
  apply (IH _ (clock w)); [|exact Htick].
  destruct (handle_cases env w req st) as [H|(reqbody & p & buf & _ & _ & H)];
    rewrite H; unfold InMemory.store_after; cbn [fst snd].
  - split; [exact Hsorted|].
    eapply Forall_impl; [|exact Hbound]. cbv beta. intros a Ha. lia.
  - split.
    + apply sorted_append; [exact Hsorted|repeat constructor|].
      intros a b Ha [<-|[]]. rewrite Forall_forall in Hbound.
      specialize (Hbound a Ha). cbn. lia.
    + apply Forall_app. split.
      * eapply Forall_impl; [|exact Hbound]. cbv beta. intros a Ha. lia.
      * repeat constructor. cbn. lia.
Qed.

Lemma stored_run_keeps_order env history : forall images last,
  stored_older_first images last -> stored_ticking last history ->
  exists last', stored_older_first (Persistent.run env history images) last'.
Proof.
  induction history as [|[[w sv] req] later IH]; intros images last Hst Htick;
    cbn [Persistent.run]; [exists last; exact Hst|].
  destruct Htick as [Hlast Htick]. destruct Hst as [Hsorted Hbound].
  apply (IH _ (Persistent.db_clock sv)); [|exact Htick].
  destruct (stored_handle_cases env w sv req images)
    as [H|(reqbody & p & buf & url & pid & _ & _ & _ & H)];
    rewrite H; unfold Persistent.store_after; cbn [fst snd].
  - split; [exact Hsorted|].
    eapply Forall_impl; [|exact Hbound]. cbv beta. intros a Ha. lia.
  - split.
    + apply sorted_append; [exact Hsorted|repeat constructor|].
      intros a b Ha [<-|[]]. rewrite Forall_forall in Hbound.
      specialize (Hbound a Ha). cbn. lia.
    + apply Forall_app. split.
      * eapply Forall_impl; [|exact Hbound]. cbv beta. intros a Ha. lia.
      * repeat constructor. cbn. lia.
Qed.

End Order.

(** X17.  When every request is handled at a later millisecond than the one
    before it, GET /api/gallery lists the records in the reverse of the order
    in which they were created, the latest first: from records in the order of
    their timestamps, none later than [last], and after any such history,
    server.mjs answers with the stored array reversed, and so does
    server-persistent.mjs when the database answers with the rows of the
    table, which its clock stamps. *)
Theorem gallery_lists_the_latest_first {JSN : JSNumber} {ND : Node} :
  forall env : Env,
    (forall history generatedImages last,
       StronglySorted (fun a b => (InMemory.timestamp a < InMemory.timestamp b)%Z)
         generatedImages ->
       Forall (fun a => (InMemory.timestamp a <= last)%Z) generatedImages ->
       ticking last history ->
       let now := InMemory.run env history generatedImages in
       InMemory.get_api_gallery now
       = (res_json 200 (JArr (map InMemory.to_json (rev now))), now, []))
    /\ (forall history images last later,
          StronglySorted (fun a b => (Persistent.timestamp a < Persistent.timestamp b)%Z)
            images ->
          Forall (fun a => (Persistent.timestamp a <= last)%Z) images ->
          stored_ticking last history ->
          let now := Persistent.run env history images in
          Persistent.db_up later = true ->
          Persistent.order_by_timestamp_desc now (Persistent.listed later) ->
          Persistent.get_api_gallery later now
          = (res_json 200 (JArr (map Persistent.to_json (rev now))), now,
             [Query "SELECT * FROM images ORDER BY timestamp DESC" []])).
Proof.
  intros env. split.
  - intros history st last Hsorted Hbound Htick now.
    destruct (run_keeps_order env history st last (conj Hsorted Hbound) Htick)
      as [last' [Hnow _]].
    unfold InMemory.get_api_gallery, InMemory.sortedImages.
    rewrite Array_sort_reverses; [reflexivity|].
    eapply sorted_weaken; [|exact Hnow].
    intros a b. cbv beta. unfold InMemory.newest_first. lia.
  - intros history images last later Hsorted Hbound Htick now Hup Hlisted.
    destruct (stored_run_keeps_order env history images last (conj Hsorted Hbound) Htick)
      as [last' [Hnow _]].
    unfold Persistent.get_api_gallery, try_catch, bind.
    rewrite query_answers, Hup.
    rewrite (listed_in_reverse _ _ Hnow Hlisted). reflexivity.
Qed.

Lemma gallery_lists_the_latest_first_witness :
  let w1 := Sample.world 1758537512345.25%Q 1758537512345 (Sample.answer "AAAA") in
  let w2 := Sample.world 1758537519000.5%Q 1758537519000 (Sample.answer "////") in
  let history := [(w1, InMemory.PostGenerate (Sample.request "a cat"));
                  (w2, InMemory.PostGenerate (Sample.request "a dog"))] in
  ticking 0 history
  /\ map InMemory.prompt (InMemory.run Sample.with_key history [])
     = [JStr "a cat"; JStr "a dog"]
  /\ InMemory.response_of
       (InMemory.get_api_gallery (InMemory.run Sample.with_key history []))
     = res_json 200
         (JArr (map InMemory.to_json
                  [InMemory.created w2 (JStr "a dog") [xff; xff; xff];
                   InMemory.created w1 (JStr "a cat") [x00; x00; x00]])).
Proof.
  cbv zeta.
  set (w1 := Sample.world 1758537512345.25%Q 1758537512345 (Sample.answer "AAAA")).
  set (w2 := Sample.world 1758537519000.5%Q 1758537519000 (Sample.answer "////")).
  set (history := [(w1, InMemory.PostGenerate (Sample.request "a cat"));
                   (w2, InMemory.PostGenerate (Sample.request "a dog"))]).
  assert (Htick : ticking 0 history) by (cbn; lia).
  split; [exact Htick|]. split; [reflexivity|].
  rewrite (proj1 (gallery_lists_the_latest_first Sample.with_key) history [] 0%Z
             (SSorted_nil _) (Forall_nil _) Htick).
  reflexivity.
Defined.
